(** * The marker-text renderer of [docx_generator.py]

    A shallow embedding of [text_to_docx] and of its helpers
    [add_styled_paragraph] and [add_bullet_point], followed by the
    properties of the layout pass (title/company/date pairing, skills
    inline append, bullet sentence splitting, empty-payload suppression).

    Modelling choices.
    - Text is Stdlib's [string]; the alphabet is 7-bit ASCII, and a code
      above 127 is carried through as an opaque character that is
      neither white space nor cased.
    - The python-docx document is the ordered list of its body
      paragraphs; a paragraph is its formatting and its list of runs.
      [Paragraph.text] is the concatenation of the run texts as
      python-docx reads them back.
    - [last_job_para] and [last_edu_para] are references to paragraph
      objects that live in the document. Paragraphs are only ever
      appended, so a reference is the position of the paragraph in the
      body, and updating through the reference updates the document.
    - Lengths are python-docx's integer EMU.
    - The only exception the pass itself can raise is the [IndexError]
      of [doc.paragraphs[-1]]; the logger calls have no effect on the
      result and the final serialisation to bytes is not modelled: the
      result of [text_to_docx] is the document that [doc.save] writes.
      A failure inside python-docx itself (the specification's
      rendering failure) is outside the model.
    - The scope in which the model is exact. python-docx refuses a run
      text with a character XML does not accept (a control character
      other than tab, line feed and carriage return) with a
      [ValueError]; [re.IGNORECASE] and [str.strip] know letters and
      white space beyond ASCII; and python-docx stores a spacing in
      whole twips (635 EMU), rounding any other length. The
      statements that say that no error occurs, or that a spacing is
      read back as given, therefore carry the hypotheses [xml_ascii]
      and [whole_twips]; every length the program itself passes is a
      whole number of twips. *)

From Stdlib Require Import ZArith Lia Bool Ascii String.
From stdpp Require Import base list strings.

Local Open Scope string_scope.
Local Open Scope list_scope.

(** ** Python string primitives *)

Module PyStr.

(** [str.isspace] on one ASCII character: TAB, LF, VT, FF, CR,
    FS, GS, RS, US and SPACE.  It is also what [\s] matches. *)
Definition isspace (c : ascii) : bool :=
  let n := nat_of_ascii c in
  ((9 <=? n)%nat && (n <=? 13)%nat) || ((28 <=? n)%nat && (n <=? 32)%nat).

Definition is_empty (s : string) : bool :=
  match s with EmptyString => true | String _ _ => false end.

(** Truth value of a string: [if s:] *)
Definition truthy (s : string) : bool := negb (is_empty s).

Fixpoint lstrip (s : string) : string :=
  match s with
  | EmptyString => EmptyString
  | String c s' => if isspace c then lstrip s' else s
  end.

Fixpoint rstrip (s : string) : string :=
  match s with
  | EmptyString => EmptyString
  | String c s' =>
      let r := rstrip s' in
      if is_empty r && isspace c then EmptyString else String c r
  end.

(** [s.strip()] *)
Definition strip (s : string) : string := rstrip (lstrip s).

(** [s.split(sep)] for a non-empty separator: left-to-right,
    non-overlapping occurrences.  [skip] counts the characters of an
    occurrence of [sep] that are still to be dropped. *)
Fixpoint split_from (sep s : string) (skip : nat) : list string :=
  match s with
  | EmptyString => [EmptyString]
  | String c s' =>
      match skip with
      | S k => split_from sep s' k
      | O =>
          if String.prefix sep s
          then EmptyString :: split_from sep s' (String.length sep - 1)
          else match split_from sep s' 0 with
               | piece :: rest => String c piece :: rest
               | [] => [String c EmptyString]
               end
      end
  end.

Definition split (sep s : string) : list string := split_from sep s 0.

(** [sep.join(pieces)] *)
Fixpoint join (sep : string) (pieces : list string) : string :=
  match pieces with
  | [] => EmptyString
  | piece :: rest =>
      match rest with
      | [] => piece
      | _ :: _ => piece +:+ sep +:+ join sep rest
      end
  end.

(** [needle in hay] *)
Fixpoint contains (needle hay : string) : bool :=
  String.prefix needle hay ||
  match hay with
  | EmptyString => false
  | String _ hay' => contains needle hay'
  end.

(** [s.endswith(suffix)] *)
Fixpoint endswith (s suffix : string) : bool :=
  String.eqb s suffix ||
  match s with
  | EmptyString => false
  | String _ s' => endswith s' suffix
  end.

(** [s[-1]] of a non-empty string ([None] on the empty one). *)
Fixpoint last_char (s : string) : option ascii :=
  match s with
  | EmptyString => None
  | String c EmptyString => Some c
  | String _ s' => last_char s'
  end.

Definition is_lower (c : ascii) : bool :=
  let n := nat_of_ascii c in (97 <=? n)%nat && (n <=? 122)%nat.

Definition is_upper (c : ascii) : bool :=
  let n := nat_of_ascii c in (65 <=? n)%nat && (n <=? 90)%nat.

Definition upper_char (c : ascii) : ascii :=
  if is_lower c then ascii_of_nat (nat_of_ascii c - 32) else c.

Definition lower_char (c : ascii) : ascii :=
  if is_upper c then ascii_of_nat (nat_of_ascii c + 32) else c.

(** [s.upper()] *)
Fixpoint upper (s : string) : string :=
  match s with
  | EmptyString => EmptyString
  | String c s' => String (upper_char c) (upper s')
  end.

End PyStr.

(** ** The marker patterns *)

Module Re.
Import PyStr.

(** A literal matched under [re.IGNORECASE] at the head of [s]; the
    result is what follows the literal. *)
Fixpoint literal_ci (lit s : string) : option string :=
  match lit with
  | EmptyString => Some s
  | String l lit' =>
      match s with
      | EmptyString => None
      | String c s' =>
          if Ascii.eqb (lower_char l) (lower_char c)
          then literal_ci lit' s' else None
      end
  end.

(** The capture group, dot-star: the longest prefix without a line
    feed. *)
Fixpoint dot_star (s : string) : string :=
  match s with
  | EmptyString => EmptyString
  | String c s' =>
      if Ascii.eqb c "010"%char then EmptyString else String c (dot_star s')
  end.

(** [pattern.match(line)] for the pattern of [TAG] compiled with
    [re.IGNORECASE]: line start, white space, the bracketed tag, white
    space, then the capture group; the result is [match.group(1)].
    Both runs of white space are greedy: the bracket after the first
    is not white space and the group after the second accepts
    anything, so the first attempt is the match. *)
Definition marker_match (tag line : string) : option string :=
  match literal_ci ("[" +:+ tag +:+ "]") (lstrip line) with
  | Some rest => Some (dot_star (lstrip rest))
  | None => None
  end.

End Re.

(** ** The python-docx objects the renderer builds *)

Module Docx.
Import PyStr.

(** Lengths in EMU, as python-docx stores them. *)
Definition Length := Z.

(** [Pt(points)] *)
Definition Pt (points : Z) : Length := (points * 12700)%Z.

(** [Inches(x)] for [x] given in hundredths of an inch:
    [Inches(6.5)] is [Inches 650]. *)
Definition Inches (hundredths : Z) : Length := (hundredths * 9144)%Z.

Inductive WD_ALIGN_PARAGRAPH := LEFT | CENTER | RIGHT | JUSTIFY.

(** The integer value of the enumeration member, which decides
    [if align:]. *)
Definition align_value (a : WD_ALIGN_PARAGRAPH) : Z :=
  match a with LEFT => 0 | CENTER => 1 | RIGHT => 2 | JUSTIFY => 3 end%Z.

Record Run := mkRun {
  run_text : string;
  run_bold : option bool;
  run_italic : option bool;
  run_font_size : option Length;
  run_font_name : option string
}.

Record TabStop := mkTabStop {
  tab_position : Length;
  tab_alignment : WD_ALIGN_PARAGRAPH
}.

Record Paragraph := mkParagraph {
  para_style : option string;
  para_runs : list Run;
  para_alignment : option WD_ALIGN_PARAGRAPH;
  para_space_after : option Length;
  para_space_before : option Length;
  para_left_indent : option Length;
  para_tab_stops : list TabStop;
  para_bottom_border : bool
}.

(** The customised part of the [List Bullet] style; line spacing is in
    hundredths of a line. *)
Record BulletStyle := mkBulletStyle {
  bullet_space_after : option Length;
  bullet_space_before : option Length;
  bullet_line_spacing : option Z
}.

Record Document := mkDocument {
  top_margin : Length;
  bottom_margin : Length;
  left_margin : Length;
  right_margin : Length;
  normal_font_name : option string;
  normal_font_size : option Length;
  list_bullet : BulletStyle;
  paragraphs : list Paragraph
}.

(** [Document()]: the default template has no body paragraph.  Its
    page and style values are all overwritten by the page setup below
    before anything reads them. *)
Definition Document_new : Document :=
  mkDocument (Inches 100) (Inches 100) (Inches 125) (Inches 125)
             None None (mkBulletStyle None None None) [].

(** What python-docx reads back for the text put into a run: a carriage
    return is stored as a line break, and a line break reads as a line
    feed.  Tabs and line feeds read back as themselves. *)
Definition read_char (c : ascii) : ascii :=
  if Ascii.eqb c "013"%char then "010"%char else c.

Fixpoint read_back (s : string) : string :=
  match s with
  | EmptyString => EmptyString
  | String c s' => String (read_char c) (read_back s')
  end.

(** [paragraph.text]: the texts of the runs, read back and joined. *)
Definition para_text (p : Paragraph) : string :=
  foldr (fun r acc => read_back (run_text r) +:+ acc) EmptyString (para_runs p).

(** A fresh run as [paragraph.add_run(text)] creates it. *)
Definition new_run (text : string) : Run := mkRun text None None None None.

Definition set_bold (b : option bool) (r : Run) : Run :=
  mkRun (run_text r) b (run_italic r) (run_font_size r) (run_font_name r).

Definition set_italic (b : option bool) (r : Run) : Run :=
  mkRun (run_text r) (run_bold r) b (run_font_size r) (run_font_name r).

Definition set_font_size (sz : option Length) (r : Run) : Run :=
  mkRun (run_text r) (run_bold r) (run_italic r) sz (run_font_name r).

Definition set_font_name (nm : option string) (r : Run) : Run :=
  mkRun (run_text r) (run_bold r) (run_italic r) (run_font_size r) nm.

(** A fresh paragraph as [doc.add_paragraph(style=...)] creates it. *)
Definition new_paragraph (style : option string) : Paragraph :=
  mkParagraph style [] None None None None [] false.

Definition append_run (r : Run) (p : Paragraph) : Paragraph :=
  mkParagraph (para_style p) (para_runs p ++ [r]) (para_alignment p)
              (para_space_after p) (para_space_before p)
              (para_left_indent p) (para_tab_stops p) (para_bottom_border p).

Definition set_runs (rs : list Run) (p : Paragraph) : Paragraph :=
  mkParagraph (para_style p) rs (para_alignment p)
              (para_space_after p) (para_space_before p)
              (para_left_indent p) (para_tab_stops p) (para_bottom_border p).

Definition set_alignment (a : WD_ALIGN_PARAGRAPH) (p : Paragraph) : Paragraph :=
  mkParagraph (para_style p) (para_runs p) (Some a)
              (para_space_after p) (para_space_before p)
              (para_left_indent p) (para_tab_stops p) (para_bottom_border p).

Definition set_space_after (l : Length) (p : Paragraph) : Paragraph :=
  mkParagraph (para_style p) (para_runs p) (para_alignment p)
              (Some l) (para_space_before p)
              (para_left_indent p) (para_tab_stops p) (para_bottom_border p).

Definition set_space_before (l : Length) (p : Paragraph) : Paragraph :=
  mkParagraph (para_style p) (para_runs p) (para_alignment p)
              (para_space_after p) (Some l)
              (para_left_indent p) (para_tab_stops p) (para_bottom_border p).

Definition set_left_indent (l : Length) (p : Paragraph) : Paragraph :=
  mkParagraph (para_style p) (para_runs p) (para_alignment p)
              (para_space_after p) (para_space_before p)
              (Some l) (para_tab_stops p) (para_bottom_border p).

(** [tab_stops.add_tab_stop(position, alignment=...)]: the new stop goes
    before the first existing stop that lies further right. *)
Fixpoint insert_tab_in_order (t : TabStop) (ts : list TabStop) : list TabStop :=
  match ts with
  | [] => [t]
  | t' :: ts' =>
      if (tab_position t <? tab_position t')%Z then t :: ts
      else t' :: insert_tab_in_order t ts'
  end.

Definition add_tab_stop (pos : Length) (a : WD_ALIGN_PARAGRAPH)
    (p : Paragraph) : Paragraph :=
  mkParagraph (para_style p) (para_runs p) (para_alignment p)
              (para_space_after p) (para_space_before p)
              (para_left_indent p)
              (insert_tab_in_order (mkTabStop pos a) (para_tab_stops p))
              (para_bottom_border p).

Definition set_paragraphs (ps : list Paragraph) (d : Document) : Document :=
  mkDocument (top_margin d) (bottom_margin d) (left_margin d) (right_margin d)
             (normal_font_name d) (normal_font_size d) (list_bullet d) ps.

(** A paragraph object is the position of the paragraph in the body. *)
Abbreviation ParaRef := nat (only parsing).

(** An in-place update of the paragraph behind a reference. *)
Definition update_para (ref : ParaRef) (f : Paragraph -> Paragraph)
    (d : Document) : Document :=
  set_paragraphs (alter f ref (paragraphs d)) d.

(** [doc.add_paragraph()]: append, and hand back the new object. *)
Definition add_paragraph (style : option string) (d : Document)
    : Document * ParaRef :=
  (set_paragraphs (paragraphs d ++ [new_paragraph style]) d,
   length (paragraphs d)).

End Docx.

(** ** [docx_generator.py] *)

Import PyStr Re Docx.

Definition LF : string := String "010"%char EmptyString.
Definition TAB : string := String "009"%char EmptyString.

(** [set_margins(doc)] with its defaults: half an inch on all sides. *)
Definition set_margins (d : Document) : Document :=
  mkDocument (Inches 50) (Inches 50) (Inches 50) (Inches 50)
             (normal_font_name d) (normal_font_size d) (list_bullet d)
             (paragraphs d).

(** [set_default_font(doc, font_name, font_size)] *)
Definition set_default_font (font_name : string) (font_size : Length)
    (d : Document) : Document :=
  mkDocument (top_margin d) (bottom_margin d) (left_margin d) (right_margin d)
             (Some font_name) (Some font_size) (list_bullet d) (paragraphs d).

(** The customisation of the built-in [List Bullet] style. *)
Definition compact_bullets (d : Document) : Document :=
  mkDocument (top_margin d) (bottom_margin d) (left_margin d) (right_margin d)
             (normal_font_name d) (normal_font_size d)
             (mkBulletStyle (Some (Pt 2)) (Some (Pt 0)) (Some 100%Z))
             (paragraphs d).

(** [add_styled_paragraph(doc, text, size=, bold=, italic=, align=,
    space_after=, space_before=)].  [text_to_docx] never passes
    [style_name], so the paragraph keeps the default style.  [if size:]
    and [if align:] test the truth value of the argument. *)
Definition add_styled_paragraph (d : Document) (text : string)
    (size : option Length) (bold italic : bool)
    (align : option WD_ALIGN_PARAGRAPH)
    (space_after space_before : Length) : Document * ParaRef :=
  let '(d, para) := add_paragraph None d in
  let run := new_run text in
  let run :=
    match size with
    | Some sz => if (sz =? 0)%Z then run else set_font_size (Some sz) run
    | None => run
    end in
  let run := set_bold (Some bold) run in
  let run := set_italic (Some italic) run in
  let d := update_para para (append_run run) d in
  let d :=
    match align with
    | Some a =>
        if (align_value a =? 0)%Z then d
        else update_para para (set_alignment a) d
    | None => d
    end in
  let d := update_para para (set_space_after space_after) d in
  let d := update_para para (set_space_before space_before) d in
  (d, para).

(** [sentence[-1] not in ['.', '!', '?']]; the sentence is not empty
    where the test is made. *)
Definition not_terminal (sentence : string) : bool :=
  match last_char sentence with
  | Some c =>
      negb (Ascii.eqb c "."%char || Ascii.eqb c "!"%char || Ascii.eqb c "?"%char)
  | None => true
  end.

(** The loop [for i, sentence in enumerate(sentences)] of
    [add_bullet_point]; [n] is [len(sentences)], the state is the flag
    [first_sentence] and the paragraph under construction. *)
Fixpoint bullet_loop (level n i : nat) (sentences : list string)
    (first_sentence : bool) (para : Paragraph) : Paragraph :=
  match sentences with
  | [] => para
  | sentence :: rest =>
      if negb (truthy (strip sentence))
      then bullet_loop level n (S i) rest first_sentence para
      else
        let sentence :=
          if (i <? n - 1)%nat || not_terminal sentence
          then sentence +:+ "." else sentence in
        if first_sentence then
          let run := new_run (sentence +:+ " ") in
          let run := if (level =? 0)%nat then set_bold (Some true) run else run in
          bullet_loop level n (S i) rest false (append_run run para)
        else
          bullet_loop level n (S i) rest first_sentence
                      (append_run (new_run (sentence +:+ " ")) para)
  end.

(** [add_bullet_point(doc, text, level=0, space_after=Pt(2))] *)
Definition add_bullet_point (d : Document) (text : string) (level : nat)
    (space_after : Length) : Document * ParaRef :=
  let '(d, para) := add_paragraph (Some "List Bullet") d in
  let d := update_para para
             (set_left_indent (Inches (25 * (Z.of_nat level + 1)))) d in
  let d := update_para para (set_space_after space_after) d in
  let d := update_para para (set_space_before (Pt 0)) d in
  let sentences := split ". " text in
  let d := update_para para
             (bullet_loop level (length sentences) 0 sentences true) d in
  let d := update_para para
             (fun p => set_runs
                (map (fun r => set_font_size (normal_font_size d)
                                 (set_font_name (normal_font_name d) r))
                     (para_runs p)) p) d in
  (d, para).

(** [add_horizontal_line(paragraph)] *)
Definition add_horizontal_line (para : ParaRef) (d : Document) : Document :=
  update_para para
    (fun p => mkParagraph (para_style p) (para_runs p) (para_alignment p)
                (para_space_after p) (para_space_before p)
                (para_left_indent p) (para_tab_stops p) true) d.

(** *** The marker table *)

Inductive marker :=
  | NAME | CONTACT | SUMMARY | SECTION_HEADER | JOB_TITLE | COMPANY | DATES
  | LOCATION | BULLET | SKILL_CATEGORY | SKILLS | EDUCATION_DEGREE
  | EDUCATION_SCHOOL | EDUCATION_DATES | EDUCATION_DETAILS.

Definition marker_name (m : marker) : string :=
  match m with
  | NAME => "NAME" | CONTACT => "CONTACT" | SUMMARY => "SUMMARY"
  | SECTION_HEADER => "SECTION_HEADER" | JOB_TITLE => "JOB_TITLE"
  | COMPANY => "COMPANY" | DATES => "DATES" | LOCATION => "LOCATION"
  | BULLET => "BULLET" | SKILL_CATEGORY => "SKILL_CATEGORY"
  | SKILLS => "SKILLS" | EDUCATION_DEGREE => "EDUCATION_DEGREE"
  | EDUCATION_SCHOOL => "EDUCATION_SCHOOL"
  | EDUCATION_DATES => "EDUCATION_DATES"
  | EDUCATION_DETAILS => "EDUCATION_DETAILS"
  end.

(** The keys of [patterns], in insertion order. *)
Definition patterns : list marker :=
  [NAME; CONTACT; SUMMARY; SECTION_HEADER; JOB_TITLE; COMPANY; DATES;
   LOCATION; BULLET; SKILL_CATEGORY; SKILLS; EDUCATION_DEGREE;
   EDUCATION_SCHOOL; EDUCATION_DATES; EDUCATION_DETAILS].

(** The search [for marker_type, pattern in patterns.items()] up to the
    first pattern that matches, with its [match.group(1)]. *)
Fixpoint first_match (ps : list marker) (line : string)
    : option (marker * string) :=
  match ps with
  | [] => None
  | marker_type :: ps' =>
      match marker_match (marker_name marker_type) line with
      | Some group1 => Some (marker_type, group1)
      | None => first_match ps' line
      end
  end.

(** *** The state of the pass and its result *)

Record State := mkState {
  doc : Document;
  last_job_para : option ParaRef;
  last_edu_para : option ParaRef
}.

Inductive exn := IndexError.

Inductive result (A : Type) :=
  | Ok (a : A)
  | Raise (e : exn).
Arguments Ok {A} a.
Arguments Raise {A} e.

Definition bind {A B : Type} (r : result A) (k : A -> result B) : result B :=
  match r with
  | Ok a => k a
  | Raise e => Raise e
  end.

(** [ref and ref.text.strip()]: the tracker is set and the paragraph
    behind it has visible text.  A reference always points into the
    body (lemma [reachable_refs_in_range]), so the last case is never
    taken. *)
Definition open_with_text (ref : option ParaRef) (d : Document) : bool :=
  match ref with
  | Some para =>
      match paragraphs d !! para with
      | Some p => truthy (strip (para_text p))
      | None => false
      end
  | None => false
  end.

(** The loop [for i, summary_line in enumerate(summary_lines)]. *)
Fixpoint summary_loop (i : nat) (summary_lines : list string)
    (d : Document) : Document :=
  match summary_lines with
  | [] => d
  | summary_line :: rest =>
      let d :=
        if (i =? 0)%nat && contains "US Citizen" summary_line
        then fst (add_styled_paragraph d summary_line None true false None
                    (Pt 2) (Pt 0))
        else fst (add_styled_paragraph d summary_line None false false None
                    (Pt 2) (Pt 0)) in
      summary_loop (S i) rest d
  end.

(** The branch of the [if/elif] chain for [marker_type], run on a
    non-empty payload [text]. *)
Definition handle (marker_type : marker) (text : string) (st : State)
    : result State :=
  let d := doc st in
  let job := last_job_para st in
  let edu := last_edu_para st in
  match marker_type with
  | NAME =>
      let '(d, p) := add_styled_paragraph d text (Some (Pt 16)) true false
                       (Some CENTER) (Pt 2) (Pt 0) in
      Ok (mkState d job edu)
  | CONTACT =>
      let '(d, p) := add_styled_paragraph d text (Some (Pt 9)) false false
                       (Some CENTER) (Pt 6) (Pt 0) in
      Ok (mkState (add_horizontal_line p d) job edu)
  | SUMMARY =>
      Ok (mkState (summary_loop 0 (split LF text) d) job edu)
  | SECTION_HEADER =>
      let '(d, p) := add_styled_paragraph d (upper text) (Some (Pt 11)) true
                       false None (Pt 3) (Pt 6) in
      Ok (mkState (add_horizontal_line p d) job edu)
  | JOB_TITLE =>
      let '(d, p) := add_styled_paragraph d text None true false None
                       (Pt 0) (Pt 0) in
      Ok (mkState d (Some p) edu)
  | COMPANY =>
      if open_with_text job d then
        match job with
        | Some para =>
            Ok (mkState
                  (update_para para
                     (append_run (set_italic (Some true)
                                    (new_run (" | " +:+ text)))) d)
                  job edu)
        | None => Ok st
        end
      else
        let '(d, p) := add_styled_paragraph d text None false true None
                         (Pt 0) (Pt 0) in
        Ok (mkState d (Some p) edu)
  | DATES =>
      match job with
      | Some para =>
          let d := update_para para (add_tab_stop (Inches 650) RIGHT) d in
          let d := update_para para (append_run (new_run (TAB +:+ text))) d in
          let d := update_para para (set_space_after (Pt 2)) d in
          Ok (mkState d None edu)
      | None =>
          let '(d, _) := add_styled_paragraph d text None false false
                           (Some RIGHT) (Pt 2) (Pt 0) in
          Ok (mkState d job edu)
      end
  | LOCATION =>
      let '(d, _) := add_styled_paragraph d text (Some (Pt 9)) false true None
                       (Pt 2) (Pt 0) in
      Ok (mkState d job edu)
  | BULLET =>
      let '(d, _) := add_bullet_point d text 0 (Pt 2) in
      Ok (mkState d job edu)
  | SKILL_CATEGORY =>
      let '(d, _) := add_styled_paragraph d (text +:+ ": ") None true false
                       None (Pt 0) (Pt 3) in
      Ok (mkState d job edu)
  | SKILLS =>
      match last (paragraphs d) with
      | None => Raise IndexError
      | Some p =>
          let para := (length (paragraphs d) - 1)%nat in
          if endswith (para_text p) ": " then
            let d := update_para para (append_run (new_run text)) d in
            let d := update_para para (set_space_after (Pt 3)) d in
            Ok (mkState d job edu)
          else
            let '(d, _) := add_styled_paragraph d text None false false None
                             (Pt 3) (Pt 0) in
            Ok (mkState d job edu)
      end
  | EDUCATION_DEGREE =>
      let '(d, p) := add_styled_paragraph d text None true false None
                       (Pt 0) (Pt 0) in
      Ok (mkState d job (Some p))
  | EDUCATION_SCHOOL =>
      if open_with_text edu d then
        match edu with
        | Some para =>
            Ok (mkState
                  (update_para para
                     (append_run (set_italic (Some true)
                                    (new_run (", " +:+ text)))) d)
                  job edu)
        | None => Ok st
        end
      else
        let '(d, p) := add_styled_paragraph d text None false true None
                         (Pt 0) (Pt 0) in
        Ok (mkState d job (Some p))
  | EDUCATION_DATES =>
      if open_with_text edu d then
        match edu with
        | Some para =>
            let d := update_para para (add_tab_stop (Inches 650) RIGHT) d in
            let d := update_para para (append_run (new_run (TAB +:+ text))) d in
            let d := update_para para (set_space_after (Pt 2)) d in
            Ok (mkState d job None)
        | None => Ok st
        end
      else
        let '(d, _) := add_styled_paragraph d text None false false
                         (Some RIGHT) (Pt 2) (Pt 0) in
        Ok (mkState d job edu)
  | EDUCATION_DETAILS =>
      let '(d, _) := add_styled_paragraph d text (Some (Pt 9)) false true None
                       (Pt 3) (Pt 0) in
      Ok (mkState d job edu)
  end.

(** The fall-through of an unmatched line: a standard paragraph, and
    both trackers reset. *)
Definition plain (line : string) (st : State) : State :=
  let '(d, _) := add_styled_paragraph (doc st) line None false false None
                   (Pt 3) (Pt 0) in
  mkState d None None.

(** One iteration of [for line in lines]. *)
Definition process_line (line : string) (st : State) : result State :=
  let line := strip line in
  if negb (truthy line) then Ok st
  else
    match first_match patterns line with
    | Some (marker_type, group1) =>
        let text := strip group1 in
        if negb (truthy text) then Ok st
        else handle marker_type text st
    | None => Ok (plain line st)
    end.

Fixpoint process_lines (lines : list string) (st : State) : result State :=
  match lines with
  | [] => Ok st
  | line :: rest => bind (process_line line st) (process_lines rest)
  end.

(** The document after the page setup, and no open block. *)
Definition initial_state : State :=
  mkState (compact_bullets
             (set_default_font "Calibri" (Pt 10) (set_margins Document_new)))
          None None.

(** The pass of [text_to_docx] up to the end of the loop. *)
Definition render (resume_text : string) : result State :=
  process_lines (split LF (strip resume_text)) initial_state.

(** [text_to_docx(resume_text)]: the document handed to [doc.save]; an
    exception of the pass is logged and raised again. *)
Definition text_to_docx (resume_text : string) : result Document :=
  bind (render resume_text) (fun st => Ok (doc st)).

(** *** The marker parser, read on its own

    The classification of one input line that the loop body performs
    before it dispatches: the specification's marker line. *)

Inductive line_class :=
  | BlankLine
  | EmptyPayload (kind : marker)
  | Payload (kind : marker) (text : string)
  | PlainLine (line : string).

Definition classify (line : string) : line_class :=
  let line := strip line in
  if negb (truthy line) then BlankLine
  else
    match first_match patterns line with
    | Some (marker_type, group1) =>
        let text := strip group1 in
        if negb (truthy text) then EmptyPayload marker_type
        else Payload marker_type text
    | None => PlainLine line
    end.

(** The literal tag of a marker, [[KIND]]. *)
Definition tag (m : marker) : string := "[" +:+ marker_name m +:+ "]".

(** ["\n".join(lines)] *)
Definition join_lines (lines : list string) : string := join LF lines.

(** The two trackers of a state. *)
Definition trackers (st : State) : option ParaRef * option ParaRef :=
  (last_job_para st, last_edu_para st).

(** The states the loop can be in. *)
Inductive reachable : State -> Prop :=
  | reachable_initial : reachable initial_state
  | reachable_step st line st' :
      reachable st -> process_line line st = Ok st' -> reachable st'.

(** ** Closed forms used in the statements *)

(** A string has visible text when some character is not white space. *)
Fixpoint has_visible (s : string) : bool :=
  match s with
  | EmptyString => false
  | String c s' => negb (isspace c) || has_visible s'
  end.

(** A string without a line feed. *)
Fixpoint no_lf (s : string) : bool :=
  match s with
  | EmptyString => true
  | String c s' => negb (Ascii.eqb c "010"%char) && no_lf s'
  end.

(** The run that [add_styled_paragraph] builds. *)
Definition styled_run (text : string) (size : option Length)
    (bold italic : bool) : Run :=
  mkRun text (Some bold) (Some italic)
        (match size with
         | Some sz => if (sz =? 0)%Z then None else Some sz
         | None => None
         end)
        None.

(** The paragraph that [add_styled_paragraph] leaves in the body. *)
Definition styled_paragraph (text : string) (size : option Length)
    (bold italic : bool) (align : option WD_ALIGN_PARAGRAPH)
    (space_after space_before : Length) : Paragraph :=
  mkParagraph None [styled_run text size bold italic]
    (match align with
     | Some a => if (align_value a =? 0)%Z then None else Some a
     | None => None
     end)
    (Some space_after) (Some space_before) None [] false.

(** The body with one more paragraph at its end. *)
Definition push (p : Paragraph) (d : Document) : Document :=
  set_paragraphs (paragraphs d ++ [p]) d.

(** A paragraph has visible text. *)
Definition visible (p : Paragraph) : Prop :=
  has_visible (para_text p) = true.

(** A tracker, when set, refers to a paragraph of the body that has
    visible text. *)
Definition tracker_ok (ref : option ParaRef) (d : Document) : Prop :=
  forall i, ref = Some i ->
    exists p, paragraphs d !! i = Some p /\ visible p.

Definition trackers_ok (st : State) : Prop :=
  tracker_ok (last_job_para st) (doc st) /\
  tracker_ok (last_edu_para st) (doc st).

(** [d'] keeps every paragraph of [d] in place, and a paragraph with
    visible text keeps visible text. *)
Definition extends (d d' : Document) : Prop :=
  forall i p, paragraphs d !! i = Some p ->
    exists p', paragraphs d' !! i = Some p' /\ (visible p -> visible p').

(** *** Bullets, as the specification words them *)

(** A sentence with nothing left after trimming. *)
Definition blank (sentence : string) : bool := negb (truthy (strip sentence)).

(** The sentences that are rendered: blank ones are skipped; a period
    is put back on every sentence, except on a final sentence that
    already ends in [.], [!] or [?]. *)
Fixpoint punctuate (sentences : list string) : list string :=
  match sentences with
  | [] => []
  | sentence :: rest =>
      match rest with
      | [] =>
          if blank sentence then []
          else [if not_terminal sentence then sentence +:+ "." else sentence]
      | _ :: _ =>
          (if blank sentence then [] else [sentence +:+ "."]) ++ punctuate rest
      end
  end.

(** One run per rendered sentence, each followed by a space; when
    [first] is set the leading run is the first sentence of the bullet,
    bold at nesting level 0. *)
Definition sentence_runs (level : nat) (first : bool)
    (sentences : list string) : list Run :=
  match sentences with
  | [] => []
  | sentence :: rest =>
      (if first && (level =? 0)%nat
       then set_bold (Some true) (new_run (sentence +:+ " "))
       else new_run (sentence +:+ " "))
      :: map (fun s => new_run (s +:+ " ")) rest
  end.

Definition append_runs (rs : list Run) (p : Paragraph) : Paragraph :=
  set_runs (para_runs p ++ rs) p.

(** The font of the [Normal] style put on a run. *)
Definition with_normal_font (d : Document) (r : Run) : Run :=
  set_font_size (normal_font_size d) (set_font_name (normal_font_name d) r).

(** The bulleted paragraph of a payload. *)
Definition bullet_paragraph (d : Document) (text : string) (level : nat)
    (space_after : Length) : Paragraph :=
  mkParagraph (Some "List Bullet")
    (map (with_normal_font d)
         (sentence_runs level true (punctuate (split ". " text))))
    None (Some space_after) (Some (Pt 0))
    (Some (Inches (25 * (Z.of_nat level + 1)))) [] false.

(** *** Dates, summary and the pairing trackers *)

(** What a date line does to the paragraph of the open block: a right
    tab stop at six and a half inches, the date after a tab character,
    and the tight spacing after the paragraph. *)
Definition attach_date (text : string) (p : Paragraph) : Paragraph :=
  set_space_after (Pt 2)
    (append_run (new_run (TAB +:+ text))
       (add_tab_stop (Inches 650) RIGHT p)).

(** The standalone right-aligned paragraph of a date line. *)
Definition standalone_date (text : string) : Paragraph :=
  styled_paragraph text None false false (Some RIGHT) (Pt 2) (Pt 0).

(** The paragraph of an unmatched line. *)
Definition plain_paragraph (line : string) : Paragraph :=
  styled_paragraph line None false false None (Pt 3) (Pt 0).

(** A sub-line of a summary at the default weight. *)
Definition summary_paragraph (bold : bool) (line : string) : Paragraph :=
  styled_paragraph line None bold false None (Pt 2) (Pt 0).

(** SUMMARY as the specification words it: one paragraph per sub-line,
    every one at the default weight. *)
Definition summary_uniform (text : string) (st : State) : result State :=
  Ok (mkState
        (set_paragraphs
           (paragraphs (doc st) ++ map (summary_paragraph false) (split LF text))
           (doc st))
        (last_job_para st) (last_edu_para st)).

(** The paragraphs the SUMMARY branch emits: the first sub-line is bold
    when it contains the phrase, the others never are. *)
Definition summary_paragraphs (text : string) : list Paragraph :=
  match split LF text with
  | [] => []
  | first :: rest =>
      summary_paragraph (contains "US Citizen" first) first
      :: map (summary_paragraph false) rest
  end.

(** The job tracker and the education tracker exchanged. *)
Definition swap_trackers (st : State) : State :=
  mkState (doc st) (last_edu_para st) (last_job_para st).

Definition map_result {A B : Type} (f : A -> B) (r : result A) : result B :=
  match r with
  | Ok a => Ok (f a)
  | Raise e => Raise e
  end.

(** The kinds that never touch a tracker, and the kinds that pair a
    title, a company or school, and a date. *)
Definition frame_kind (m : marker) : bool :=
  match m with
  | NAME | CONTACT | SUMMARY | SECTION_HEADER | LOCATION | BULLET
  | SKILL_CATEGORY | SKILLS | EDUCATION_DETAILS => true
  | _ => false
  end.

Definition pairing_kind (m : marker) : bool :=
  match m with
  | JOB_TITLE | COMPANY | DATES
  | EDUCATION_DEGREE | EDUCATION_SCHOOL | EDUCATION_DATES => true
  | _ => false
  end.

(** *** The examples of the specification *)

(** The paragraph of the job block [Engineer | Acme    2020-2022]. *)
Definition engineer_acme : Paragraph :=
  mkParagraph None
    [ styled_run "Engineer" None true false;
      set_italic (Some true) (new_run " | Acme");
      new_run (TAB +:+ "2020-2022") ]
    None (Some (Pt 2)) (Some (Pt 0)) None
    [ mkTabStop (Inches 650) RIGHT ] false.

Definition engineer_acme_lines : list string :=
  [ "[JOB_TITLE] Engineer"; "[COMPANY] Acme"; "[DATES] 2020-2022" ].

(** The bold paragraph of the title line [[JOB_TITLE] Engineer]. *)
Definition engineer_title : Paragraph :=
  styled_paragraph "Engineer" None true false None (Pt 0) (Pt 0).

Definition interrupted_lines (line : string) : list string :=
  [ "[JOB_TITLE] Engineer"; line; "[DATES] 2020" ].

(** The state after the single line [[JOB_TITLE] Engineer]. *)
Definition engineer_open : State :=
  mkState (push engineer_title (doc initial_state)) (Some 0%nat) None.

(** The state after the single line [[EDUCATION_DEGREE] BSc]. *)
Definition degree_open : State :=
  mkState
    (push (styled_paragraph "BSc" None true false None (Pt 0) (Pt 0))
          (doc initial_state))
    None (Some 0%nat).

(** A state no run of the loop produces: the education tracker refers
    to a paragraph without text. *)
Definition empty_block_open : State :=
  mkState (push (new_paragraph None) (doc initial_state)) None (Some 0%nat).

(** Lines that leave the trackers alone: blank lines, markers with an
    empty payload, and the kinds outside the pairings. *)
Definition keeps_trackers (c : line_class) : bool :=
  match c with
  | BlankLine | EmptyPayload _ => true
  | Payload kind _ => frame_kind kind
  | PlainLine _ => false
  end.

(** Lines that may alter a tracker: a pairing kind with a payload, or
    an unmatched line. *)
Definition may_alter_trackers (c : line_class) : bool :=
  match c with
  | BlankLine | EmptyPayload _ => false
  | Payload kind _ => pairing_kind kind
  | PlainLine _ => true
  end.

(** The first line of the input that emits anything: blank lines and
    markers with an empty payload are passed over.  [BlankLine] when
    there is none. *)
Fixpoint first_emitting (lines : list string) : line_class :=
  match lines with
  | [] => BlankLine
  | line :: rest =>
      match classify line with
      | BlankLine | EmptyPayload _ => first_emitting rest
      | c => c
      end
  end.

(** The inline continuation of the last paragraph by a SKILLS line. *)
Definition append_skills (text : string) (p : Paragraph) : Paragraph :=
  set_space_after (Pt 3) (append_run (new_run text) p).

(** The standalone paragraph of a SKILLS line. *)
Definition skills_paragraph (text : string) : Paragraph :=
  styled_paragraph text None false false None (Pt 3) (Pt 0).

(** *** The marker parser: tags up to case *)

(** Two literals agree, up to case, on their common length. *)
Fixpoint tags_agree (l1 l2 : string) : bool :=
  match l1, l2 with
  | String a l1', String b l2' =>
      Ascii.eqb (lower_char a) (lower_char b) && tags_agree l1' l2'
  | _, _ => true
  end.

(** [x] is [lit] up to the case of its letters. *)
Fixpoint same_up_to_case (x lit : string) : bool :=
  match x, lit with
  | EmptyString, EmptyString => true
  | String a x', String b lit' =>
      Ascii.eqb (lower_char b) (lower_char a) && same_up_to_case x' lit'
  | _, _ => false
  end.

(** A line that [process_line] passes over: blank, or a marker with an
    empty payload. *)
Definition skipped_line (line : string) : bool :=
  match classify line with
  | BlankLine | EmptyPayload _ => true
  | _ => false
  end.

(** *** Shapes of paragraphs *)

(** A sentence as a bullet renders it ends in [.], [!] or [?]. *)
Definition ends_sentence (s : string) : Prop :=
  exists c, last_char s = Some c /\
            (c = "."%char \/ c = "!"%char \/ c = "?"%char).

(** The text of a paragraph does not end in a colon and a space. *)
Definition calm (p : Paragraph) : Prop :=
  endswith (para_text p) ": " = false.

(** The paragraph of a SKILL_CATEGORY line, as emitted. *)
Definition category_paragraph (text : string) : Paragraph :=
  styled_paragraph (text +:+ ": ") None true false None (Pt 0) (Pt 3).

(** Every paragraph of the body satisfies [P]. *)
Definition all_paragraphs (P : Paragraph -> Prop) (d : Document) : Prop :=
  forall i p, paragraphs d !! i = Some p -> P p.

(** The bottom border of [add_horizontal_line]. *)
Definition with_bottom_border (p : Paragraph) : Paragraph :=
  mkParagraph (para_style p) (para_runs p) (para_alignment p)
    (para_space_after p) (para_space_before p)
    (para_left_indent p) (para_tab_stops p) true.

(** A paragraph whose text ends in a colon and a space is a category
    paragraph left as it was emitted. *)
Definition colon_is_category (p : Paragraph) : Prop :=
  calm p \/ exists text, p = category_paragraph text.

(** The state after the single line [[SKILL_CATEGORY] Languages]. *)
Definition languages_open : State :=
  mkState (push (category_paragraph "Languages") (doc initial_state)) None None.

(** [p'] is [p] with runs added at the end, if any; style, alignment,
    indent, space before and border are those of [p]. *)
Definition grows (p p' : Paragraph) : Prop :=
  (exists rs, para_runs p' = para_runs p ++ rs) /\
  para_style p' = para_style p /\
  para_alignment p' = para_alignment p /\
  para_space_before p' = para_space_before p /\
  para_left_indent p' = para_left_indent p /\
  para_bottom_border p' = para_bottom_border p.

(** Every paragraph of [d] is still in [d'], at its place, grown. *)
Definition body_grows (d d' : Document) : Prop :=
  forall i p, paragraphs d !! i = Some p ->
    exists p', paragraphs d' !! i = Some p' /\ grows p p'.

(** *** The effect of one line, by cases *)

(** What a tracker may be after a step that pushes [q] onto [d]: as
    before, cleared, or set to the new paragraph. *)
Definition tracker_after (old new : option nat) (q : Paragraph)
    (d : Document) : Prop :=
  new = old \/ new = None \/
  (new = Some (length (paragraphs d)) /\ para_style q = None).

(** The effects a processed line can have on the state: none; one
    paragraph pushed; a run joined onto the paragraph of an open block;
    a date attached to the open job block or education block; skills
    appended to the last paragraph. *)
Inductive step_effect (st st' : State) : Prop :=
  | effect_none :
      st' = st -> step_effect st st'
  | effect_push q :
      doc st' = push q (doc st) ->
      para_tab_stops q = [] ->
      (para_style q = None \/
       exists text, q = bullet_paragraph (doc st) text 0 (Pt 2)) ->
      tracker_after (last_job_para st) (last_job_para st') q (doc st) ->
      tracker_after (last_edu_para st) (last_edu_para st') q (doc st) ->
      ((last_job_para st' = last_job_para st \/ last_job_para st' = None) \/
       (last_edu_para st' = last_edu_para st \/ last_edu_para st' = None)) ->
      step_effect st st'
  | effect_join i r :
      last_job_para st = Some i \/ last_edu_para st = Some i ->
      st' = mkState (update_para i (append_run r) (doc st))
                    (last_job_para st) (last_edu_para st) ->
      step_effect st st'
  | effect_job_date i text :
      last_job_para st = Some i ->
      st' = mkState (update_para i (attach_date text) (doc st))
                    None (last_edu_para st) ->
      step_effect st st'
  | effect_edu_date i text :
      last_edu_para st = Some i ->
      st' = mkState (update_para i (attach_date text) (doc st))
                    (last_job_para st) None ->
      step_effect st st'
  | effect_skills p text :
      last (paragraphs (doc st)) = Some p ->
      endswith (para_text p) ": " = true ->
      st' = mkState
              (update_para (length (paragraphs (doc st)) - 1)
                 (append_skills text) (doc st))
              (last_job_para st) (last_edu_para st) ->
      step_effect st st'.

(** The page setup of a document: the document without its body. *)
Definition page_setup (d : Document) : Document := set_paragraphs [] d.

(** The paragraph behind a set tracker has the default style and no
    tab stop yet. *)
Definition open_block_ok (ref : option nat) (d : Document) : Prop :=
  forall i, ref = Some i ->
    exists p, paragraphs d !! i = Some p /\
              para_style p = None /\ para_tab_stops p = [].

(** A bulleted paragraph is as [add_bullet_point] built it. *)
Definition bullet_untouched (p : Paragraph) : Prop :=
  para_style p = Some "List Bullet" ->
  exists text, p = bullet_paragraph (doc initial_state) text 0 (Pt 2).

(** A paragraph has no tab stop, or the one right tab stop of a date. *)
Definition one_date_at_most (p : Paragraph) : Prop :=
  para_tab_stops p = [] \/
  para_tab_stops p = [mkTabStop (Inches 650) RIGHT].

(** The layout invariant of the loop. *)
Definition layout_ok (st : State) : Prop :=
  open_block_ok (last_job_para st) (doc st) /\
  open_block_ok (last_edu_para st) (doc st) /\
  (forall i, last_job_para st = Some i -> last_edu_para st = Some i -> False) /\
  all_paragraphs one_date_at_most (doc st) /\
  all_paragraphs bullet_untouched (doc st) /\
  page_setup (doc st) = page_setup (doc initial_state).

(** ** [resume_rewriter.py]: the name of the tailored file *)

Section Identifier.

(** Whether [\w] matches a character beyond ASCII is a fact of the
    Unicode tables; it is left open. *)
Variable unicode_word : ascii -> bool.

Definition isdigit (c : ascii) : bool :=
  let n := nat_of_ascii c in (48 <=? n)%nat && (n <=? 57)%nat.

(** [\w] *)
Definition isword (c : ascii) : bool :=
  if (nat_of_ascii c <? 128)%nat
  then is_lower c || is_upper c || isdigit c || Ascii.eqb c "_"%char
  else unicode_word c.

(** The class [\w\s-] whose complement the pattern removes. *)
Definition kept (c : ascii) : bool :=
  isword c || isspace c || Ascii.eqb c "-"%char.

(** [re.sub(r'[^\w\s-]', '', text)] *)
Fixpoint remove_unsafe (text : string) : string :=
  match text with
  | EmptyString => EmptyString
  | String c text' =>
      if kept c then String c (remove_unsafe text') else remove_unsafe text'
  end.

(** [s.replace(' ', '_')] *)
Fixpoint replace_spaces (s : string) : string :=
  match s with
  | EmptyString => EmptyString
  | String c s' =>
      String (if Ascii.eqb c " "%char then "_"%char else c) (replace_spaces s')
  end.

(** The inner function [sanitize(text)]. *)
Definition sanitize (text : string) : string :=
  replace_spaces (strip (remove_unsafe text)).

(** [generate_unique_identifier(name, job_title, company)]; [timestamp]
    is what [datetime.datetime.now().strftime("%Y%m%d%H%M%S")] gives at
    the time of the call. *)
Definition generate_unique_identifier
    (name job_title company timestamp : string) : string :=
  "Resume_" +:+ sanitize name +:+ "_" +:+ sanitize job_title +:+ "_" +:+
  sanitize company +:+ "_" +:+ timestamp +:+ ".docx".

End Identifier.

(** Every character of a string satisfies [P]. *)
Fixpoint all_chars (P : ascii -> bool) (s : string) : bool :=
  match s with
  | EmptyString => true
  | String c s' => P c && all_chars P s'
  end.

(** A character that can stand in the name of a blob without opening a
    path or an extension: a word character, a hyphen, or white space
    other than the space. *)
Definition name_safe (unicode_word : ascii -> bool) (c : ascii) : bool :=
  isword unicode_word c || Ascii.eqb c "-"%char ||
  (isspace c && negb (Ascii.eqb c " "%char)).

(** A string that [strip] leaves as it is: empty, or with a visible
    first and last character. *)
Definition trimmed (s : string) : bool :=
  match s with
  | EmptyString => true
  | String a _ =>
      negb (isspace a) &&
      match last_char s with Some c => negb (isspace c) | None => true end
  end.

(** ** [azure_storage_manager.py]: the tracking file

    The tracking blob is a CSV text; it is modelled by the rows that
    [csv.reader] reads from it, each a list of strings, and a missing or
    empty blob by no row at all.  What [csv.writer] writes, [csv.reader]
    reads back as the same rows.  Storage failures are outside the
    model: a download gives the rows of the blob, an upload replaces
    them. *)

Module Tracking.

(** The values of a dictionary: a [str], [None], or any other object,
    known by the text [str] gives for it. *)
Inductive pyval :=
  | PStr (s : string)
  | PNone
  | POther (shown : string).

(** A dictionary whose keys are strings, in insertion order, and
    possibly [None], the key under which [csv.DictReader] files the
    cells a row has beyond the field names. *)
Record pydict := {
  str_items : list (string * pyval);
  none_item : option (list string)
}.

(** [d[k] = v] *)
Fixpoint set_item (k : string) (v : pyval) (items : list (string * pyval))
    : list (string * pyval) :=
  match items with
  | [] => [(k, v)]
  | (k', v') :: items' =>
      if String.eqb k k' then (k, v) :: items'
      else (k', v') :: set_item k v items'
  end.

(** [d.get(k)] *)
Fixpoint get_item (k : string) (items : list (string * pyval)) : option pyval :=
  match items with
  | [] => None
  | (k', v') :: items' => if String.eqb k k' then Some v' else get_item k items'
  end.

(** [dict(zip(keys, values))], started from [items]. *)
Fixpoint dict_zip (keys values : list string) (items : list (string * pyval))
    : list (string * pyval) :=
  match keys, values with
  | k :: keys', v :: values' => dict_zip keys' values' (set_item k (PStr v) items)
  | _, _ => items
  end.

(** [csv.DictReader.__next__], once a row that is not empty is at hand:
    cells beyond the field names go under [None], missing cells are
    [None]. *)
Definition reader_row (fieldnames row : list string) : pydict :=
  let d := dict_zip fieldnames row [] in
  let lf := length fieldnames in
  let lr := length row in
  if (lf <? lr)%nat then {| str_items := d; none_item := Some (drop lf row) |}
  else if (lr <? lf)%nat then
    {| str_items := fold_left (fun d key => set_item key PNone d)
                              (drop lr fieldnames) d;
       none_item := None |}
  else {| str_items := d; none_item := None |}.

Inductive csv_exn := ValueError.

Inductive csv_result (A : Type) :=
  | Wrote (a : A)
  | Raised (e : csv_exn).
Arguments Wrote {A} a.
Arguments Raised {A} e.

Definition and_then {A B : Type} (r : csv_result A) (k : A -> csv_result B)
    : csv_result B :=
  match r with
  | Wrote a => k a
  | Raised e => Raised e
  end.

Definition fieldnames : list string :=
  ["job_title"; "company"; "role"; "tailored_resume_identifier";
   "date_modified"].

Definition is_fieldname (k : string) : bool :=
  existsb (String.eqb k) fieldnames.

(** [rowdict.keys() - self.fieldnames] is not empty. *)
Definition wrong_fields (rowdict : pydict) : bool :=
  match none_item rowdict with
  | Some _ => true
  | None => existsb (fun kv => negb (is_fieldname (fst kv))) (str_items rowdict)
  end.

(** What [csv.writer] writes for a value. *)
Definition cell (v : pyval) : string :=
  match v with
  | PStr s => s
  | PNone => EmptyString
  | POther shown => shown
  end.

(** [rowdict.get(key, self.restval)], with [restval] the empty string. *)
Definition get_or_restval (rowdict : pydict) (key : string) : pyval :=
  match get_item key (str_items rowdict) with
  | Some v => v
  | None => PStr EmptyString
  end.

(** [csv.DictWriter._dict_to_list], with [extrasaction] at its default
    ["raise"], followed by the writer's rendering of the values. *)
Definition dict_to_list (rowdict : pydict) : csv_result (list string) :=
  if wrong_fields rowdict then Raised ValueError
  else Wrote (map (fun key => cell (get_or_restval rowdict key)) fieldnames).

(** [writer.writerow(rowdict)] on the output [out] written so far. *)
Definition writerow (rowdict : pydict) (out : list (list string))
    : csv_result (list (list string)) :=
  and_then (dict_to_list rowdict) (fun r => Wrote (out ++ [r])).

(** [writer.writeheader()] *)
Definition writeheader (out : list (list string))
    : csv_result (list (list string)) :=
  writerow {| str_items := dict_zip fieldnames fieldnames [];
              none_item := None |} out.

(** [for row in reader: writer.writerow(row)], the reader having taken
    its field names from the first row; it passes over empty rows. *)
Fixpoint copy_rows (reader_fieldnames : list string) (rows : list (list string))
    (out : list (list string)) : csv_result (list (list string)) :=
  match rows with
  | [] => Wrote out
  | [] :: rows' => copy_rows reader_fieldnames rows' out
  | row :: rows' =>
      and_then (writerow (reader_row reader_fieldnames row) out)
               (copy_rows reader_fieldnames rows')
  end.

(** [update_tracking_file(tracking_entry)] on a blob holding [existing]:
    the rows uploaded in its place, or the exception raised, in which
    case the blob is left as it was. *)
Definition update_tracking_file (tracking_entry : pydict)
    (existing : list (list string)) : csv_result (list (list string)) :=
  and_then
    (match existing with
     | [] => writeheader []
     | _ :: _ => Wrote []
     end)
    (fun out =>
       and_then
         (match existing with
          | [] => Wrote out
          | first :: rows => copy_rows first rows out
          end)
         (writerow tracking_entry)).

End Tracking.

(** ** [resume_agent.py]: step 6 of [process_resume] *)

Section Agent.

Variable unicode_word : ascii -> bool.

(** What one call of [process_resume] brings to its steps 4 and 6: the
    user name, the job title and company name the rewrite gave (strings,
    as [generate_unique_identifier] needs them), its role and date, and
    the clock reading. *)
Record tailoring := {
  user_name : string;
  job_title : string;
  company_name : string;
  role : Tracking.pyval;
  date_modified : Tracking.pyval;
  clock : string
}.

Definition tailored_filename (t : tailoring) : string :=
  generate_unique_identifier unicode_word (user_name t) (job_title t)
    (company_name t) (clock t).

Definition tracking_entry (t : tailoring) : Tracking.pydict :=
  {| Tracking.str_items :=
       [("job_title", Tracking.PStr (job_title t));
        ("company", Tracking.PStr (company_name t));
        ("role", role t);
        ("tailored_resume_identifier", Tracking.PStr (tailored_filename t));
        ("date_modified", date_modified t)];
     Tracking.none_item := None |}.

(** Step 6: the update is tried, and its failure only logged. *)
Definition track (blob : list (list string)) (t : tailoring)
    : list (list string) :=
  match Tracking.update_tracking_file (tracking_entry t) blob with
  | Tracking.Wrote blob' => blob'
  | Tracking.Raised _ => blob
  end.

End Agent.

(** ** [function_app.py]: the tracking entry of its own [process_resume] *)

Definition function_app_tracking_entry
    (user_name original_filename tailored_filename job_title company_name
     role timestamp resume_url changes_summary integration_percentage
     highlighted_skills gap_analysis : Tracking.pyval) : Tracking.pydict :=
  {| Tracking.str_items :=
       [("user_name", user_name);
        ("original_filename", original_filename);
        ("tailored_filename", tailored_filename);
        ("job_title", job_title);
        ("company_name", company_name);
        ("role", role);
        ("timestamp", timestamp);
        ("resume_url", resume_url);
        ("changes_summary", changes_summary);
        ("integration_percentage", integration_percentage);
        ("highlighted_skills", highlighted_skills);
        ("gap_analysis", gap_analysis)];
     Tracking.none_item := None |}.

(** The row an entry is written as. *)
Definition entry_row (d : Tracking.pydict) : list string :=
  map (fun key => Tracking.cell (Tracking.get_or_restval d key))
      Tracking.fieldnames.

(** A row as long as the field names. *)
Definition full_row (row : list string) : bool :=
  (length row =? length Tracking.fieldnames)%nat.

(** ** The bullet sentences, in the specification's words *)

(** A sentence that already ends in terminal punctuation. *)
Definition terminated (sentence : string) : bool :=
  endswith sentence "." || endswith sentence "!" || endswith sentence "?".

(** The sentences a bullet shows: those empty after trimming are
    skipped; a period is put back on every sentence except a final
    sentence that is already terminated. *)
Fixpoint rendered_sentences (sentences : list string) : list string :=
  match sentences with
  | [] => []
  | sentence :: rest =>
      match rest with
      | [] =>
          if blank sentence then []
          else [if terminated sentence then sentence else sentence +:+ "."]
      | _ :: _ =>
          (if blank sentence then [] else [sentence +:+ "."]) ++
          rendered_sentences rest
      end
  end.

(** ** The scope of the model *)

(** A 7-bit character that XML accepts: tab, line feed, carriage
    return, and the codes from 32 to 127. *)
Definition xml_char (c : ascii) : bool :=
  let n := nat_of_ascii c in
  (n =? 9)%nat || (n =? 10)%nat || (n =? 13)%nat ||
  ((32 <=? n)%nat && (n <? 128)%nat).

(** A text python-docx takes into a run without complaint, and on which
    Python's white space and case folding are the ASCII ones. *)
Definition xml_ascii (text : string) : bool := all_chars xml_char text.


(** ** Properties *)

(** ** Strings: visible text *)

Section Strings.

Lemma truthy_rstrip s : truthy (rstrip s) = has_visible s.
Proof.
  induction s as [|c s IH]; simpl; [reflexivity|].
  unfold truthy in *.
  destruct (rstrip s); simpl in *; rewrite <- IH;
    destruct (isspace c); reflexivity.
Qed.

Lemma has_visible_lstrip s : has_visible (lstrip s) = has_visible s.
Proof.
  induction s as [|c s IH]; simpl; [reflexivity|].
  destruct (isspace c) eqn:E; simpl; [exact IH | now rewrite E].
Qed.

Lemma has_visible_rstrip s : has_visible (rstrip s) = has_visible s.
Proof.
  induction s as [|c s IH]; simpl; [reflexivity|].
  destruct (is_empty (rstrip s) && isspace c) eqn:E; simpl.
  - apply andb_true_iff in E as [E1 E2]. rewrite E2. simpl.
    rewrite <- IH. destruct (rstrip s); [reflexivity | discriminate].
  - now rewrite IH.
Qed.

Lemma truthy_strip s : truthy (strip s) = has_visible s.
Proof. unfold strip. now rewrite truthy_rstrip, has_visible_lstrip. Qed.

Lemma has_visible_strip s : has_visible (strip s) = has_visible s.
Proof. unfold strip. now rewrite has_visible_rstrip, has_visible_lstrip. Qed.

Lemma str_app_cons c s t : String c s +:+ t = String c (s +:+ t).
Proof. reflexivity. Qed.

Lemma str_app_nil_r s : s +:+ EmptyString = s.
Proof.
  induction s as [|c s IH]; [reflexivity|].
  now rewrite str_app_cons, IH.
Qed.

Lemma str_app_assoc s t u : (s +:+ t) +:+ u = s +:+ (t +:+ u).
Proof.
  induction s as [|c s IH]; [reflexivity|].
  now rewrite !str_app_cons, IH.
Qed.

Lemma has_visible_app s t :
  has_visible (s +:+ t) = has_visible s || has_visible t.
Proof.
  induction s as [|c s IH]; simpl; [reflexivity|].
  now rewrite IH, orb_assoc.
Qed.

Lemma has_visible_nonempty s : has_visible s = true -> s <> EmptyString.
Proof. now destruct s. Qed.

(** A payload that passed [if not text] is still visible after one
    more [strip]. *)
Lemma payload_visible g :
  truthy (strip g) = true -> has_visible (strip g) = true.
Proof. now rewrite truthy_strip, has_visible_strip. Qed.

(** *** [split] against [join] *)

Lemma prefix_app sep s :
  String.prefix sep s = true -> exists t, s = sep +:+ t.
Proof.
  revert s. induction sep as [|a sep IH]; intros s H.
  - now exists s.
  - destruct s as [|b s]; [destruct sep; discriminate H|].
    cbn [String.prefix] in H.
    destruct (ascii_dec a b) as [->|]; [|discriminate H].
    destruct (IH s H) as [t ->]. now exists t.
Qed.

Lemma split_from_skip sep pre t :
  split_from sep (pre +:+ t) (String.length pre) = split_from sep t 0.
Proof.
  induction pre as [|c pre IH]; [reflexivity|].
  rewrite str_app_cons. cbn [String.length split_from]. exact IH.
Qed.

Lemma split_from_cons sep s skip :
  exists piece rest, split_from sep s skip = piece :: rest.
Proof.
  revert skip. induction s as [|a s IH]; intros skip; cbn [split_from].
  - now exists EmptyString, [].
  - destruct skip; [|apply IH].
    destruct (String.prefix sep (String a s)); [now eexists; eexists|].
    destruct (IH 0%nat) as (piece & rest & ->). now eexists; eexists.
Qed.

Lemma join_cons_char sep c piece rest :
  join sep (String c piece :: rest) = String c (join sep (piece :: rest)).
Proof. cbn [join]. now destruct rest. Qed.

Lemma join_cons_piece sep x y l :
  join sep (x :: y :: l) = x +:+ sep +:+ join sep (y :: l).
Proof. reflexivity. Qed.

(** Joining the pieces of a split with the separator gives the string
    back, for every separator that is not empty. *)
Lemma join_split sep s :
  sep <> EmptyString -> join sep (split sep s) = s.
Proof.
  intros Hsep. unfold split.
  remember (String.length s) as n eqn:Hn.
  revert s Hn. induction n as [n IH] using lt_wf_ind. intros s Hn.
  destruct s as [|c s]; [reflexivity|].
  cbn [split_from].
  destruct (String.prefix sep (String c s)) eqn:Hp.
  - destruct sep as [|a sep]; [congruence|].
    destruct (prefix_app _ _ Hp) as [t Ht].
    rewrite str_app_cons in Ht. injection Ht as -> ->.
    cbn [String.length Nat.sub]. rewrite Nat.sub_0_r, split_from_skip.
    destruct (split_from_cons (String a sep) t 0) as (piece & rest & E).
    rewrite E, join_cons_piece, <- E.
    rewrite (IH (String.length t)); [reflexivity | | reflexivity].
    subst n. cbn [String.length]. clear.
    induction sep as [|b sep IHs];
      [change (EmptyString +:+ t) with t
      |rewrite str_app_cons; cbn [String.length]]; lia.
  - destruct (split_from_cons sep s 0) as (piece & rest & E). rewrite E.
    rewrite join_cons_char, <- E.
    rewrite (IH (String.length s)); [reflexivity | | reflexivity].
    subst n. cbn [String.length]. lia.
Qed.

(** *** Strings without a line feed *)

Lemma no_lf_dot_star s : no_lf (dot_star s) = true.
Proof.
  induction s as [|c s IH]; [reflexivity|]. cbn [dot_star].
  destruct (Ascii.eqb c "010"%char) eqn:E; [reflexivity|].
  cbn [no_lf]. now rewrite E, IH.
Qed.

Lemma no_lf_lstrip s : no_lf s = true -> no_lf (lstrip s) = true.
Proof.
  induction s as [|c s IH]; [reflexivity|]. cbn [lstrip no_lf].
  intros H. apply andb_true_iff in H as [Hc Hs].
  destruct (isspace c); [now apply IH|]. cbn [no_lf]. now rewrite Hc, Hs.
Qed.

Lemma no_lf_rstrip s : no_lf s = true -> no_lf (rstrip s) = true.
Proof.
  induction s as [|c s IH]; [reflexivity|]. cbn [rstrip no_lf].
  intros H. apply andb_true_iff in H as [Hc Hs].
  destruct (is_empty (rstrip s) && isspace c); [reflexivity|].
  cbn [no_lf]. now rewrite Hc, IH.
Qed.

Lemma no_lf_strip s : no_lf s = true -> no_lf (strip s) = true.
Proof. intros H. now apply no_lf_rstrip, no_lf_lstrip. Qed.

(** A string without a line feed is one line. *)
Lemma split_no_lf s :
  no_lf s = true -> split (String "010"%char EmptyString) s = [s].
Proof.
  unfold split. induction s as [|c s IH]; [reflexivity|].
  cbn [no_lf]. intros H. apply andb_true_iff in H as [Hc Hs].
  cbn [split_from String.prefix].
  destruct (ascii_dec "010"%char c) as [<-|_]; [discriminate Hc|].
  now rewrite (IH Hs).
Qed.

End Strings.

(** ** The document: appending and updating in place *)

Section Body.

Lemma update_para_push f p d :
  update_para (length (paragraphs d)) f (push p d) = push (f p) d.
Proof.
  unfold update_para, push. destruct d as [? ? ? ? ? ? ? ps]; simpl.
  replace (length ps) with (length ps + 0)%nat by lia.
  now rewrite alter_app_r.
Qed.

Lemma paragraphs_push p d : paragraphs (push p d) = paragraphs d ++ [p].
Proof. now destruct d. Qed.

Lemma paragraphs_update_para i f d :
  paragraphs (update_para i f d) = alter f i (paragraphs d).
Proof. now destruct d. Qed.

Lemma add_paragraph_push style d :
  add_paragraph style d = (push (new_paragraph style) d, length (paragraphs d)).
Proof. reflexivity. Qed.

(** [add_styled_paragraph] appends exactly one paragraph, and the
    object it returns is that paragraph. *)
Lemma add_styled_paragraph_push d text size bold italic align sa sb :
  add_styled_paragraph d text size bold italic align sa sb =
  (push (styled_paragraph text size bold italic align sa sb) d,
   length (paragraphs d)).
Proof.
  unfold add_styled_paragraph. rewrite add_paragraph_push.
  rewrite update_para_push.
  destruct align as [a|]; [destruct (align_value a =? 0)%Z eqn:Ea|];
    rewrite !update_para_push; unfold styled_paragraph, styled_run;
    rewrite ?Ea; destruct size as [sz|]; try destruct (sz =? 0)%Z;
    reflexivity.
Qed.

Lemma lookup_push_new p d : paragraphs (push p d) !! length (paragraphs d) = Some p.
Proof. rewrite paragraphs_push. apply list_lookup_middle. reflexivity. Qed.

Lemma lookup_push_old p d i q :
  paragraphs d !! i = Some q -> paragraphs (push p d) !! i = Some q.
Proof. rewrite paragraphs_push. apply lookup_app_l_Some. Qed.

End Body.

(** ** Bullets: the sentence loop against its closed form *)

Section Bullets.

Lemma append_runs_nil p : append_runs [] p = p.
Proof. destruct p. unfold append_runs, set_runs. simpl. now rewrite app_nil_r. Qed.

Lemma append_runs_cons r rs p :
  append_runs rs (append_run r p) = append_runs (r :: rs) p.
Proof.
  destruct p. unfold append_runs, append_run, set_runs. simpl.
  now rewrite <- app_assoc.
Qed.

Lemma sentence_runs_rest level ss :
  sentence_runs level false ss = map (fun s => new_run (s +:+ " ")) ss.
Proof. now destruct ss. Qed.

Lemma sentence_runs_cons level first s ss :
  sentence_runs level first (s :: ss) =
  (if first && (level =? 0)%nat
   then set_bold (Some true) (new_run (s +:+ " "))
   else new_run (s +:+ " ")) :: sentence_runs level false ss.
Proof. simpl. now rewrite sentence_runs_rest. Qed.

Lemma bullet_loop_closed level sentences :
  forall n i first para,
    n = (i + length sentences)%nat ->
    bullet_loop level n i sentences first para =
    append_runs (sentence_runs level first (punctuate sentences)) para.
Proof.
  induction sentences as [|s rest IH]; intros n i first para Hn.
  - simpl. now rewrite append_runs_nil.
  - cbn [bullet_loop punctuate]. fold (blank s).
    destruct rest as [|r rest'].
    + (* the final sentence *)
      assert ((i <? n - 1)%nat = false) as ->
        by (apply Nat.ltb_ge; simpl in Hn; lia).
      cbn [orb]. destruct (blank s); cbn [negb].
      * simpl. now rewrite append_runs_nil.
      * destruct first; cbn [bullet_loop]; rewrite <- (append_runs_nil (append_run _ para));
          rewrite append_runs_cons; reflexivity.
    + (* a sentence followed by another one *)
      assert ((i <? n - 1)%nat = true) as ->
        by (apply Nat.ltb_lt; simpl in Hn; lia).
      cbn [orb]. destruct (blank s); cbn [negb app].
      * apply IH. simpl in *. lia.
      * rewrite sentence_runs_cons, <- append_runs_cons.
        destruct first; cbn [andb]; apply IH; simpl in *; lia.
Qed.

(** [add_bullet_point] appends exactly one paragraph, the bulleted
    paragraph of the payload. *)
Lemma add_bullet_point_push d text level sa :
  add_bullet_point d text level sa =
  (push (bullet_paragraph d text level sa) d, length (paragraphs d)).
Proof.
  unfold add_bullet_point. rewrite add_paragraph_push.
  rewrite !update_para_push.
  rewrite (bullet_loop_closed level (split ". " text)
             (length (split ". " text)) 0 true _ eq_refl).
  reflexivity.
Qed.

End Bullets.

(** ** The pass: parser and dispatcher, growth of the body *)

Section Pass.

(** The fused loop body is the marker parser followed by the
    dispatch on the parsed line. *)
Lemma process_line_classify line st :
  process_line line st =
  match classify line with
  | BlankLine | EmptyPayload _ => Ok st
  | Payload kind text => handle kind text st
  | PlainLine l => Ok (plain l st)
  end.
Proof.
  unfold process_line, classify.
  destruct (negb (truthy (strip line))); [reflexivity|].
  destruct (first_match patterns (strip line)) as [[m g]|]; [|reflexivity].
  destruct (negb (truthy (strip g))); reflexivity.
Qed.

Lemma classify_payload_visible line kind text :
  classify line = Payload kind text -> has_visible text = true.
Proof.
  unfold classify.
  destruct (negb (truthy (strip line))); [discriminate|].
  destruct (first_match patterns (strip line)) as [[m g]|]; [|discriminate].
  destruct (negb (truthy (strip g))) eqn:E; [discriminate|].
  intros [= _ <-]. apply payload_visible.
  now apply negb_false_iff in E.
Qed.

Lemma classify_plain_visible line l :
  classify line = PlainLine l -> has_visible l = true.
Proof.
  unfold classify.
  destruct (negb (truthy (strip line))) eqn:E; [discriminate|].
  destruct (first_match patterns (strip line)) as [[m g]|].
  - destruct (negb (truthy (strip g))); discriminate.
  - intros [= <-]. apply payload_visible. now apply negb_false_iff in E.
Qed.

Lemma isspace_read_char c : isspace (read_char c) = isspace c.
Proof.
  unfold read_char. destruct (Ascii.eqb c "013"%char) eqn:E; [|reflexivity].
  apply Ascii.eqb_eq in E. now subst.
Qed.

Lemma has_visible_read_back s : has_visible (read_back s) = has_visible s.
Proof.
  induction s as [|c s IH]; [reflexivity|].
  cbn [read_back has_visible]. now rewrite isspace_read_char, IH.
Qed.

Lemma para_text_append_run r p :
  para_text (append_run r p) = para_text p +:+ read_back (run_text r).
Proof.
  destruct p as [? rs ? ? ? ? ? ?]. unfold para_text. simpl.
  induction rs as [|r0 rs IH]; simpl.
  - apply str_app_nil_r.
  - now rewrite IH, str_app_assoc.
Qed.

Lemma visible_append_run r p : visible p -> visible (append_run r p).
Proof.
  unfold visible. rewrite para_text_append_run, has_visible_app.
  now intros ->.
Qed.

Lemma extends_refl d : extends d d.
Proof. intros i p H. now exists p. Qed.

Lemma extends_trans d1 d2 d3 : extends d1 d2 -> extends d2 d3 -> extends d1 d3.
Proof.
  intros H12 H23 i p H.
  destruct (H12 i p H) as (p2 & H2 & V2).
  destruct (H23 i p2 H2) as (p3 & H3 & V3).
  exists p3. split; [assumption | auto].
Qed.

Lemma extends_push p d : extends d (push p d).
Proof. intros i q H. exists q. split; [now apply lookup_push_old | auto]. Qed.

Lemma extends_update i f d :
  (forall p, visible p -> visible (f p)) -> extends d (update_para i f d).
Proof.
  intros Hf j q H. rewrite paragraphs_update_para.
  destruct (decide (i = j)) as [->|Hne].
  - exists (f q). rewrite list_lookup_alter_eq, H. split; [reflexivity | apply Hf].
  - exists q. rewrite list_lookup_alter_ne by assumption. split; [assumption | auto].
Qed.

Lemma extends_add_styled d text size bold italic align sa sb :
  extends d (fst (add_styled_paragraph d text size bold italic align sa sb)).
Proof. rewrite add_styled_paragraph_push. apply extends_push. Qed.

Lemma extends_summary_loop lines : forall i d, extends d (summary_loop i lines d).
Proof.
  induction lines as [|l lines IH]; intros i d; cbn [summary_loop].
  - apply extends_refl.
  - eapply extends_trans; [|apply IH].
    destruct ((i =? 0)%nat && contains "US Citizen" l); apply extends_add_styled.
Qed.

Lemma tracker_ok_extends ref d d' :
  tracker_ok ref d -> extends d d' -> tracker_ok ref d'.
Proof.
  intros Hok Hext i Hi. destruct (Hok i Hi) as (p & Hp & Vp).
  destruct (Hext i p Hp) as (p' & Hp' & Vp'). exists p'. auto.
Qed.

Lemma tracker_ok_None d : tracker_ok None d.
Proof. intros i H. discriminate. Qed.

Lemma tracker_ok_new p d :
  visible p -> tracker_ok (Some (length (paragraphs d))) (push p d).
Proof.
  intros V i [= <-]. exists p. split; [apply lookup_push_new | assumption].
Qed.

Lemma visible_styled text size bold italic align sa sb :
  has_visible text = true ->
  visible (styled_paragraph text size bold italic align sa sb).
Proof.
  unfold visible, styled_paragraph, para_text. simpl.
  intros H. now rewrite has_visible_app, has_visible_read_back, H.
Qed.

(** A tracker that is set passes the test [ref and ref.text.strip()]. *)
Lemma tracker_ok_open ref d i :
  tracker_ok ref d -> ref = Some i -> open_with_text ref d = true.
Proof.
  intros Hok ->. destruct (Hok i eq_refl) as (p & Hp & Vp).
  unfold open_with_text. rewrite Hp, truthy_strip. exact Vp.
Qed.

End Pass.

(** ** The handlers keep the body and the trackers well formed *)

(** Case analysis on the tests a handler makes. *)
Ltac case_handler H :=
  repeat match type of H with
    | context [if ?b then _ else _] => destruct b eqn:?
    | context [match ?o with Some _ => _ | None => _ end] => destruct o eqn:?
    end.

Section Handlers.

Lemma visible_same_runs (f : Paragraph -> Paragraph) :
  (forall p, para_runs (f p) = para_runs p) ->
  forall p, visible p -> visible (f p).
Proof. intros Hf p. unfold visible, para_text. now rewrite Hf. Qed.

Lemma visible_add_tab_stop pos a p : visible p -> visible (add_tab_stop pos a p).
Proof. now apply visible_same_runs. Qed.

Lemma visible_set_space_after l p : visible p -> visible (set_space_after l p).
Proof. now apply visible_same_runs. Qed.

Lemma extends_add_horizontal_line i d : extends d (add_horizontal_line i d).
Proof. apply extends_update. now apply visible_same_runs. Qed.

Create HintDb handlers.

#[local] Hint Resolve extends_refl extends_push extends_summary_loop
  extends_add_horizontal_line visible_append_run visible_add_tab_stop
  visible_set_space_after : handlers.

Ltac grow :=
  repeat first
    [ solve [auto with handlers]
    | eapply extends_trans;
      [| first [ apply extends_add_horizontal_line
               | apply extends_update; auto with handlers ] ] ].

Lemma handle_extends kind text st st' :
  handle kind text st = Ok st' -> extends (doc st) (doc st').
Proof.
  unfold handle. intros H.
  destruct kind;
    rewrite ?add_styled_paragraph_push, ?add_bullet_point_push in H;
    case_handler H;
    rewrite ?add_styled_paragraph_push in H;
    try discriminate; injection H as <-; cbn [doc]; grow.
Qed.

Lemma handle_trackers_ok kind text st st' :
  trackers_ok st -> has_visible text = true ->
  handle kind text st = Ok st' -> trackers_ok st'.
Proof.
  intros [Hj He] Hv H.
  pose proof (handle_extends _ _ _ _ H) as Hext.
  unfold handle in H.
  destruct kind;
    rewrite ?add_styled_paragraph_push, ?add_bullet_point_push in H;
    case_handler H;
    rewrite ?add_styled_paragraph_push in H;
    try discriminate; injection H as <-;
    cbn [doc last_job_para last_edu_para] in *;
    (split;
     first [ apply tracker_ok_None
           | now apply tracker_ok_new, visible_styled
           | eapply tracker_ok_extends; eassumption
           | assumption ]).
Qed.

Lemma plain_trackers_ok l st : trackers_ok (plain l st).
Proof.
  unfold plain. rewrite add_styled_paragraph_push.
  split; apply tracker_ok_None.
Qed.

Lemma process_line_trackers_ok line st st' :
  trackers_ok st -> process_line line st = Ok st' -> trackers_ok st'.
Proof.
  intros Hok. rewrite process_line_classify.
  destruct (classify line) as [|m|m text|l] eqn:Hc.
  - now intros [= <-].
  - now intros [= <-].
  - apply handle_trackers_ok; [assumption|].
    eapply classify_payload_visible; eassumption.
  - intros [= <-]. apply plain_trackers_ok.
Qed.

Lemma reachable_trackers_ok st : reachable st -> trackers_ok st.
Proof.
  induction 1 as [|st line st' _ IH Hstep].
  - split; apply tracker_ok_None.
  - eapply process_line_trackers_ok; eassumption.
Qed.

End Handlers.

(** ** Closed forms of the pairing handlers *)

Section Pairing.

Lemma update_para_twice i f g d :
  update_para i f (update_para i g d) = update_para i (f ∘ g) d.
Proof.
  unfold update_para. destruct d; simpl. now rewrite list_alter_alter_eq.
Qed.

Lemma handle_JOB_TITLE text st :
  handle JOB_TITLE text st =
  Ok (mkState
        (push (styled_paragraph text None true false None (Pt 0) (Pt 0)) (doc st))
        (Some (length (paragraphs (doc st)))) (last_edu_para st)).
Proof. unfold handle. now rewrite add_styled_paragraph_push. Qed.

Lemma handle_COMPANY_open text st i :
  last_job_para st = Some i ->
  open_with_text (Some i) (doc st) = true ->
  handle COMPANY text st =
  Ok (mkState
        (update_para i
           (append_run (set_italic (Some true) (new_run (" | " +:+ text))))
           (doc st))
        (Some i) (last_edu_para st)).
Proof. unfold handle. intros -> ->. reflexivity. Qed.

Lemma handle_DATES_open text st i :
  last_job_para st = Some i ->
  handle DATES text st =
  Ok (mkState (update_para i (attach_date text) (doc st))
              None (last_edu_para st)).
Proof.
  unfold handle. intros ->. now rewrite !update_para_twice.
Qed.

Lemma handle_DATES_closed text st :
  last_job_para st = None ->
  handle DATES text st =
  Ok (mkState (push (standalone_date text) (doc st))
              None (last_edu_para st)).
Proof.
  unfold handle. intros ->. now rewrite add_styled_paragraph_push.
Qed.

Lemma handle_EDUCATION_DATES_open text st i :
  last_edu_para st = Some i ->
  open_with_text (Some i) (doc st) = true ->
  handle EDUCATION_DATES text st =
  Ok (mkState (update_para i (attach_date text) (doc st))
              (last_job_para st) None).
Proof.
  unfold handle. intros -> ->. now rewrite !update_para_twice.
Qed.

Lemma handle_EDUCATION_DATES_closed text st :
  last_edu_para st = None ->
  handle EDUCATION_DATES text st =
  Ok (mkState (push (standalone_date text) (doc st))
              (last_job_para st) None).
Proof.
  unfold handle. intros ->. cbn [open_with_text].
  now rewrite add_styled_paragraph_push.
Qed.

Lemma plain_push l st :
  plain l st = mkState (push (plain_paragraph l) (doc st)) None None.
Proof. unfold plain. now rewrite add_styled_paragraph_push. Qed.

(** A reference held by a tracker points into the body. *)
Lemma reachable_refs_in_range st i :
  reachable st ->
  last_job_para st = Some i \/ last_edu_para st = Some i ->
  (i < length (paragraphs (doc st)))%nat.
Proof.
  intros Hr Hi. destruct (reachable_trackers_ok st Hr) as [Hj He].
  destruct Hi as [Hi|Hi];
    [destruct (Hj i Hi) as (p & Hp & _) | destruct (He i Hi) as (p & Hp & _)];
    eapply lookup_lt_Some; eassumption.
Qed.

End Pairing.

(** ** Title, company and dates on one line *)

Section TitleCompanyDates.

Lemma engineer_acme_from st :
  process_lines engineer_acme_lines st =
  Ok (mkState (push engineer_acme (doc st)) None (last_edu_para st)).
Proof.
  unfold engineer_acme_lines. cbn [process_lines].
  rewrite process_line_classify.
  assert (classify "[JOB_TITLE] Engineer" = Payload JOB_TITLE "Engineer")
    as -> by reflexivity.
  rewrite handle_JOB_TITLE. cbn [bind].
  rewrite process_line_classify.
  assert (classify "[COMPANY] Acme" = Payload COMPANY "Acme")
    as -> by reflexivity.
  erewrite handle_COMPANY_open; [|reflexivity|].
  2:{ cbn [doc]. unfold open_with_text. now rewrite lookup_push_new. }
  cbn [bind doc last_edu_para]. rewrite update_para_push.
  rewrite process_line_classify.
  assert (classify "[DATES] 2020-2022" = Payload DATES "2020-2022")
    as -> by reflexivity.
  erewrite handle_DATES_open; [|reflexivity].
  cbn [bind doc last_edu_para]. rewrite update_para_push.
  reflexivity.
Qed.

(** C1. The three lines [[JOB_TITLE] Engineer], [[COMPANY] Acme],
    [[DATES] 2020-2022] give exactly one paragraph: its text reads
    [Engineer | Acme], then a tab and [2020-2022] against a right tab
    stop; this holds wherever the three lines stand (one paragraph is
    added to the body), and the job tracker is cleared after the date
    line. *)
Theorem title_company_dates_one_paragraph :
  para_text engineer_acme = "Engineer | Acme" +:+ TAB +:+ "2020-2022" /\
  para_tab_stops engineer_acme = [mkTabStop (Inches 650) RIGHT] /\
  (forall st,
     process_lines engineer_acme_lines st =
     Ok (mkState (push engineer_acme (doc st)) None (last_edu_para st))) /\
  (exists st,
     render (join_lines engineer_acme_lines) = Ok st /\
     paragraphs (doc st) = [engineer_acme] /\
     last_job_para st = None) /\
  (exists d,
     text_to_docx (join_lines engineer_acme_lines) = Ok d /\
     paragraphs d = [engineer_acme]).
Proof.
  split; [reflexivity|]. split; [reflexivity|].
  split; [exact engineer_acme_from|].
  split.
  - eexists. split; [vm_compute; reflexivity|]. split; reflexivity.
  - eexists. split; [vm_compute; reflexivity|]. reflexivity.
Qed.

End TitleCompanyDates.

(** ** Empty payloads and interrupted pairings *)

Section Suppression.

Lemma empty_payload_skipped line kind st :
  classify line = EmptyPayload kind -> process_line line st = Ok st.
Proof. intros H. now rewrite process_line_classify, H. Qed.

Lemma blank_line_skipped line st :
  classify line = BlankLine -> process_line line st = Ok st.
Proof. intros H. now rewrite process_line_classify, H. Qed.

Lemma plain_line_step line l st :
  classify line = PlainLine l ->
  process_line line st =
  Ok (mkState (push (plain_paragraph l) (doc st)) None None).
Proof. intros H. now rewrite process_line_classify, H, plain_push. Qed.

Lemma classify_tag kind : classify (tag kind) = EmptyPayload kind.
Proof. destruct kind; reflexivity. Qed.

(** C7. For every marker kind, the line made of the bare tag is
    recognised as that kind with an empty payload, leaves the state of
    the pass as it was, and alone gives a document without paragraphs:
    no paragraph and no error. *)
Theorem empty_payload_no_paragraph (kind : marker) :
  classify (tag kind) = EmptyPayload kind /\
  (forall st, process_line (tag kind) st = Ok st) /\
  (exists d, text_to_docx (tag kind) = Ok d /\ paragraphs d = []).
Proof.
  split; [apply classify_tag|]. split.
  - intros st. apply (empty_payload_skipped _ kind), classify_tag.
  - exists (doc initial_state). split; [|reflexivity].
    destruct kind; vm_compute; reflexivity.
Qed.

Lemma interrupted_from line l st :
  classify line = PlainLine l ->
  process_lines (interrupted_lines line) st =
  Ok (mkState
        (push (standalone_date "2020")
           (push (plain_paragraph l) (push engineer_title (doc st))))
        None None).
Proof.
  intros Hl. unfold interrupted_lines. cbn [process_lines].
  rewrite process_line_classify.
  assert (classify "[JOB_TITLE] Engineer" = Payload JOB_TITLE "Engineer")
    as -> by reflexivity.
  rewrite handle_JOB_TITLE. cbn [bind].
  rewrite (plain_line_step _ l) by assumption. cbn [bind doc].
  rewrite process_line_classify.
  assert (classify "[DATES] 2020" = Payload DATES "2020") as -> by reflexivity.
  now rewrite handle_DATES_closed.
Qed.

(** C8. With an unmatched, non-empty line between [[JOB_TITLE] Engineer]
    and [[DATES] 2020], the plain line clears both trackers, so the date
    does not join the title paragraph: the title paragraph is left as
    the title line made it, and the date is a standalone right-aligned
    paragraph of its own. *)
Theorem plain_line_interrupts_pairing (line l : string) (st : State) :
  classify line = PlainLine l ->
  (forall st0,
     process_line line st0 =
     Ok (mkState (push (plain_paragraph l) (doc st0)) None None)) /\
  process_lines (interrupted_lines line) st =
  Ok (mkState
        (push (standalone_date "2020")
           (push (plain_paragraph l) (push engineer_title (doc st))))
        None None) /\
  para_text engineer_title = "Engineer" /\
  para_tab_stops engineer_title = [] /\
  para_alignment (standalone_date "2020") = Some RIGHT.
Proof.
  intros Hl. split; [intros st0; now apply plain_line_step|].
  split; [now apply interrupted_from|]. now repeat split.
Qed.

Lemma plain_line_interrupts_pairing_witness :
  classify "Led the platform team" = PlainLine "Led the platform team" /\
  process_lines (interrupted_lines "Led the platform team") initial_state =
  Ok (mkState
        (push (standalone_date "2020")
           (push (plain_paragraph "Led the platform team")
              (push engineer_title (doc initial_state))))
        None None).
Proof.
  split; [reflexivity|].
  apply (plain_line_interrupts_pairing
           "Led the platform team" "Led the platform team" initial_state
           eq_refl).
Defined.

(** The same through [text_to_docx]: three paragraphs, the title, the
    plain line and the date. *)
Example interrupted_document :
  exists d,
    text_to_docx (join_lines (interrupted_lines "Led the platform team")) = Ok d /\
    paragraphs d =
    [ engineer_title; plain_paragraph "Led the platform team";
      standalone_date "2020" ].
Proof. eexists. split; [vm_compute; reflexivity | reflexivity]. Qed.

End Suppression.

(** ** The trackers: invariant, frame, and the two date handlers *)

Section Trackers.

Lemma engineer_open_reachable : reachable engineer_open.
Proof.
  apply (reachable_step initial_state "[JOB_TITLE] Engineer");
    [apply reachable_initial | reflexivity].
Qed.

Lemma degree_open_reachable : reachable degree_open.
Proof.
  apply (reachable_step initial_state "[EDUCATION_DEGREE] BSc");
    [apply reachable_initial | reflexivity].
Qed.

(** C9. In every state of the loop, a tracker that is set refers to a
    paragraph of the body whose text is not empty, also after trimming;
    a marker line with an empty payload leaves the state, so the
    trackers, as they are; and the paragraph to which the DATES branch
    attaches the date is one with non-empty text. *)
Theorem trackers_reference_visible_text (st : State) :
  reachable st ->
  (forall i, last_job_para st = Some i \/ last_edu_para st = Some i ->
     exists p, paragraphs (doc st) !! i = Some p /\
               para_text p <> EmptyString /\
               truthy (strip (para_text p)) = true) /\
  (forall line kind,
     classify line = EmptyPayload kind -> process_line line st = Ok st) /\
  (forall text i, last_job_para st = Some i ->
     exists p st',
       paragraphs (doc st) !! i = Some p /\
       para_text p <> EmptyString /\
       handle DATES text st = Ok st' /\
       paragraphs (doc st') !! i = Some (attach_date text p)).
Proof.
  intros Hr. destruct (reachable_trackers_ok st Hr) as [Hj He].
  split; [|split].
  - intros i [Hi|Hi];
      [destruct (Hj i Hi) as (p & Hp & Vp) | destruct (He i Hi) as (p & Hp & Vp)];
      exists p; (split; [assumption|]);
      (split; [now apply has_visible_nonempty | now rewrite truthy_strip]).
  - intros line kind. apply empty_payload_skipped.
  - intros text i Hi. destruct (Hj i Hi) as (p & Hp & Vp).
    exists p. eexists. split; [assumption|].
    split; [now apply has_visible_nonempty|].
    split; [apply handle_DATES_open; exact Hi|].
    cbn [doc]. now rewrite paragraphs_update_para, list_lookup_alter_eq, Hp.
Qed.

Lemma trackers_reference_visible_text_witness :
  reachable engineer_open /\
  exists p, paragraphs (doc engineer_open) !! 0%nat = Some p /\
            para_text p <> EmptyString /\
            truthy (strip (para_text p)) = true.
Proof.
  split; [exact engineer_open_reachable|].
  destruct (trackers_reference_visible_text engineer_open
              engineer_open_reachable) as (H & _).
  apply H. left. reflexivity.
Defined.

Lemma handle_frame kind text st st' :
  frame_kind kind = true -> handle kind text st = Ok st' ->
  trackers st' = trackers st.
Proof.
  intros Hk H. unfold handle in H.
  destruct kind; try discriminate Hk;
    rewrite ?add_styled_paragraph_push, ?add_bullet_point_push in H;
    case_handler H;
    rewrite ?add_styled_paragraph_push in H;
    try discriminate; injection H as <-; reflexivity.
Qed.

Lemma frame_or_pairing kind : pairing_kind kind = negb (frame_kind kind).
Proof. now destruct kind. Qed.

(** The only failure of a handler: SKILLS on an empty body. *)
Lemma handle_raises kind text st e :
  handle kind text st = Raise e ->
  kind = SKILLS /\ paragraphs (doc st) = [] /\ e = IndexError.
Proof.
  unfold handle. intros H. destruct e.
  destruct kind;
    rewrite ?add_styled_paragraph_push, ?add_bullet_point_push in H;
    case_handler H;
    rewrite ?add_styled_paragraph_push in H;
    try discriminate.
  split; [reflexivity|]. split; [|reflexivity].
  now apply last_None.
Qed.

Lemma process_line_raises line st e :
  process_line line st = Raise e ->
  paragraphs (doc st) = [] /\ exists text, classify line = Payload SKILLS text.
Proof.
  rewrite process_line_classify.
  destruct (classify line) as [|m|m text|l]; try discriminate.
  intros H. apply handle_raises in H as (-> & Hd & _).
  split; [assumption | now exists text].
Qed.

(** C10. A line that is blank, a marker with an empty payload, or a
    line of kind NAME, CONTACT, SUMMARY, SECTION_HEADER, LOCATION,
    BULLET, SKILL_CATEGORY, SKILLS or EDUCATION_DETAILS is processed
    with both trackers left as they were (the one line that is not
    processed at all is a SKILLS line on an empty body, where no
    tracker is set); so with the job tracker set, a date line that
    follows such a line still attaches to the paragraph the tracker
    referred to; and a line that does change a tracker is a pairing
    kind with a payload or an unmatched line. *)
Theorem frame_lines_keep_trackers (line : string) (st : State) :
  reachable st ->
  (keeps_trackers (classify line) = true ->
     (exists st',
        process_line line st = Ok st' /\
        last_job_para st' = last_job_para st /\
        last_edu_para st' = last_edu_para st) \/
     (process_line line st = Raise IndexError /\
      paragraphs (doc st) = [] /\
      last_job_para st = None /\ last_edu_para st = None /\
      exists text, classify line = Payload SKILLS text)) /\
  (forall i,
     last_job_para st = Some i ->
     keeps_trackers (classify line) = true ->
     exists st',
       process_line line st = Ok st' /\
       last_job_para st' = Some i /\
       forall text,
         handle DATES text st' =
         Ok (mkState (update_para i (attach_date text) (doc st'))
                     None (last_edu_para st))) /\
  (forall st',
     process_line line st = Ok st' ->
     trackers st' <> trackers st ->
     may_alter_trackers (classify line) = true).
Proof.
  intros Hr. destruct (reachable_trackers_ok st Hr) as [Hj He].
  assert (forall st', process_line line st = Ok st' ->
            keeps_trackers (classify line) = true ->
            trackers st' = trackers st) as Hkeep.
  { intros st'. rewrite process_line_classify.
    destruct (classify line) as [|m|m text|l]; cbn [keeps_trackers]; intros H.
    - now injection H as <-.
    - now injection H as <-.
    - intros Hk. eapply handle_frame; eassumption.
    - discriminate. }
  split; [|split].
  - intros Hk. destruct (process_line line st) as [st'|e] eqn:Hrun.
    + left. exists st'. specialize (Hkeep st' eq_refl Hk).
      injection Hkeep as H1 H2. now repeat split.
    + right. destruct (process_line_raises _ _ _ Hrun) as (Hd & text & Hc).
      rewrite process_line_classify, Hc in Hrun.
      apply handle_raises in Hrun as (_ & _ & ->).
      split; [reflexivity|]. split; [assumption|].
      split; [|split; [|now exists text]].
      * destruct (last_job_para st) as [i|]; [|reflexivity].
        destruct (Hj i eq_refl) as (p & Hp & _). rewrite Hd in Hp. discriminate.
      * destruct (last_edu_para st) as [i|]; [|reflexivity].
        destruct (He i eq_refl) as (p & Hp & _). rewrite Hd in Hp. discriminate.
  - intros i Hi Hk. destruct (process_line line st) as [st'|e] eqn:Hrun.
    + exists st'. specialize (Hkeep st' eq_refl Hk).
      injection Hkeep as H1 H2. split; [reflexivity|].
      split; [congruence|]. intros text. rewrite <- H2.
      apply handle_DATES_open. congruence.
    + destruct (process_line_raises _ _ _ Hrun) as (Hd & _).
      destruct (Hj i Hi) as (p & Hp & _). rewrite Hd in Hp. discriminate.
  - intros st' Hrun Hne.
    specialize (Hkeep st' Hrun).
    destruct (classify line) as [|m|m text|l];
      cbn [keeps_trackers may_alter_trackers] in *.
    + now destruct Hne, Hkeep.
    + now destruct Hne, Hkeep.
    + rewrite frame_or_pairing. destruct (frame_kind m); [|reflexivity].
      now destruct Hne, Hkeep.
    + reflexivity.
Qed.

Lemma frame_lines_keep_trackers_witness :
  reachable engineer_open /\
  last_job_para engineer_open = Some 0%nat /\
  keeps_trackers (classify "[BULLET] Did X") = true /\
  exists st',
    process_line "[BULLET] Did X" engineer_open = Ok st' /\
    last_job_para st' = Some 0%nat /\
    forall text,
      handle DATES text st' =
      Ok (mkState (update_para 0 (attach_date text) (doc st'))
                  None (last_edu_para engineer_open)).
Proof.
  split; [exact engineer_open_reachable|].
  split; [reflexivity|]. split; [reflexivity|].
  destruct (frame_lines_keep_trackers "[BULLET] Did X" engineer_open
              engineer_open_reachable) as (_ & Hdates & _).
  exact (Hdates 0%nat eq_refl eq_refl).
Defined.

(** A date still joins the title across a location, a bullet and an
    empty marker. *)
Example date_attaches_across_frame_lines :
  exists d,
    text_to_docx
      (join_lines [ "[JOB_TITLE] Engineer"; "[LOCATION] Paris";
                    "[BULLET] Did X"; "[SKILLS]"; "[DATES] 2020" ]) = Ok d /\
    paragraphs d !! 0%nat = Some (attach_date "2020" engineer_title) /\
    length (paragraphs d) = 3%nat.
Proof. eexists. split; [vm_compute; reflexivity|]. split; reflexivity. Qed.

(** C5. In every state of the loop the EDUCATION_DATES branch is the
    DATES branch with the two trackers exchanged: it attaches exactly
    when the tracker is set, it attaches the same right tab stop at six
    and a half inches, the same tab-and-date run and the same spacing,
    it clears the tracker, and otherwise it emits the same standalone
    right-aligned paragraph. *)
Theorem education_dates_same_as_dates (st : State) (text : string) :
  reachable st ->
  handle EDUCATION_DATES text st =
  map_result swap_trackers (handle DATES text (swap_trackers st)) /\
  (forall i, last_edu_para st = Some i ->
     handle EDUCATION_DATES text st =
     Ok (mkState (update_para i (attach_date text) (doc st))
                 (last_job_para st) None)) /\
  (forall i, last_job_para st = Some i ->
     handle DATES text st =
     Ok (mkState (update_para i (attach_date text) (doc st))
                 None (last_edu_para st))) /\
  (last_edu_para st = None ->
     handle EDUCATION_DATES text st =
     Ok (mkState (push (standalone_date text) (doc st))
                 (last_job_para st) None)) /\
  (last_job_para st = None ->
     handle DATES text st =
     Ok (mkState (push (standalone_date text) (doc st))
                 None (last_edu_para st))).
Proof.
  intros Hr. destruct (reachable_trackers_ok st Hr) as [Hj He].
  assert (forall i, last_edu_para st = Some i ->
            handle EDUCATION_DATES text st =
            Ok (mkState (update_para i (attach_date text) (doc st))
                        (last_job_para st) None)) as Hopen.
  { intros i Hi. apply handle_EDUCATION_DATES_open; [assumption|].
    rewrite <- Hi. eapply tracker_ok_open; eassumption. }
  split; [|split; [exact Hopen|split; [|split]]].
  - destruct (last_edu_para st) as [i|] eqn:Hi.
    + rewrite (Hopen i eq_refl).
      rewrite (handle_DATES_open text (swap_trackers st) i) by exact Hi.
      reflexivity.
    + rewrite handle_EDUCATION_DATES_closed by assumption.
      rewrite (handle_DATES_closed text (swap_trackers st)) by exact Hi.
      reflexivity.
  - intros i. apply handle_DATES_open.
  - apply handle_EDUCATION_DATES_closed.
  - apply handle_DATES_closed.
Qed.

Lemma education_dates_same_as_dates_witness :
  reachable degree_open /\
  handle EDUCATION_DATES "2015-2019" degree_open =
  map_result swap_trackers
    (handle DATES "2015-2019" (swap_trackers degree_open)).
Proof.
  split; [exact degree_open_reachable|].
  apply (education_dates_same_as_dates degree_open "2015-2019"
           degree_open_reachable).
Defined.

(** Off the invariant the two tests do part: with the education tracker
    on a paragraph without text, EDUCATION_DATES starts a paragraph
    where DATES would attach. *)
Example date_tests_differ_off_invariant :
  handle EDUCATION_DATES "2019" empty_block_open <>
  map_result swap_trackers (handle DATES "2019" (swap_trackers empty_block_open)).
Proof. vm_compute. discriminate. Qed.

End Trackers.

(** ** Summary lines *)

Section Summary.

Lemma set_paragraphs_twice l l' d :
  set_paragraphs l (set_paragraphs l' d) = set_paragraphs l d.
Proof. reflexivity. Qed.

Lemma set_paragraphs_same d : set_paragraphs (paragraphs d) d = d.
Proof. now destruct d. Qed.

Lemma push_set_paragraphs p l d :
  push p (set_paragraphs l d) = set_paragraphs (l ++ [p]) d.
Proof. reflexivity. Qed.

Lemma summary_step i l d :
  (if (i =? 0)%nat && contains "US Citizen" l
   then fst (add_styled_paragraph d l None true false None (Pt 2) (Pt 0))
   else fst (add_styled_paragraph d l None false false None (Pt 2) (Pt 0))) =
  push (summary_paragraph ((i =? 0)%nat && contains "US Citizen" l) l) d.
Proof.
  rewrite !add_styled_paragraph_push.
  now destruct ((i =? 0)%nat && contains "US Citizen" l).
Qed.

(** After the first sub-line every sub-line has the default weight. *)
Lemma summary_loop_rest lines :
  forall i d, i <> 0%nat ->
    summary_loop i lines d =
    set_paragraphs (paragraphs d ++ map (summary_paragraph false) lines) d.
Proof.
  induction lines as [|l lines IH]; intros i d Hi; cbn [summary_loop map].
  - now rewrite app_nil_r, set_paragraphs_same.
  - rewrite summary_step, IH by lia.
    apply Nat.eqb_neq in Hi. rewrite Hi. cbn [andb].
    rewrite paragraphs_push, <- app_assoc. reflexivity.
Qed.

Lemma summary_loop_closed text d :
  summary_loop 0 (split LF text) d =
  set_paragraphs (paragraphs d ++ summary_paragraphs text) d.
Proof.
  unfold summary_paragraphs.
  destruct (split LF text) as [|first rest]; cbn [summary_loop].
  - now rewrite app_nil_r, set_paragraphs_same.
  - rewrite summary_step, summary_loop_rest by lia.
    rewrite paragraphs_push, <- app_assoc. reflexivity.
Qed.

(** C3, as the code has it. The SUMMARY branch splits the payload on
    line feeds and emits one paragraph per sub-line, in order, all with
    the same size and spacing; every sub-line has the default weight
    except the first, which is bold exactly when it contains the phrase
    [US Citizen]. *)
Theorem summary_first_line_phrase_bold (text : string) (st : State) :
  handle SUMMARY text st =
  Ok (mkState
        (set_paragraphs (paragraphs (doc st) ++ summary_paragraphs text) (doc st))
        (last_job_para st) (last_edu_para st)) /\
  length (summary_paragraphs text) = length (split LF text) /\
  map para_text (summary_paragraphs text) = map read_back (split LF text).
Proof.
  split; [|split].
  - unfold handle. now rewrite summary_loop_closed.
  - unfold summary_paragraphs.
    destruct (split LF text); cbn [length]; [reflexivity|].
    now rewrite length_map.
  - unfold summary_paragraphs.
    destruct (split LF text) as [|first rest]; [reflexivity|].
    cbn [map]. f_equal.
    + apply str_app_nil_r.
    + rewrite map_map. apply map_ext. intros l. apply str_app_nil_r.
Qed.

(** C3, as the claim states it, fails: a summary that starts with the
    phrase is singled out and rendered bold, unlike the uniform
    rendering at the default weight. *)
Lemma summary_phrase_singled_out :
  classify "[SUMMARY] US Citizen with clearance" =
    Payload SUMMARY "US Citizen with clearance" /\
  process_line "[SUMMARY] US Citizen with clearance" initial_state <>
    summary_uniform "US Citizen with clearance" initial_state /\
  exists st,
    process_line "[SUMMARY] US Citizen with clearance" initial_state = Ok st /\
    map (fun p => map run_bold (para_runs p)) (paragraphs (doc st)) =
      [[Some true]].
Proof.
  split; [reflexivity|]. split.
  - vm_compute. discriminate.
  - eexists. split; [vm_compute; reflexivity|]. reflexivity.
Qed.

(** Without the phrase in the first sub-line the rendering is the
    uniform one. *)
Lemma summary_uniform_without_phrase text st :
  (forall first rest,
     split LF text = first :: rest -> contains "US Citizen" first = false) ->
  handle SUMMARY text st = summary_uniform text st.
Proof.
  intros H. unfold handle, summary_uniform.
  rewrite summary_loop_closed. unfold summary_paragraphs.
  destruct (split LF text) as [|first rest] eqn:E; [reflexivity|].
  now rewrite (H first rest eq_refl).
Qed.

(** On a line of the input the payload has no line feed left, so a
    SUMMARY line is one paragraph, bold exactly when it contains the
    phrase. *)
Lemma classify_payload_one_line line kind text :
  classify line = Payload kind text -> split LF text = [text].
Proof.
  unfold classify.
  destruct (negb (truthy (strip line))); [discriminate|].
  destruct (first_match patterns (strip line)) as [[m g]|] eqn:Hm;
    [|discriminate].
  destruct (negb (truthy (strip g))); [discriminate|].
  intros [= _ <-]. apply split_no_lf, no_lf_strip.
  clear -Hm. induction patterns as [|k ks IH]; [discriminate|].
  cbn [first_match] in Hm. unfold marker_match in Hm.
  destruct (literal_ci _ _) as [rest|]; [|now apply IH].
  injection Hm as _ <-. apply no_lf_dot_star.
Qed.

Lemma summary_line_one_paragraph line text st :
  classify line = Payload SUMMARY text ->
  process_line line st =
  Ok (mkState
        (push (summary_paragraph (contains "US Citizen" text) text) (doc st))
        (last_job_para st) (last_edu_para st)).
Proof.
  intros Hc. rewrite process_line_classify, Hc.
  unfold handle. rewrite summary_loop_closed. unfold summary_paragraphs.
  now rewrite (classify_payload_one_line _ _ _ Hc).
Qed.

End Summary.

(** ** Bullet lines *)

Section BulletLines.

Lemma last_char_cons a s :
  s <> EmptyString -> last_char (String a s) = last_char s.
Proof. now destruct s. Qed.

Lemma last_char_some s : s <> EmptyString -> exists c, last_char s = Some c.
Proof.
  induction s as [|a s IH]; [congruence|]. intros _.
  destruct s as [|b s]; [now exists a|].
  rewrite last_char_cons by discriminate. now apply IH.
Qed.

Lemma last_char_visible s c :
  last_char s = Some c -> isspace c = false -> has_visible s = true.
Proof.
  induction s as [|a s IH]; [discriminate|]. intros H Hc.
  destruct s as [|b s].
  - injection H as ->. simpl. now rewrite Hc.
  - rewrite last_char_cons in H by discriminate.
    change (has_visible (String a (String b s)))
      with (negb (isspace a) || has_visible (String b s)).
    rewrite (IH H Hc). apply orb_true_r.
Qed.

(** What [rstrip] leaves does not end in white space. *)
Lemma rstrip_last_visible s c :
  last_char (rstrip s) = Some c -> isspace c = false.
Proof.
  induction s as [|a s IH]; [discriminate|]. cbn [rstrip].
  destruct (rstrip s) as [|b r]; cbn [is_empty andb].
  - destruct (isspace a) eqn:Ea; [discriminate|]. now intros [= <-].
  - rewrite last_char_cons by discriminate. exact IH.
Qed.

Lemma classify_payload_last line kind text :
  classify line = Payload kind text ->
  exists c, last_char text = Some c /\ isspace c = false.
Proof.
  unfold classify.
  destruct (negb (truthy (strip line))); [discriminate|].
  destruct (first_match patterns (strip line)) as [[m g]|]; [|discriminate].
  destruct (negb (truthy (strip g))) eqn:E; [discriminate|].
  intros [= _ <-]. apply negb_false_iff in E.
  destruct (last_char_some (strip g)) as [c Hc].
  { intros H0. rewrite H0 in E. discriminate. }
  exists c. split; [assumption|]. eapply rstrip_last_visible. exact Hc.
Qed.

Lemma prefix_dot_space a s :
  String.prefix ". " (String a s) = true ->
  a = "."%char /\ exists s', s = String " "%char s'.
Proof.
  cbn [String.prefix].
  destruct (ascii_dec "."%char a) as [Ea|Ea]; [|intros H; discriminate H].
  destruct s as [|b s']; [intros H; discriminate H|].
  cbn [String.prefix].
  destruct (ascii_dec " "%char b) as [Eb|Eb]; [|intros H; discriminate H].
  intros _. subst. split; [reflexivity | now exists s'].
Qed.

(** The last piece of a [split] on [". "] carries the last character
    of a string that does not end in white space. *)
Lemma split_dot_last s :
  forall skip c,
    last_char s = Some c -> isspace c = false ->
    skip = 0%nat \/ (skip = 1%nat /\ exists s', s = String " "%char s') ->
    exists init piece,
      split_from ". " s skip = init ++ [piece] /\ last_char piece = Some c.
Proof.
  induction s as [|a s IH]; [discriminate|].
  intros skip c Hc Hsp [->|[-> [s' [= -> ->]]]].
  - cbn [split_from].
    destruct (String.prefix ". " (String a s)) eqn:Hp.
    + apply prefix_dot_space in Hp as [-> [s' ->]].
      rewrite last_char_cons in Hc by discriminate.
      destruct (IH 1%nat c Hc Hsp) as (init & piece & E & Hl).
      { right. split; [reflexivity | now exists s']. }
      exists (EmptyString :: init), piece. cbn [String.length Nat.sub].
      now rewrite E.
    + destruct s as [|b s].
      * exists [], (String a EmptyString). split; [reflexivity | exact Hc].
      * rewrite last_char_cons in Hc by discriminate.
        destruct (IH 0%nat c Hc Hsp) as (init & piece & E & Hl); [now left|].
        rewrite E. destruct init as [|x init]; cbn [app].
        -- exists [], (String a piece). split; [reflexivity|].
           rewrite last_char_cons; [assumption|]. now destruct piece.
        -- exists (String a x :: init), piece. now split.
  - cbn [split_from].
    destruct s' as [|b s'].
    + injection Hc as <-. discriminate.
    + rewrite last_char_cons in Hc by discriminate.
      apply IH; [assumption | assumption | now left].
Qed.

Lemma punctuate_snoc init piece :
  blank piece = false -> punctuate (init ++ [piece]) <> [].
Proof.
  intros Hb. induction init as [|x init IH]; cbn [app punctuate].
  - now rewrite Hb.
  - destruct (init ++ [piece]) eqn:E; [now destruct init|].
    intros H. apply app_eq_nil in H as [_ H]. now apply IH.
Qed.

(** The bullet of a payload always has a run, and the first is the
    only bold one. *)
Lemma bullet_runs_first_bold d text sa c :
  last_char text = Some c -> isspace c = false ->
  exists r rs,
    para_runs (bullet_paragraph d text 0 sa) = r :: rs /\
    run_bold r = Some true /\
    Forall (fun r' => run_bold r' = None) rs.
Proof.
  intros Hc Hsp.
  destruct (split_dot_last text 0%nat c Hc Hsp) as (init & piece & E & Hl);
    [now left|].
  unfold bullet_paragraph, split. cbn [para_runs]. rewrite E.
  assert (blank piece = false) as Hb.
  { unfold blank. rewrite truthy_strip.
    now rewrite (last_char_visible piece c Hl Hsp). }
  pose proof (punctuate_snoc init piece Hb) as Hne.
  destruct (punctuate (init ++ [piece])) as [|x xs]; [congruence|].
  cbn [sentence_runs map andb Nat.eqb].
  eexists. eexists. split; [reflexivity|]. split; [reflexivity|].
  rewrite map_map. clear.
  induction xs as [|y ys IHy]; cbn [map]; constructor;
    [reflexivity | assumption].
Qed.

(** [s.endswith(c)] for a single character looks at the last
    character only. *)
Lemma endswith_char s c :
  endswith s (String c EmptyString) =
  match last_char s with
  | Some c' => Ascii.eqb c' c
  | None => false
  end.
Proof.
  induction s as [|a s IH]; [reflexivity|].
  destruct s as [|b s].
  - cbn. destruct (Ascii.eqb a c); reflexivity.
  - rewrite last_char_cons by discriminate. rewrite <- IH.
    cbn [endswith String.eqb]. destruct (Ascii.eqb a c); reflexivity.
Qed.

(** The test the loop makes on a sentence is the specification's
    [terminated]. *)
Lemma not_terminal_terminated s : not_terminal s = negb (terminated s).
Proof.
  unfold not_terminal, terminated. rewrite !endswith_char.
  now destruct (last_char s).
Qed.

Lemma punctuate_rendered ss : punctuate ss = rendered_sentences ss.
Proof.
  induction ss as [|s rest IH]; [reflexivity|].
  cbn [punctuate rendered_sentences]. destruct rest as [|r rest'].
  - rewrite not_terminal_terminated. now destruct (terminated s).
  - now rewrite IH.
Qed.

(** C6, amended. A BULLET line with a payload emits exactly one
    paragraph, in the [List Bullet] style at nesting level 0, with one
    run for each sentence of the payload split on a period and a space
    that is not empty after trimming; the text of a run is the
    sentence, with a period put back unless it is the final sentence
    and already ends in [.], [!] or [?], followed by one space.  The
    paragraph has at least one run and exactly its first run is bold.
    For [Did X. Led Y and Z] the runs are [Did X. ], bold, and
    [Led Y and Z. ]; for [Did X. Shipped it!] they are [Did X. ] and
    [Shipped it! ], no period added; a sentence that is not the final
    one gets its period even after a question mark. *)
Theorem bullet_line_one_paragraph (line text : string) (st : State) :
  classify line = Payload BULLET text ->
  process_line line st =
  Ok (mkState
        (push (bullet_paragraph (doc st) text 0 (Pt 2)) (doc st))
        (last_job_para st) (last_edu_para st)) /\
  para_style (bullet_paragraph (doc st) text 0 (Pt 2)) = Some "List Bullet" /\
  map run_text (para_runs (bullet_paragraph (doc st) text 0 (Pt 2))) =
    map (fun s => s +:+ " ") (rendered_sentences (split ". " text)) /\
  (exists r rs,
     para_runs (bullet_paragraph (doc st) text 0 (Pt 2)) = r :: rs /\
     run_bold r = Some true /\
     Forall (fun r' => run_bold r' = None) rs) /\
  map (fun r => (run_text r, run_bold r))
      (para_runs (bullet_paragraph (doc st) "Did X. Led Y and Z" 0 (Pt 2))) =
    [ ("Did X. ", Some true); ("Led Y and Z. ", None) ] /\
  map (fun r => (run_text r, run_bold r))
      (para_runs (bullet_paragraph (doc st) "Did X. Shipped it!" 0 (Pt 2))) =
    [ ("Did X. ", Some true); ("Shipped it! ", None) ] /\
  map (fun r => (run_text r, run_bold r))
      (para_runs (bullet_paragraph (doc st) "Why?. Done." 0 (Pt 2))) =
    [ ("Why?. ", Some true); ("Done. ", None) ].
Proof.
  intros Hc.
  split; [|split; [reflexivity|split; [|split; [|repeat split]]]].
  - rewrite process_line_classify, Hc. unfold handle.
    now rewrite add_bullet_point_push.
  - unfold bullet_paragraph. cbn [para_runs]. rewrite map_map.
    rewrite <- punctuate_rendered.
    destruct (punctuate (split ". " text)) as [|x xs]; [reflexivity|].
    cbn [sentence_runs map andb Nat.eqb]. now rewrite map_map.
  - destruct (classify_payload_last _ _ _ Hc) as (c & Hl & Hsp).
    now apply (bullet_runs_first_bold _ _ _ c).
Qed.

(** C6, as the claim words it, fails: on its own input the two runs do
    not end in a period, each ends in the space the loop puts after
    the sentence. *)
Lemma bullet_runs_end_in_a_space :
  exists d,
    text_to_docx "[BULLET] Did X. Led Y and Z" = Ok d /\
    map (fun p => map (fun r => (run_text r, endswith (run_text r) "."))
                      (para_runs p))
        (paragraphs d) =
      [[("Did X. ", false); ("Led Y and Z. ", false)]].
Proof. eexists. split; [vm_compute; reflexivity|]. reflexivity. Qed.

Lemma bullet_line_one_paragraph_witness :
  classify "[BULLET] Did X. Led Y and Z" = Payload BULLET "Did X. Led Y and Z" /\
  process_line "[BULLET] Did X. Led Y and Z" initial_state =
  Ok (mkState
        (push (bullet_paragraph (doc initial_state) "Did X. Led Y and Z" 0 (Pt 2))
              (doc initial_state))
        None None).
Proof.
  split; [reflexivity|].
  apply (bullet_line_one_paragraph
           "[BULLET] Did X. Led Y and Z" "Did X. Led Y and Z" initial_state
           eq_refl).
Defined.

End BulletLines.

(** ** Skills lines and the failure of the pass *)

Section Skills.

Lemma endswith_spec s suffix :
  endswith s suffix = true <-> exists pre, s = pre +:+ suffix.
Proof.
  induction s as [|a s IH]; cbn [endswith].
  - rewrite orb_false_r, String.eqb_eq. split.
    + intros <-. now exists EmptyString.
    + intros [pre H]. destruct pre; [assumption | discriminate].
  - rewrite orb_true_iff, String.eqb_eq, IH. split.
    + intros [<-|[pre ->]]; [now exists EmptyString | now exists (String a pre)].
    + intros [[|b pre] H]; [now left|].
      rewrite str_app_cons in H. injection H as -> ->. right. now exists pre.
Qed.

Lemma handle_SKILLS_empty text st :
  paragraphs (doc st) = [] -> handle SKILLS text st = Raise IndexError.
Proof. unfold handle. now intros ->. Qed.

Lemma handle_SKILLS_inline text st p :
  last (paragraphs (doc st)) = Some p ->
  endswith (para_text p) ": " = true ->
  handle SKILLS text st =
  Ok (mkState
        (update_para (length (paragraphs (doc st)) - 1) (append_skills text)
           (doc st))
        (last_job_para st) (last_edu_para st)).
Proof.
  unfold handle. intros -> ->. now rewrite update_para_twice.
Qed.

Lemma handle_SKILLS_standalone text st p :
  last (paragraphs (doc st)) = Some p ->
  endswith (para_text p) ": " = false ->
  handle SKILLS text st =
  Ok (mkState (push (skills_paragraph text) (doc st))
              (last_job_para st) (last_edu_para st)).
Proof.
  unfold handle. intros -> ->. now rewrite add_styled_paragraph_push.
Qed.

(** A category followed at once by its skills reads as one paragraph;
    with a plain line in between the skills stand alone. *)
Example skills_inline_after_category :
  exists d,
    text_to_docx (join_lines ["[SKILL_CATEGORY] Languages"; "[SKILLS] Go, Rust"])
      = Ok d /\
    map para_text (paragraphs d) = ["Languages: Go, Rust"].
Proof. eexists. split; [vm_compute; reflexivity | reflexivity]. Qed.

Example skills_alone_after_plain_line :
  exists d,
    text_to_docx
      (join_lines ["[SKILL_CATEGORY] Languages"; "and tools"; "[SKILLS] Go, Rust"])
      = Ok d /\
    map para_text (paragraphs d) = ["Languages: "; "and tools"; "Go, Rust"].
Proof. eexists. split; [vm_compute; reflexivity | reflexivity]. Qed.

(** C4, at the input where the code departs from it. A SKILLS line
    that comes before any paragraph was emitted is not rendered as a
    standalone paragraph: [doc.paragraphs[-1]] is evaluated on an empty
    body and the pass ends in an [IndexError]. *)
Theorem skills_before_any_paragraph_raises :
  classify "[SKILLS] Go, Rust" = Payload SKILLS "Go, Rust" /\
  paragraphs (doc initial_state) = [] /\
  process_line "[SKILLS] Go, Rust" initial_state = Raise IndexError /\
  text_to_docx "[SKILLS] Go, Rust" = Raise IndexError.
Proof. repeat split. Qed.

(** C2, at an input where the code departs from it. The text is a
    category marker without payload followed by a skills line; the
    first is skipped, the second finds the body empty, and
    [text_to_docx] raises instead of returning a document. *)
Theorem text_to_docx_raises_on_leading_skills :
  text_to_docx (join_lines ["[SKILL_CATEGORY]"; "[SKILLS] Go, Rust"]) =
  Raise IndexError.
Proof. reflexivity. Qed.

End Skills.

(** ** When the pass returns a document *)

Section Totality.

Lemma split_from_nonempty sep s : forall skip, split_from sep s skip <> [].
Proof.
  induction s as [|a s IH]; intros skip; cbn [split_from]; [discriminate|].
  destruct skip; [|apply IH].
  destruct (String.prefix sep (String a s)); [discriminate|].
  destruct (split_from sep s 0); discriminate.
Qed.

Lemma strip_invisible s : has_visible s = false -> strip s = EmptyString.
Proof.
  rewrite <- truthy_strip. unfold truthy.
  destruct (strip s); [reflexivity | discriminate].
Qed.

(** X21. On an empty text, or one of white space only, [text_to_docx]
    returns the document as it is set up, margins and default font, with
    no paragraph in its body. *)
Theorem whitespace_only_empty_document text :
  has_visible text = false ->
  text_to_docx text = Ok (doc initial_state) /\
  paragraphs (doc initial_state) = [].
Proof.
  intros H. unfold text_to_docx, render.
  rewrite (strip_invisible text H). split; reflexivity.
Qed.

Lemma whitespace_only_empty_document_witness :
  text_to_docx (" " +:+ LF +:+ TAB +:+ LF) = Ok (doc initial_state) /\
  paragraphs (doc initial_state) = [].
Proof.
  apply (whitespace_only_empty_document (" " +:+ LF +:+ TAB +:+ LF)).
  reflexivity.
Defined.

(** Lines without any marker: one plain paragraph per non-blank line,
    in order, and no error. *)
Lemma unmarked_lines_all_plain lines :
  forall st,
    Forall (fun line => first_match patterns (strip line) = None) lines ->
    exists st',
      process_lines lines st = Ok st' /\
      paragraphs (doc st') =
      paragraphs (doc st) ++
      map plain_paragraph (List.filter truthy (map strip lines)).
Proof.
  induction lines as [|line rest IH]; intros st Hall.
  - exists st. split; [reflexivity|]. cbn. now rewrite app_nil_r.
  - inversion Hall as [|? ? Hline Hrest]; subst.
    cbn [process_lines map List.filter]. unfold process_line. rewrite Hline.
    destruct (truthy (strip line)) eqn:Et; cbn [negb bind].
    + destruct (IH (plain (strip line) st) Hrest) as (st' & Hrun & Hps).
      exists st'. split; [assumption|].
      rewrite Hps, plain_push. cbn [doc].
      rewrite paragraphs_push, <- app_assoc. reflexivity.
    + apply IH, Hrest.
Qed.

(** X22. A text of 7-bit characters that XML accepts, none of whose
    lines carries a marker, is rendered without error as one plain
    paragraph for each line that is not blank, in the order of the
    lines, each line stripped. *)
Theorem unmarked_text_all_plain text :
  xml_ascii text = true ->
  Forall (fun line => first_match patterns (strip line) = None)
         (split LF (strip text)) ->
  exists d,
    text_to_docx text = Ok d /\
    paragraphs d =
    map plain_paragraph
        (List.filter truthy (map strip (split LF (strip text)))).
Proof.
  intros _ H. destruct (unmarked_lines_all_plain _ initial_state H)
    as (st' & Hrun & Hps).
  exists (doc st'). unfold text_to_docx, render. rewrite Hrun.
  split; [reflexivity | exact Hps].
Qed.

Lemma unmarked_text_all_plain_witness :
  exists d,
    text_to_docx (join_lines ["Jane Doe"; EmptyString; "  Oslo "]) = Ok d /\
    paragraphs d =
    map plain_paragraph
        (List.filter truthy
           (map strip
              (split LF (strip (join_lines ["Jane Doe"; EmptyString; "  Oslo "]))))).
Proof.
  apply (unmarked_text_all_plain
           (join_lines ["Jane Doe"; EmptyString; "  Oslo "]));
    [reflexivity|].
  change (split LF (strip (join_lines ["Jane Doe"; EmptyString; "  Oslo "])))
    with ["Jane Doe"; EmptyString; "  Oslo"].
  repeat (constructor; [reflexivity|]). constructor.
Defined.

Lemma handle_total kind text st :
  paragraphs (doc st) <> [] ->
  exists st', handle kind text st = Ok st' /\ paragraphs (doc st') <> [].
Proof.
  intros Hne.
  assert (exists st', handle kind text st = Ok st') as [st' H].
  { unfold handle. destruct kind;
      rewrite ?add_styled_paragraph_push, ?add_bullet_point_push;
      repeat match goal with
        | |- context [if ?b then _ else _] => destruct b eqn:?
        | |- context [match ?o with Some _ => _ | None => _ end] =>
            destruct o eqn:?
        end;
      rewrite ?add_styled_paragraph_push;
      try (eexists; reflexivity).
    exfalso. apply Hne. now apply last_None. }
  exists st'. split; [assumption|].
  destruct (paragraphs (doc st)) as [|p ps] eqn:E; [congruence|].
  destruct (handle_extends _ _ _ _ H 0%nat p) as (p' & Hp' & _).
  { now rewrite E. }
  intros H0. rewrite H0 in Hp'. discriminate.
Qed.

Lemma push_nonempty p d : paragraphs (push p d) <> [].
Proof. rewrite paragraphs_push. now destruct (paragraphs d). Qed.

Lemma process_lines_total lines :
  forall st, paragraphs (doc st) <> [] ->
    exists st', process_lines lines st = Ok st'.
Proof.
  induction lines as [|line rest IH]; intros st Hne; cbn [process_lines].
  - now exists st.
  - rewrite process_line_classify.
    destruct (classify line) as [|m|m text|l]; cbn [bind]; try now apply IH.
    + destruct (handle_total m text st Hne) as (st1 & -> & Hne1).
      cbn [bind]. now apply IH.
    + apply IH. rewrite plain_push. apply push_nonempty.
Qed.

(** The first line that emits, when it is not a SKILLS line, leaves a
    body that is not empty. *)
Lemma handle_first_emits kind text st :
  kind <> SKILLS ->
  last_job_para st = None -> last_edu_para st = None ->
  exists st', handle kind text st = Ok st' /\ paragraphs (doc st') <> [].
Proof.
  intros Hk Hj He. unfold handle. rewrite Hj, He. cbn [open_with_text].
  destruct kind; try congruence;
    rewrite ?add_styled_paragraph_push, ?add_bullet_point_push;
    (eexists; split; [reflexivity|]); cbn [doc];
    unfold add_horizontal_line;
    rewrite ?paragraphs_update_para, ?summary_loop_closed;
    try apply push_nonempty.
  - intros H. apply (f_equal length) in H.
    rewrite length_alter, paragraphs_push, length_app in H. simpl in H. lia.
  - cbn [paragraphs set_paragraphs]. unfold summary_paragraphs.
    pose proof (split_from_nonempty LF text 0) as Hs. unfold split.
    destruct (split_from LF text 0); [congruence|].
    now destruct (paragraphs (doc st)).
  - intros H. apply (f_equal length) in H.
    rewrite length_alter, paragraphs_push, length_app in H. simpl in H. lia.
Qed.

(** From an empty body with no open block: the pass raises exactly when
    the first line that emits is a SKILLS line. *)
Lemma process_lines_from_empty lines :
  forall st,
    paragraphs (doc st) = [] ->
    last_job_para st = None -> last_edu_para st = None ->
    match first_emitting lines with
    | Payload SKILLS _ => process_lines lines st = Raise IndexError
    | _ => exists st', process_lines lines st = Ok st'
    end.
Proof.
  induction lines as [|line rest IH]; intros st Hd Hj He;
    cbn [first_emitting process_lines].
  - now exists st.
  - rewrite process_line_classify.
    destruct (classify line) as [|m|m text|l] eqn:Hc; cbn [bind].
    + now apply IH.
    + now apply IH.
    + assert (m = SKILLS \/ m <> SKILLS) as [->|Hm]
        by (destruct m; (now left) || (right; discriminate)).
      * now rewrite handle_SKILLS_empty.
      * destruct (handle_first_emits m text st Hm Hj He) as (st1 & -> & Hne).
        cbn [bind]. destruct m; try congruence;
          now apply process_lines_total.
    + apply process_lines_total. rewrite plain_push. apply push_nonempty.
Qed.

(** X20. Among the texts of 7-bit characters that XML accepts,
    [text_to_docx] raises, and then [IndexError], exactly on those
    whose first line that emits anything is a SKILLS line with a
    payload; on every other such text it returns a document. *)
Theorem text_to_docx_raises_iff text :
  xml_ascii text = true ->
  (text_to_docx text = Raise IndexError <->
   exists payload,
     first_emitting (split LF (strip text)) = Payload SKILLS payload) /\
  (text_to_docx text <> Raise IndexError ->
   exists d, text_to_docx text = Ok d).
Proof.
  intros _.
  assert (Hiff : text_to_docx text = Raise IndexError <->
                 exists payload,
                   first_emitting (split LF (strip text)) =
                   Payload SKILLS payload);
    [|split; [exact Hiff|];
      intros Hn; destruct (text_to_docx text) as [d|[]];
      [now exists d | congruence]].
  unfold text_to_docx, render.
  pose proof (process_lines_from_empty (split LF (strip text)) initial_state
                eq_refl eq_refl eq_refl) as H.
  destruct (first_emitting (split LF (strip text))) as [|m|m payload|l] eqn:E;
    [| |destruct m|];
    lazymatch type of H with
    | ex _ =>
        destruct H as [st' ->]; cbn [bind];
        split; [discriminate | intros [? ?]; discriminate]
    | _ =>
        rewrite H; cbn [bind]; split; [now exists payload | reflexivity]
    end.
Qed.

Lemma text_to_docx_raises_iff_witness :
  (text_to_docx "[SKILLS] Go, Rust" = Raise IndexError <->
   exists payload,
     first_emitting (split LF (strip "[SKILLS] Go, Rust")) =
     Payload SKILLS payload) /\
  (text_to_docx "[SKILLS] Go, Rust" <> Raise IndexError ->
   exists d, text_to_docx "[SKILLS] Go, Rust" = Ok d).
Proof.
  apply (text_to_docx_raises_iff "[SKILLS] Go, Rust"). reflexivity.
Defined.

End Totality.

(** ** The marker parser: one tag per line, tags up to case *)

Section Parser.

Lemma literal_ci_agree l1 :
  forall l2 s r1 r2,
    literal_ci l1 s = Some r1 -> literal_ci l2 s = Some r2 ->
    tags_agree l1 l2 = true.
Proof.
  induction l1 as [|a l1 IH]; intros l2 s r1 r2 H1 H2; [reflexivity|].
  destruct l2 as [|b l2]; [reflexivity|].
  cbn [literal_ci] in H1, H2. destruct s as [|c s]; [discriminate|].
  destruct (Ascii.eqb (lower_char a) (lower_char c)) eqn:Ea; [|discriminate].
  destruct (Ascii.eqb (lower_char b) (lower_char c)) eqn:Eb; [|discriminate].
  apply Ascii.eqb_eq in Ea, Eb. cbn [tags_agree].
  rewrite Ea, Eb, Ascii.eqb_refl. cbn [andb]. eapply IH; eassumption.
Qed.

(** No line matches the patterns of two different markers. *)
Lemma marker_match_unique m m' line g g' :
  marker_match (marker_name m) line = Some g ->
  marker_match (marker_name m') line = Some g' ->
  m = m'.
Proof.
  unfold marker_match. intros H H'.
  destruct (literal_ci ("[" +:+ marker_name m +:+ "]") (lstrip line))
    as [r|] eqn:E; [|discriminate].
  destruct (literal_ci ("[" +:+ marker_name m' +:+ "]") (lstrip line))
    as [r'|] eqn:E'; [|discriminate].
  pose proof (literal_ci_agree _ _ _ _ _ E E') as Hagree.
  destruct m, m'; try reflexivity; vm_compute in Hagree; discriminate.
Qed.

Lemma first_match_Some ps line m g :
  first_match ps line = Some (m, g) ->
  In m ps /\ marker_match (marker_name m) line = Some g.
Proof.
  induction ps as [|k ps IH]; [discriminate|]. cbn [first_match].
  destruct (marker_match (marker_name k) line) as [gk|] eqn:Ek.
  - intros [= <- <-]. split; [now left | assumption].
  - intros H. destruct (IH H) as [Hin Hm]. split; [now right | assumption].
Qed.

Lemma first_match_None ps line :
  first_match ps line = None ->
  forall m, In m ps -> marker_match (marker_name m) line = None.
Proof.
  induction ps as [|k ps IH]; [intros _ m []|]. cbn [first_match].
  destruct (marker_match (marker_name k) line) as [gk|] eqn:Ek; [discriminate|].
  intros H m [<-|Hin]; [assumption | now apply IH].
Qed.

(** Whatever the order of the table, the marker that matches is found. *)
Lemma first_match_found ps line m g :
  In m ps -> marker_match (marker_name m) line = Some g ->
  first_match ps line = Some (m, g).
Proof.
  intros Hin Hm. destruct (first_match ps line) as [[k gk]|] eqn:E.
  - destruct (first_match_Some _ _ _ _ E) as [_ Hk].
    pose proof (marker_match_unique _ _ _ _ _ Hk Hm) as ->.
    rewrite Hk in Hm. now injection Hm as ->.
  - rewrite (first_match_None _ _ E m Hin) in Hm. discriminate.
Qed.

Lemma patterns_complete m : In m patterns.
Proof. destruct m; cbn; tauto. Qed.

(** X1. The marker table can be read in any order: no line matches the
    patterns of two different markers, so for every list that holds the
    same markers as the table the first match is the match the table
    gives. *)
Theorem marker_order_irrelevant (line : string) (ps : list marker) :
  (forall m, In m ps <-> In m patterns) ->
  first_match ps line = first_match patterns line.
Proof.
  intros Hsame. destruct (first_match patterns line) as [[m g]|] eqn:E.
  - destruct (first_match_Some _ _ _ _ E) as [Hin Hm].
    apply first_match_found; [now apply Hsame | assumption].
  - destruct (first_match ps line) as [[k gk]|] eqn:E'; [|reflexivity].
    destruct (first_match_Some _ _ _ _ E') as [Hin Hk].
    rewrite (first_match_None _ _ E k (patterns_complete k)) in Hk.
    discriminate.
Qed.

Lemma marker_order_irrelevant_witness :
  (forall m, In m (rev patterns) <-> In m patterns) /\
  first_match (rev patterns) "[skills] Go" = first_match patterns "[skills] Go".
Proof.
  assert (forall m, In m (rev patterns) <-> In m patterns) as H.
  { intros m. symmetry. apply in_rev. }
  split; [exact H|]. exact (marker_order_irrelevant "[skills] Go" _ H).
Defined.

End Parser.

(** ** The marker parser: a written line is read back *)

Section ParserRoundTrip.

Lemma literal_ci_same x :
  forall lit rest,
    same_up_to_case x lit = true -> literal_ci lit (x +:+ rest) = Some rest.
Proof.
  induction x as [|a x IH]; intros [|b lit] rest H; try discriminate.
  - reflexivity.
  - cbn [same_up_to_case] in H. apply andb_true_iff in H as [Hc Hx].
    rewrite str_app_cons. cbn [literal_ci]. rewrite Hc. now apply IH.
Qed.

Lemma bracket_up_to_case a :
  Ascii.eqb (lower_char "["%char) (lower_char a) = true -> isspace a = false.
Proof.
  destruct a as [[] [] [] [] [] [] [] []]; vm_compute; congruence.
Qed.

Lemma lstrip_fixed a s : isspace a = false -> lstrip (String a s) = String a s.
Proof. intros H. cbn [lstrip]. now rewrite H. Qed.

Lemma rstrip_cons a s :
  rstrip (String a s) =
  if is_empty (rstrip s) && isspace a then EmptyString
  else String a (rstrip s).
Proof. reflexivity. Qed.

Lemma rstrip_fixed s c :
  last_char s = Some c -> isspace c = false -> rstrip s = s.
Proof.
  induction s as [|a s IH]; [discriminate|]. intros H Hc.
  destruct s as [|b s].
  - injection H as ->. cbn. now rewrite Hc.
  - rewrite last_char_cons in H by discriminate.
    rewrite rstrip_cons, (IH H Hc). reflexivity.
Qed.

Lemma last_char_app s t :
  t <> EmptyString -> last_char (s +:+ t) = last_char t.
Proof.
  intros Ht. induction s as [|a s IH]; [reflexivity|].
  rewrite str_app_cons, last_char_cons; [exact IH|].
  destruct s; [exact Ht | discriminate].
Qed.

Lemma lstrip_blank ws s : has_visible ws = false -> lstrip (ws +:+ s) = lstrip s.
Proof.
  induction ws as [|a ws IH]; [reflexivity|]. cbn [has_visible].
  intros H. apply orb_false_iff in H as [Ha Hws].
  apply negb_false_iff in Ha. rewrite str_app_cons. cbn [lstrip].
  rewrite Ha. now apply IH.
Qed.

Lemma lstrip_head s a r : lstrip s = String a r -> isspace a = false.
Proof.
  induction s as [|b s IH]; [discriminate|]. cbn [lstrip].
  destruct (isspace b) eqn:Eb; [exact IH|]. now intros [= <- _].
Qed.

Lemma rstrip_head s a r : rstrip s = String a r -> exists s', s = String a s'.
Proof.
  destruct s as [|b s]; [discriminate|]. cbn [rstrip].
  destruct (is_empty (rstrip s) && isspace b); [discriminate|].
  intros [= <- _]. now exists s.
Qed.

Lemma strip_head s a r : strip s = String a r -> isspace a = false.
Proof.
  unfold strip. intros H. destruct (rstrip_head _ _ _ H) as [s' Hs'].
  eapply lstrip_head. exact Hs'.
Qed.

Lemma dot_star_no_lf s : no_lf s = true -> dot_star s = s.
Proof.
  induction s as [|c s IH]; [reflexivity|]. cbn [no_lf dot_star].
  intros H. apply andb_true_iff in H as [Hc Hs].
  apply negb_true_iff in Hc. now rewrite Hc, IH.
Qed.

(** A line written as a tag (in any case), any white space (also
    none) and a trimmed one-line payload is read by the loop as that
    marker with that payload. *)
Lemma classify_written m x ws payload :
  same_up_to_case x (tag m) = true ->
  has_visible ws = false ->
  strip payload = payload -> payload <> EmptyString ->
  no_lf payload = true ->
  classify (x +:+ ws +:+ payload) = Payload m payload.
Proof.
  intros Hx Hws Hstrip Hne Hlf.
  destruct payload as [|p0 payload']; [congruence|].
  assert (isspace p0 = false) as Hp0 by (eapply strip_head; exact Hstrip).
  destruct (last_char_some (String p0 payload')) as [c Hc]; [discriminate|].
  assert (isspace c = false) as Hcs.
  { eapply rstrip_last_visible. unfold strip in Hstrip.
    rewrite Hstrip. exact Hc. }
  destruct x as [|a x']; [destruct m; discriminate Hx|].
  assert (isspace a = false) as Ha.
  { apply bracket_up_to_case. unfold tag in Hx.
    change ("[" +:+ marker_name m +:+ "]")
      with (String "["%char (marker_name m +:+ "]")) in Hx.
    cbn [same_up_to_case] in Hx. now apply andb_true_iff in Hx as [Hx _]. }
  assert (strip (String a x' +:+ ws +:+ String p0 payload') =
          String a x' +:+ ws +:+ String p0 payload') as Hline.
  { unfold strip. rewrite str_app_cons, (lstrip_fixed a) by assumption.
    rewrite <- str_app_cons. apply (rstrip_fixed _ c); [|assumption].
    rewrite !last_char_app; [assumption | discriminate |].
    destruct ws; discriminate. }
  assert (marker_match (marker_name m)
            (String a x' +:+ ws +:+ String p0 payload') =
          Some (String p0 payload')) as Hm.
  { unfold marker_match.
    rewrite (str_app_cons a), (lstrip_fixed a), <- (str_app_cons a)
      by assumption.
    fold (tag m). rewrite (literal_ci_same _ _ _ Hx).
    rewrite lstrip_blank, (lstrip_fixed p0), dot_star_no_lf by assumption.
    reflexivity. }
  unfold classify. rewrite Hline.
  rewrite (first_match_found _ _ m _ (patterns_complete m) Hm).
  rewrite Hstrip. reflexivity.
Qed.

(** X2. Writing and reading a marker line: for every marker, a line
    made of its tag in any letter case, any run of white space (also
    none) and a trimmed one-line payload is processed exactly as the
    handler of that marker on that payload. *)
Theorem written_line_is_handled
    (m : marker) (x ws payload : string) (st : State) :
  same_up_to_case x (tag m) = true ->
  has_visible ws = false ->
  strip payload = payload -> payload <> EmptyString ->
  no_lf payload = true ->
  classify (x +:+ ws +:+ payload) = Payload m payload /\
  process_line (x +:+ ws +:+ payload) st = handle m payload st.
Proof.
  intros Hx Hws Hstrip Hne Hlf.
  pose proof (classify_written m x ws payload Hx Hws Hstrip Hne Hlf) as Hc.
  split; [exact Hc|]. now rewrite process_line_classify, Hc.
Qed.

Lemma written_line_is_handled_witness :
  same_up_to_case "[Job_Title]" (tag JOB_TITLE) = true /\
  has_visible EmptyString = false /\
  strip "Site Lead" = "Site Lead" /\ "Site Lead" <> EmptyString /\
  no_lf "Site Lead" = true /\
  process_line ("[Job_Title]" +:+ EmptyString +:+ "Site Lead") initial_state =
  handle JOB_TITLE "Site Lead" initial_state.
Proof.
  repeat (split; [first [reflexivity | discriminate]|]).
  apply (written_line_is_handled JOB_TITLE "[Job_Title]" EmptyString
           "Site Lead" initial_state);
    first [reflexivity | discriminate].
Defined.

End ParserRoundTrip.

(** ** Bullets end their sentences; only a category ends in a colon *)

Section ColonSpace.

Lemma read_back_app s t : read_back (s +:+ t) = read_back s +:+ read_back t.
Proof.
  induction s as [|c s IH]; [reflexivity|].
  rewrite str_app_cons. cbn [read_back]. now rewrite IH, str_app_cons.
Qed.

Lemma last_char_read_back s :
  last_char (read_back s) = option_map read_char (last_char s).
Proof.
  induction s as [|a s IH]; [reflexivity|].
  destruct s as [|b s]; [reflexivity|].
  change (read_back (String a (String b s)))
    with (String (read_char a) (read_back (String b s))).
  rewrite (last_char_cons (read_char a)) by discriminate.
  rewrite (last_char_cons a) by discriminate. exact IH.
Qed.

Lemma last_char_snoc s c : last_char (s +:+ String c EmptyString) = Some c.
Proof. now rewrite last_char_app. Qed.

Lemma str_app_inj_last s t c :
  s +:+ String c EmptyString = t +:+ String c EmptyString -> s = t.
Proof.
  revert t. induction s as [|a s IH]; intros [|b t] H.
  - reflexivity.
  - rewrite str_app_cons in H. injection H as -> H. now destruct t.
  - rewrite str_app_cons in H. injection H as -> H. now destruct s.
  - rewrite !str_app_cons in H. injection H as -> H. f_equal. now apply IH.
Qed.

(** A text that ends in a colon and a space: its last character is the
    space, and the character before is the colon. *)
Lemma endswith_colon_space s :
  endswith s ": " = true ->
  exists pre, s = (pre +:+ ":") +:+ " ".
Proof.
  intros H. apply endswith_spec in H as [pre ->]. exists pre.
  now rewrite str_app_assoc.
Qed.

Lemma not_colon_space_last s c :
  last_char s = Some c -> isspace c = false -> endswith s ": " = false.
Proof.
  intros Hl Hc. destruct (endswith s ": ") eqn:E; [|reflexivity].
  apply endswith_colon_space in E as [pre ->].
  rewrite last_char_snoc in Hl. injection Hl as <-. discriminate.
Qed.

Lemma not_colon_space_sentence a x :
  ends_sentence x -> endswith (a +:+ (x +:+ " ")) ": " = false.
Proof.
  intros (c & Hl & Hc).
  destruct (endswith (a +:+ (x +:+ " ")) ": ") eqn:E; [|reflexivity].
  apply endswith_colon_space in E as [pre E].
  rewrite <- str_app_assoc in E. apply str_app_inj_last in E.
  apply (f_equal last_char) in E.
  rewrite last_char_snoc, last_char_app, Hl in E.
  - injection E as ->. destruct Hc as [H|[H|H]]; discriminate.
  - intros ->. discriminate.
Qed.

(** *** The sentences of a bullet *)

Lemma not_terminal_false s : not_terminal s = false -> ends_sentence s.
Proof.
  unfold not_terminal, ends_sentence.
  destruct (last_char s) as [c|]; [|discriminate].
  intros H. apply negb_false_iff in H. exists c. split; [reflexivity|].
  apply orb_true_iff in H as [H|H]; [apply orb_true_iff in H as [H|H]|];
    apply Ascii.eqb_eq in H; auto.
Qed.

Lemma ends_sentence_period s : ends_sentence (s +:+ ".").
Proof. exists "."%char. split; [apply last_char_snoc | now left]. Qed.

(** Every rendered sentence ends in terminal punctuation and is a piece
    of the split, with a period added or not. *)
Lemma punctuate_sentences ss x :
  In x (punctuate ss) ->
  ends_sentence x /\
  exists piece, In piece ss /\ (x = piece \/ x = piece +:+ ".").
Proof.
  induction ss as [|s rest IH]; [intros []|].
  cbn [punctuate]. destruct rest as [|r rest'].
  - destruct (blank s); [intros []|].
    destruct (not_terminal s) eqn:Et; intros [<-|[]].
    + split; [apply ends_sentence_period|]. exists s. split; [now left | now right].
    + split; [now apply not_terminal_false|]. exists s. split; now left.
  - intros H. apply in_app_or in H as [H|H].
    + destruct (blank s); [destruct H|]. destruct H as [<-|[]].
      split; [apply ends_sentence_period|]. exists s. split; [now left | now right].
    + destruct (IH H) as (He & piece & Hin & Hx). split; [assumption|].
      exists piece. split; [now right | assumption].
Qed.

Lemma sentence_runs_texts level first xs r :
  In r (sentence_runs level first xs) ->
  exists x, In x xs /\ run_text r = x +:+ " ".
Proof.
  destruct xs as [|x xs]; [intros []|]. cbn [sentence_runs].
  intros [<-|H].
  - exists x. split; [now left|]. now destruct (first && (level =? 0)%nat).
  - apply in_map_iff in H as (y & <- & Hy). exists y. split; [now right | reflexivity].
Qed.

(** X3. Every run of a bulleted paragraph, at every nesting level, is
    one sentence followed by one space; the sentence ends in a period,
    an exclamation mark or a question mark, and it is a piece of the
    payload split on a period and a space, with or without a period
    put back. *)
Theorem bullet_runs_end_in_punctuation
    (d : Document) (text : string) (level : nat) (sa : Length) :
  exists p,
    paragraphs (fst (add_bullet_point d text level sa))
      !! snd (add_bullet_point d text level sa) = Some p /\
    para_style p = Some "List Bullet" /\
    forall r, In r (para_runs p) ->
      exists sentence piece,
        run_text r = sentence +:+ " " /\
        ends_sentence sentence /\
        In piece (split ". " text) /\
        (sentence = piece \/ sentence = piece +:+ ".").
Proof.
  rewrite add_bullet_point_push. cbn [fst snd].
  exists (bullet_paragraph d text level sa).
  split; [apply lookup_push_new|]. split; [reflexivity|].
  unfold bullet_paragraph. cbn [para_runs]. intros r H.
  apply in_map_iff in H as (r0 & <- & H).
  apply sentence_runs_texts in H as (x & Hx & Hr).
  destruct (punctuate_sentences _ _ Hx) as (He & piece & Hp & Hshape).
  exists x, piece. now repeat split.
Qed.

End ColonSpace.

(** ** Only a category paragraph ends in a colon and a space *)

Section CategoryOnly.

Lemma all_paragraphs_push (P : Paragraph -> Prop) q d :
  P q -> all_paragraphs P d -> all_paragraphs P (push q d).
Proof.
  intros Hq Hd i p. rewrite paragraphs_push, lookup_app_Some.
  intros [H|[_ H]]; [now apply (Hd i)|].
  destruct (i - length (paragraphs d))%nat; [|now destruct n].
  now injection H as <-.
Qed.

Lemma all_paragraphs_update (P : Paragraph -> Prop) i f d :
  (forall p, P (f p)) -> all_paragraphs P d ->
  all_paragraphs P (update_para i f d).
Proof.
  intros Hf Hd j p. rewrite paragraphs_update_para.
  destruct (decide (i = j)) as [->|Hne].
  - rewrite list_lookup_alter_eq. destruct (paragraphs d !! j); [|discriminate].
    intros [= <-]. apply Hf.
  - rewrite list_lookup_alter_ne by assumption. apply Hd.
Qed.

Lemma runs_text_snoc rs r :
  foldr (fun r0 acc => read_back (run_text r0) +:+ acc) EmptyString (rs ++ [r]) =
  foldr (fun r0 acc => read_back (run_text r0) +:+ acc) EmptyString rs
  +:+ read_back (run_text r).
Proof.
  induction rs as [|r0 rs IH]; cbn [app foldr].
  - apply str_app_nil_r.
  - now rewrite IH, str_app_assoc.
Qed.

Lemma read_char_visible c : isspace c = false -> isspace (read_char c) = false.
Proof. now rewrite isspace_read_char. Qed.

Lemma calm_last_run rs r (p : Paragraph) c :
  para_runs p = rs ++ [r] ->
  last_char (run_text r) = Some c -> isspace c = false -> calm p.
Proof.
  intros Hp Hl Hc. unfold calm, para_text. rewrite Hp, runs_text_snoc.
  apply (not_colon_space_last _ (read_char c)); [|now apply read_char_visible].
  rewrite last_char_app.
  - now rewrite last_char_read_back, Hl.
  - destruct (run_text r); [discriminate | discriminate].
Qed.

Lemma calm_styled text size b i al sa sb c :
  last_char text = Some c -> isspace c = false ->
  calm (styled_paragraph text size b i al sa sb).
Proof. intros Hl Hc. now apply (calm_last_run [] (styled_run text size b i) _ c). Qed.

Lemma calm_styled_border text size b i al sa sb c :
  last_char text = Some c -> isspace c = false ->
  calm (with_bottom_border (styled_paragraph text size b i al sa sb)).
Proof. intros Hl Hc. now apply (calm_last_run [] (styled_run text size b i) _ c). Qed.

Lemma calm_append_run r p c :
  last_char (run_text r) = Some c -> isspace c = false -> calm (append_run r p).
Proof. intros Hl Hc. now apply (calm_last_run (para_runs p) r _ c). Qed.

Lemma calm_attach_date text p c :
  last_char text = Some c -> isspace c = false -> calm (attach_date text p).
Proof.
  intros Hl Hc.
  apply (calm_last_run (para_runs p) (new_run (TAB +:+ text)) _ c);
    [reflexivity | | assumption].
  cbn [run_text new_run]. rewrite last_char_app; [assumption|].
  intros ->. discriminate.
Qed.

Lemma calm_append_skills text p c :
  last_char text = Some c -> isspace c = false -> calm (append_skills text p).
Proof.
  intros Hl Hc. now apply (calm_last_run (para_runs p) (new_run text) _ c).
Qed.

Lemma calm_append_joined sep text p c :
  last_char text = Some c -> isspace c = false ->
  calm (append_run (set_italic (Some true) (new_run (sep +:+ text))) p).
Proof.
  intros Hl Hc. apply (calm_append_run _ _ c); [|assumption].
  cbn [run_text set_italic new_run]. rewrite last_char_app; [assumption|].
  intros ->. discriminate.
Qed.

Lemma ends_sentence_read_back x : ends_sentence x -> ends_sentence (read_back x).
Proof.
  intros (c & Hl & Hc). exists c. rewrite last_char_read_back, Hl.
  split; [|assumption]. destruct Hc as [->|[->| ->]]; reflexivity.
Qed.

Lemma calm_bullet d text level sa : calm (bullet_paragraph d text level sa).
Proof.
  unfold calm, para_text, bullet_paragraph. cbn [para_runs].
  destruct (map (with_normal_font d)
              (sentence_runs level true (punctuate (split ". " text))))
    as [|r0 rs0] eqn:E; [reflexivity|].
  destruct (exists_last (l := r0 :: rs0)) as (rs & r & Hrs); [discriminate|].
  rewrite Hrs, runs_text_snoc.
  assert (In r (map (with_normal_font d)
                  (sentence_runs level true (punctuate (split ". " text)))))
    as Hin by (rewrite E, Hrs; apply in_or_app; right; now left).
  apply in_map_iff in Hin as (r1 & <- & Hin).
  apply sentence_runs_texts in Hin as (x & Hx & Hr).
  destruct (punctuate_sentences _ _ Hx) as (He & _).
  cbn [run_text with_normal_font set_font_size set_font_name].
  rewrite Hr, read_back_app.
  apply not_colon_space_sentence. now apply ends_sentence_read_back.
Qed.

Lemma isspace_upper_char c : isspace (upper_char c) = isspace c.
Proof. destruct c as [[] [] [] [] [] [] [] []]; reflexivity. Qed.

Lemma last_char_upper s :
  last_char (upper s) = option_map upper_char (last_char s).
Proof.
  induction s as [|a s IH]; [reflexivity|].
  destruct s as [|b s]; [reflexivity|].
  change (upper (String a (String b s)))
    with (String (upper_char a) (upper (String b s))).
  rewrite (last_char_cons (upper_char a)) by discriminate.
  rewrite (last_char_cons a) by discriminate. exact IH.
Qed.

Lemma handle_colon kind text st st' c :
  last_char text = Some c -> isspace c = false ->
  split LF text = [text] ->
  all_paragraphs colon_is_category (doc st) ->
  handle kind text st = Ok st' ->
  all_paragraphs colon_is_category (doc st').
Proof.
  intros Hl Hc Hone Hd H. unfold handle in H.
  destruct kind;
    rewrite ?add_styled_paragraph_push, ?add_bullet_point_push in H;
    case_handler H;
    rewrite ?add_styled_paragraph_push in H;
    try discriminate; injection H as <-; cbn [doc];
    unfold add_horizontal_line;
    rewrite ?update_para_twice, ?update_para_push;
    try (apply all_paragraphs_push; [|assumption]);
    try (apply all_paragraphs_update; [intros p|assumption]);
    try assumption;
    try (left; first [ now apply (calm_styled _ _ _ _ _ _ _ c)
                     | now apply (calm_styled_border _ _ _ _ _ _ _ c)
                     | now apply (calm_append_joined _ _ _ c)
                     | now apply (calm_attach_date _ _ c)
                     | now apply (calm_append_skills _ _ c)
                     | apply calm_bullet ]).
  - (* SUMMARY *)
    rewrite summary_loop_closed. unfold summary_paragraphs. rewrite Hone.
    apply (all_paragraphs_push _ _ (doc st)); [|assumption].
    left. now apply (calm_styled _ _ _ _ _ _ _ c).
  - (* SECTION_HEADER *)
    left. apply (calm_styled_border _ _ _ _ _ _ _ (upper_char c)).
    + now rewrite last_char_upper, Hl.
    + now rewrite isspace_upper_char.
  - (* SKILL_CATEGORY *)
    right. now exists text.
  - (* SKILLS, inline *)
    apply all_paragraphs_update; [intros q|assumption].
    left. exact (calm_append_skills text q c Hl Hc).
Qed.

Lemma classify_plain_last line l :
  classify line = PlainLine l ->
  exists c, last_char l = Some c /\ isspace c = false.
Proof.
  unfold classify.
  destruct (negb (truthy (strip line))) eqn:E; [discriminate|].
  destruct (first_match patterns (strip line)) as [[m g]|].
  - destruct (negb (truthy (strip g))); discriminate.
  - intros [= <-]. apply negb_false_iff in E.
    destruct (last_char_some (strip line)) as [c Hc].
    { intros H0. rewrite H0 in E. discriminate. }
    exists c. split; [assumption|]. eapply rstrip_last_visible. exact Hc.
Qed.

Lemma process_line_colon line st st' :
  all_paragraphs colon_is_category (doc st) ->
  process_line line st = Ok st' ->
  all_paragraphs colon_is_category (doc st').
Proof.
  intros Hd. rewrite process_line_classify.
  destruct (classify line) as [|m|m text|l] eqn:Hc.
  - now intros [= <-].
  - now intros [= <-].
  - destruct (classify_payload_last _ _ _ Hc) as (c & Hl & Hs).
    apply (handle_colon m text st st' c); try assumption.
    eapply classify_payload_one_line; eassumption.
  - intros [= <-]. rewrite plain_push. cbn [doc].
    destruct (classify_plain_last _ _ Hc) as (c & Hl & Hs).
    apply all_paragraphs_push; [|assumption].
    left. now apply (calm_styled _ _ _ _ _ _ _ c).
Qed.

Lemma reachable_colon st :
  reachable st -> all_paragraphs colon_is_category (doc st).
Proof.
  induction 1 as [|st line st' _ IH Hstep].
  - intros i p H. discriminate.
  - eapply process_line_colon; eassumption.
Qed.

(** X4. In every state of the loop, a paragraph whose text ends in a
    colon and a space is a SKILL_CATEGORY paragraph exactly as it was
    emitted (one bold run, the category and the colon): the suffix test
    of the SKILLS branch never fires on a paragraph of another kind. *)
Theorem colon_space_only_after_category (st : State) (i : nat) (p : Paragraph) :
  reachable st ->
  paragraphs (doc st) !! i = Some p ->
  endswith (para_text p) ": " = true ->
  exists text, p = category_paragraph text.
Proof.
  intros Hr Hp He. destruct (reachable_colon st Hr i p Hp) as [Hcalm|H].
  - unfold calm in Hcalm. congruence.
  - exact H.
Qed.

Lemma languages_open_reachable : reachable languages_open.
Proof.
  apply (reachable_step initial_state "[SKILL_CATEGORY] Languages");
    [apply reachable_initial | reflexivity].
Qed.

Lemma colon_space_only_after_category_witness :
  reachable languages_open /\
  paragraphs (doc languages_open) !! 0%nat = Some (category_paragraph "Languages") /\
  endswith (para_text (category_paragraph "Languages")) ": " = true /\
  exists text, category_paragraph "Languages" = category_paragraph text.
Proof.
  split; [exact languages_open_reachable|].
  split; [reflexivity|]. split; [reflexivity|].
  exact (colon_space_only_after_category languages_open 0%nat _
           languages_open_reachable eq_refl eq_refl).
Defined.

End CategoryOnly.

(** ** The body is append-only *)

Section AppendOnly.

Lemma grows_refl p : grows p p.
Proof. split; [exists []; now rewrite app_nil_r | now repeat split]. Qed.

Lemma grows_trans p q r : grows p q -> grows q r -> grows p r.
Proof.
  intros ([rs1 H1] & S1 & A1 & B1 & L1 & Bo1) ([rs2 H2] & S2 & A2 & B2 & L2 & Bo2).
  split; [exists (rs1 ++ rs2); now rewrite H2, H1, app_assoc|].
  repeat split; congruence.
Qed.

Lemma grows_append_run r p : grows p (append_run r p).
Proof. split; [now exists [r] | now repeat split]. Qed.

Lemma grows_set_space_after l p : grows p (set_space_after l p).
Proof. split; [exists []; cbn; now rewrite app_nil_r | now repeat split]. Qed.

Lemma grows_add_tab_stop pos a p : grows p (add_tab_stop pos a p).
Proof. split; [exists []; cbn; now rewrite app_nil_r | now repeat split]. Qed.

Lemma grows_attach_date text p : grows p (attach_date text p).
Proof.
  unfold attach_date.
  eapply grows_trans; [apply grows_add_tab_stop|].
  eapply grows_trans; [apply grows_append_run|]. apply grows_set_space_after.
Qed.

Lemma grows_append_skills text p : grows p (append_skills text p).
Proof.
  unfold append_skills.
  eapply grows_trans; [apply grows_append_run | apply grows_set_space_after].
Qed.

Lemma body_grows_refl d : body_grows d d.
Proof. intros i p H. exists p. split; [assumption | apply grows_refl]. Qed.

Lemma body_grows_trans d1 d2 d3 :
  body_grows d1 d2 -> body_grows d2 d3 -> body_grows d1 d3.
Proof.
  intros H12 H23 i p H.
  destruct (H12 i p H) as (p2 & H2 & G2).
  destruct (H23 i p2 H2) as (p3 & H3 & G3).
  exists p3. split; [assumption | eapply grows_trans; eassumption].
Qed.

Lemma body_grows_push q d : body_grows d (push q d).
Proof.
  intros i p H. exists p. split; [now apply lookup_push_old | apply grows_refl].
Qed.

Lemma body_grows_update i f d :
  (forall p, grows p (f p)) -> body_grows d (update_para i f d).
Proof.
  intros Hf j q H. rewrite paragraphs_update_para.
  destruct (decide (i = j)) as [->|Hne].
  - exists (f q). rewrite list_lookup_alter_eq, H. split; [reflexivity | apply Hf].
  - exists q. rewrite list_lookup_alter_ne by assumption.
    split; [assumption | apply grows_refl].
Qed.

Lemma body_grows_more ps d :
  body_grows d (set_paragraphs (paragraphs d ++ ps) d).
Proof.
  intros i p H. exists p. split; [|apply grows_refl].
  destruct d; cbn in *. now apply lookup_app_l_Some.
Qed.

Lemma handle_body_grows kind text st st' :
  handle kind text st = Ok st' -> body_grows (doc st) (doc st').
Proof.
  unfold handle. intros H.
  destruct kind;
    rewrite ?add_styled_paragraph_push, ?add_bullet_point_push in H;
    case_handler H;
    rewrite ?add_styled_paragraph_push in H;
    try discriminate; injection H as <-; cbn [doc];
    unfold add_horizontal_line;
    rewrite ?update_para_twice, ?update_para_push, ?summary_loop_closed;
    first [ apply body_grows_push
          | apply body_grows_more
          | apply body_grows_refl
          | apply body_grows_update; intros q;
            first [ apply grows_append_run
                  | exact (grows_attach_date text q)
                  | exact (grows_append_skills text q) ] ].
Qed.

Lemma process_line_body_grows line st st' :
  process_line line st = Ok st' -> body_grows (doc st) (doc st').
Proof.
  rewrite process_line_classify.
  destruct (classify line) as [|m|m text|l].
  - intros [= <-]. apply body_grows_refl.
  - intros [= <-]. apply body_grows_refl.
  - apply handle_body_grows.
  - intros [= <-]. rewrite plain_push. apply body_grows_push.
Qed.

(** X5. The body is append-only. Whatever lines are processed, every
    paragraph already in the body stays at its position with its style,
    alignment, indent, space before and border; its runs are kept in
    order and new runs come only after them. *)
Theorem body_is_append_only (lines : list string) (st st' : State) :
  process_lines lines st = Ok st' ->
  forall i p, paragraphs (doc st) !! i = Some p ->
    exists p', paragraphs (doc st') !! i = Some p' /\ grows p p'.
Proof.
  revert st. induction lines as [|line rest IH]; intros st; cbn [process_lines].
  - intros [= <-]. apply body_grows_refl.
  - destruct (process_line line st) as [st1|e] eqn:E; [|discriminate].
    cbn [bind]. intros H.
    eapply body_grows_trans; [eapply process_line_body_grows; exact E|].
    exact (IH st1 H).
Qed.

Lemma body_is_append_only_witness :
  process_lines ["[COMPANY] Acme"; "[DATES] 2020-2022"] engineer_open =
    Ok (mkState (push engineer_acme (doc initial_state)) None None) /\
  paragraphs (doc engineer_open) !! 0%nat = Some engineer_title /\
  exists p',
    paragraphs (push engineer_acme (doc initial_state)) !! 0%nat = Some p' /\
    grows engineer_title p'.
Proof.
  assert (process_lines ["[COMPANY] Acme"; "[DATES] 2020-2022"] engineer_open =
          Ok (mkState (push engineer_acme (doc initial_state)) None None)) as H
    by reflexivity.
  split; [exact H|]. split; [reflexivity|].
  exact (body_is_append_only _ _ _ H 0%nat engineer_title eq_refl).
Defined.

End AppendOnly.

(** ** Lines and paragraphs *)

Section LinesAndParagraphs.

Lemma paragraphs_set_paragraphs l d : paragraphs (set_paragraphs l d) = l.
Proof. reflexivity. Qed.

Lemma handle_length kind text st st' :
  split LF text = [text] ->
  handle kind text st = Ok st' ->
  (length (paragraphs (doc st')) <= S (length (paragraphs (doc st))))%nat.
Proof.
  intros Hone H. unfold handle in H.
  destruct kind;
    rewrite ?add_styled_paragraph_push, ?add_bullet_point_push in H;
    case_handler H;
    rewrite ?add_styled_paragraph_push in H;
    try discriminate; injection H as <-; cbn [doc];
    unfold add_horizontal_line;
    rewrite ?summary_loop_closed; unfold summary_paragraphs; rewrite ?Hone;
    rewrite ?paragraphs_update_para, ?length_alter,
            ?paragraphs_push, ?paragraphs_set_paragraphs, ?length_app;
    cbn [length map]; lia.
Qed.

Lemma skipped_line_step line st :
  skipped_line line = true -> process_line line st = Ok st.
Proof.
  unfold skipped_line. rewrite process_line_classify.
  now destruct (classify line).
Qed.

Lemma process_line_length line st st' :
  process_line line st = Ok st' ->
  (length (paragraphs (doc st')) <=
   length (paragraphs (doc st)) + (if skipped_line line then 0 else 1))%nat.
Proof.
  unfold skipped_line. rewrite process_line_classify.
  destruct (classify line) as [|m|m text|l] eqn:Hc.
  - intros [= <-]. lia.
  - intros [= <-]. lia.
  - intros H.
    pose proof (handle_length m text st st'
                  (classify_payload_one_line _ _ _ Hc) H). lia.
  - intros [= <-]. rewrite plain_push. cbn [doc].
    rewrite paragraphs_push, length_app. cbn. lia.
Qed.

(** X6. One line gives at most one paragraph: after any lines, the
    body has at most as many new paragraphs as there were lines that
    are neither blank nor a marker with an empty payload.  A summary
    is no exception, since the payload of a line holds no line feed. *)
Theorem paragraphs_bounded_by_lines (lines : list string) (st st' : State) :
  process_lines lines st = Ok st' ->
  (length (paragraphs (doc st')) <=
   length (paragraphs (doc st)) +
   length (List.filter (fun l => negb (skipped_line l)) lines))%nat.
Proof.
  revert st. induction lines as [|line rest IH]; intros st;
    cbn [process_lines List.filter].
  - intros [= <-]. cbn. lia.
  - destruct (process_line line st) as [st1|e] eqn:E; [|discriminate].
    cbn [bind]. intros H. specialize (IH st1 H).
    pose proof (process_line_length _ _ _ E) as Hl.
    destruct (skipped_line line); cbn [negb length] in *; lia.
Qed.

Lemma paragraphs_bounded_by_lines_witness :
  process_lines engineer_acme_lines initial_state =
    Ok (mkState (push engineer_acme (doc initial_state)) None None) /\
  (length (paragraphs (push engineer_acme (doc initial_state))) <=
   length (paragraphs (doc initial_state)) +
   length (List.filter (fun l => negb (skipped_line l)) engineer_acme_lines))%nat.
Proof.
  assert (process_lines engineer_acme_lines initial_state =
          Ok (mkState (push engineer_acme (doc initial_state)) None None)) as H
    by reflexivity.
  split; [exact H|].
  exact (paragraphs_bounded_by_lines _ _ _ H).
Defined.

(** X7. Blank lines and markers with an empty payload carry no
    meaning: such a line can be put in or taken out anywhere among the
    lines without changing the outcome of the pass, be it a state or
    the exception. *)
Theorem skipped_lines_do_not_matter
    (before after : list string) (line : string) (st : State) :
  skipped_line line = true ->
  process_lines (before ++ line :: after) st =
  process_lines (before ++ after) st.
Proof.
  intros Hs. revert st.
  induction before as [|l before IH]; intros st; cbn [app process_lines].
  - now rewrite (skipped_line_step line st Hs).
  - destruct (process_line l st) as [st1|e]; cbn [bind]; [apply IH | reflexivity].
Qed.

Lemma skipped_lines_do_not_matter_witness :
  skipped_line "[BULLET]" = true /\
  process_lines (["[JOB_TITLE] Engineer"] ++ "[BULLET]" :: ["[DATES] 2020"])
                initial_state =
  process_lines (["[JOB_TITLE] Engineer"] ++ ["[DATES] 2020"]) initial_state.
Proof.
  split; [reflexivity|].
  exact (skipped_lines_do_not_matter _ _ "[BULLET]" initial_state eq_refl).
Defined.

End LinesAndParagraphs.

(** ** The effect of one line *)

Section Effects.

Lemma handle_effect kind text st st' :
  split LF text = [text] ->
  handle kind text st = Ok st' -> step_effect st st'.
Proof.
  intros Hone H. unfold handle in H.
  destruct kind;
    rewrite ?add_styled_paragraph_push, ?add_bullet_point_push in H;
    case_handler H;
    rewrite ?add_styled_paragraph_push in H;
    try discriminate; injection H as <-;
    unfold add_horizontal_line;
    rewrite ?update_para_twice, ?update_para_push, ?summary_loop_closed;
    unfold summary_paragraphs; rewrite ?Hone;
    first
      [ (* a paragraph is pushed *)
        eapply effect_push;
        [ reflexivity | reflexivity
        | first [ left; reflexivity | right; eexists; reflexivity ]
        | unfold tracker_after; cbn; tauto
        | unfold tracker_after; cbn; tauto
        | cbn; tauto ]
      | (* a date is attached *)
        eapply effect_job_date; [eassumption | reflexivity]
      | eapply effect_edu_date; [eassumption | reflexivity]
      | (* skills go onto the last paragraph *)
        eapply effect_skills; [eassumption | eassumption | reflexivity]
      | (* a company or a school joins the open block *)
        eapply effect_join;
        [ left; eassumption
        | match goal with E : last_job_para st = _ |- _ => rewrite E end;
          reflexivity ]
      | eapply effect_join;
        [ right; eassumption
        | match goal with E : last_edu_para st = _ |- _ => rewrite E end;
          reflexivity ]
      | apply effect_none; reflexivity ].
Qed.

Lemma process_line_effect line st st' :
  process_line line st = Ok st' -> step_effect st st'.
Proof.
  rewrite process_line_classify.
  destruct (classify line) as [|m|m text|l] eqn:Hc.
  - intros [= <-]. now apply effect_none.
  - intros [= <-]. now apply effect_none.
  - apply handle_effect. eapply classify_payload_one_line; eassumption.
  - intros [= <-]. rewrite plain_push.
    eapply effect_push;
      [ reflexivity | reflexivity | left; reflexivity
      | unfold tracker_after; cbn; tauto
      | unfold tracker_after; cbn; tauto
      | cbn; tauto ].
Qed.

End Effects.

(** ** The layout invariant *)

Section Layout.

Lemma all_paragraphs_update_at (P : Paragraph -> Prop) i f d :
  (forall p, paragraphs d !! i = Some p -> P p -> P (f p)) ->
  all_paragraphs P d -> all_paragraphs P (update_para i f d).
Proof.
  intros Hf Hd j q. rewrite paragraphs_update_para.
  destruct (decide (i = j)) as [->|Hne].
  - intros H. rewrite list_lookup_alter_eq in H.
    destruct (paragraphs d !! j) as [p|] eqn:E; [|discriminate].
    injection H as <-. apply Hf; [reflexivity | exact (Hd j p E)].
  - rewrite list_lookup_alter_ne by assumption. apply Hd.
Qed.

Lemma open_block_after old new q d :
  open_block_ok old d -> tracker_after old new q d ->
  para_tab_stops q = [] -> open_block_ok new (push q d).
Proof.
  intros Hold [->|[->|[-> Hs]]] Htab i Hi.
  - destruct (Hold i Hi) as (p & Hp & H). exists p.
    split; [now apply lookup_push_old | assumption].
  - discriminate.
  - injection Hi as <-. exists q. split; [apply lookup_push_new | now split].
Qed.

Lemma open_block_update ref i f d :
  (forall p, para_style (f p) = para_style p /\
             para_tab_stops (f p) = para_tab_stops p) ->
  open_block_ok ref d -> open_block_ok ref (update_para i f d).
Proof.
  intros Hf Hd j Hj. destruct (Hd j Hj) as (p & Hp & Hs & Ht).
  rewrite paragraphs_update_para.
  destruct (decide (i = j)) as [->|Hne].
  - exists (f p). rewrite list_lookup_alter_eq, Hp.
    destruct (Hf p) as [-> ->]. now repeat split.
  - exists p. rewrite list_lookup_alter_ne by assumption. now repeat split.
Qed.

Lemma open_block_update_other ref i f d :
  (forall j, ref = Some j -> j <> i) ->
  open_block_ok ref d -> open_block_ok ref (update_para i f d).
Proof.
  intros Hne Hd j Hj. destruct (Hd j Hj) as (p & Hp & H).
  exists p. rewrite paragraphs_update_para, list_lookup_alter_ne; [now split|].
  intros ->. now apply (Hne j).
Qed.

Lemma open_block_None d : open_block_ok None d.
Proof. intros i H. discriminate. Qed.

Lemma bullet_paragraph_page d d' text level sa :
  page_setup d = page_setup d' ->
  bullet_paragraph d text level sa = bullet_paragraph d' text level sa.
Proof.
  intros H. unfold bullet_paragraph, with_normal_font.
  assert (normal_font_name d = normal_font_name d') as ->
    by exact (f_equal normal_font_name H).
  assert (normal_font_size d = normal_font_size d') as ->
    by exact (f_equal normal_font_size H).
  reflexivity.
Qed.

Lemma untouched_default_style p : para_style p = None -> bullet_untouched p.
Proof. intros H Hb. rewrite H in Hb. discriminate. Qed.

Lemma step_layout st st' :
  all_paragraphs colon_is_category (doc st) ->
  layout_ok st -> step_effect st st' -> layout_ok st'.
Proof.
  intros Hcolon (Hj & He & Hdiff & Htabs & Hbul & Hpage) Hstep.
  destruct Hstep as
    [-> | q Hdoc Htab Hstyle Tj Te Hone | i r Hi -> | i text Hi ->
     | i text Hi -> | p text Hlast Hends ->].
  - (* no effect *)
    now repeat split.
  - (* a paragraph is pushed *)
    unfold layout_ok. rewrite Hdoc.
    split; [now apply (open_block_after (last_job_para st))|].
    split; [now apply (open_block_after (last_edu_para st))|].
    split; [|split; [|split]].
    + intros i Hji Hei.
      assert (forall ref, open_block_ok ref (doc st) ->
                ref = Some (length (paragraphs (doc st))) -> False) as Hfresh.
      { intros ref Hok Hr. destruct (Hok _ Hr) as (p & Hp & _).
        apply lookup_lt_Some in Hp. lia. }
      destruct Tj as [Ej|[Ej|[Ej _]]]; [|congruence|];
      destruct Te as [Ee|[Ee|[Ee _]]]; try congruence.
      * apply (Hdiff i); congruence.
      * apply (Hfresh _ Hj). congruence.
      * apply (Hfresh _ He). congruence.
      * destruct Hone as [[H|H]|[H|H]]; try congruence.
        -- apply (Hfresh _ Hj). congruence.
        -- apply (Hfresh _ He). congruence.
    + apply all_paragraphs_push; [|assumption]. now left.
    + apply all_paragraphs_push; [|assumption].
      destruct Hstyle as [Hs|[text ->]]; [now apply untouched_default_style|].
      intros _. exists text. apply bullet_paragraph_page. exact Hpage.
    + exact Hpage.
  - (* a run joins the paragraph of an open block *)
    assert (forall p, paragraphs (doc st) !! i = Some p -> para_style p = None)
      as Hdefault.
    { intros p Hp. destruct Hi as [Hi|Hi];
        [destruct (Hj i Hi) as (p' & Hp' & Hs & _)
        |destruct (He i Hi) as (p' & Hp' & Hs & _)]; congruence. }
    unfold layout_ok. cbn [doc last_job_para last_edu_para].
    split; [now apply open_block_update|].
    split; [now apply open_block_update|].
    split; [assumption|]. split; [|split; [|exact Hpage]].
    + apply all_paragraphs_update_at; [|assumption]. now intros p _ H.
    + apply all_paragraphs_update_at; [|assumption].
      intros p Hp _. apply untouched_default_style.
      cbn. now apply Hdefault.
  - (* the date of the job block *)
    destruct (Hj i Hi) as (p0 & Hp0 & Hs0 & Ht0).
    unfold layout_ok. cbn [doc last_job_para last_edu_para].
    split; [apply open_block_None|].
    split; [apply open_block_update_other; [|assumption];
            intros j Hje ->; now apply (Hdiff i)|].
    split; [discriminate|]. split; [|split; [|exact Hpage]].
    + apply all_paragraphs_update_at; [|assumption].
      intros p Hp _. assert (p = p0) as -> by congruence.
      right. unfold attach_date. cbn. now rewrite Ht0.
    + apply all_paragraphs_update_at; [|assumption].
      intros p Hp _. assert (p = p0) as -> by congruence.
      now apply untouched_default_style.
  - (* the date of the education block *)
    destruct (He i Hi) as (p0 & Hp0 & Hs0 & Ht0).
    unfold layout_ok. cbn [doc last_job_para last_edu_para].
    split; [apply open_block_update_other; [|assumption];
            intros j Hjj ->; now apply (Hdiff i)|].
    split; [apply open_block_None|].
    split; [discriminate|]. split; [|split; [|exact Hpage]].
    + apply all_paragraphs_update_at; [|assumption].
      intros p Hp _. assert (p = p0) as -> by congruence.
      right. unfold attach_date. cbn. now rewrite Ht0.
    + apply all_paragraphs_update_at; [|assumption].
      intros p Hp _. assert (p = p0) as -> by congruence.
      now apply untouched_default_style.
  - (* skills on the last paragraph *)
    assert (paragraphs (doc st) !! (length (paragraphs (doc st)) - 1)%nat
            = Some p) as Hp.
    { rewrite <- Hlast, last_lookup. f_equal. lia. }
    assert (para_style p = None) as Hs.
    { destruct (Hcolon _ _ Hp) as [Hcalm|[t ->]]; [|reflexivity].
      unfold calm in Hcalm. congruence. }
    unfold layout_ok. cbn [doc last_job_para last_edu_para].
    split; [now apply open_block_update|].
    split; [now apply open_block_update|].
    split; [assumption|]. split; [|split; [|exact Hpage]].
    + apply all_paragraphs_update_at; [|assumption]. now intros q _ H.
    + apply all_paragraphs_update_at; [|assumption].
      intros q Hq _. assert (q = p) as -> by congruence.
      now apply untouched_default_style.
Qed.

Lemma reachable_layout st : reachable st -> layout_ok st.
Proof.
  induction 1 as [|st line st' Hr IH Hstep].
  - unfold layout_ok. repeat split; try apply open_block_None;
      try discriminate; intros i p H; discriminate.
  - apply (step_layout st st'); [now apply reachable_colon | exact IH |].
    eapply process_line_effect. exact Hstep.
Qed.

Lemma process_lines_reachable lines :
  forall st st', reachable st -> process_lines lines st = Ok st' -> reachable st'.
Proof.
  induction lines as [|line rest IH]; intros st st' Hr; cbn [process_lines].
  - now intros [= <-].
  - destruct (process_line line st) as [st1|e] eqn:E; [|discriminate].
    cbn [bind]. apply IH. eapply reachable_step; eassumption.
Qed.

Lemma render_reachable text st : render text = Ok st -> reachable st.
Proof. apply process_lines_reachable, reachable_initial. Qed.

Lemma text_to_docx_render text d :
  text_to_docx text = Ok d -> exists st, render text = Ok st /\ d = doc st.
Proof.
  unfold text_to_docx. destruct (render text) as [st|e]; [|discriminate].
  intros [= <-]. now exists st.
Qed.

(** X8. A paragraph is given a date at most once: in the document that
    [text_to_docx] returns every paragraph has either no tab stop or
    exactly the one right tab stop at six and a half inches. *)
Theorem one_date_per_paragraph (text : string) (d : Document) :
  text_to_docx text = Ok d ->
  forall i p, paragraphs d !! i = Some p ->
    para_tab_stops p = [] \/
    para_tab_stops p = [mkTabStop (Inches 650) RIGHT].
Proof.
  intros H. destruct (text_to_docx_render _ _ H) as (st & Hr & ->).
  destruct (reachable_layout st (render_reachable _ _ Hr))
    as (_ & _ & _ & Htabs & _).
  exact Htabs.
Qed.

Lemma one_date_per_paragraph_witness :
  text_to_docx (join_lines engineer_acme_lines) =
    Ok (push engineer_acme (doc initial_state)) /\
  (para_tab_stops engineer_acme = [] \/
   para_tab_stops engineer_acme = [mkTabStop (Inches 650) RIGHT]).
Proof.
  assert (text_to_docx (join_lines engineer_acme_lines) =
          Ok (push engineer_acme (doc initial_state))) as H by reflexivity.
  split; [exact H|].
  exact (one_date_per_paragraph _ _ H 0%nat engineer_acme eq_refl).
Defined.

(** X9. A bulleted paragraph is never touched after it is emitted: in
    the document that [text_to_docx] returns every paragraph in the
    [List Bullet] style is exactly what [add_bullet_point] built from
    some payload at level 0, so each of its runs carries the font of
    the Normal style, Calibri at 10 points. *)
Theorem bullets_stay_as_emitted (text : string) (d : Document) :
  text_to_docx text = Ok d ->
  forall i p, paragraphs d !! i = Some p ->
    para_style p = Some "List Bullet" ->
    (exists payload, p = bullet_paragraph (doc initial_state) payload 0 (Pt 2)) /\
    Forall (fun r => run_font_name r = Some "Calibri" /\
                     run_font_size r = Some (Pt 10)) (para_runs p).
Proof.
  intros H i p Hp Hs. destruct (text_to_docx_render _ _ H) as (st & Hr & ->).
  destruct (reachable_layout st (render_reachable _ _ Hr))
    as (_ & _ & _ & _ & Hbul & _).
  destruct (Hbul i p Hp Hs) as [payload ->].
  split; [now exists payload|].
  unfold bullet_paragraph. cbn [para_runs].
  induction (sentence_runs 0 true (punctuate (split ". " payload)))
    as [|r rs IH]; cbn [map]; constructor; [now split | exact IH].
Qed.

Lemma bullets_stay_as_emitted_witness :
  text_to_docx (join_lines ["[BULLET] Did X. Led Y and Z"; "[SKILLS] Go"]) =
    Ok (push (skills_paragraph "Go")
          (push (bullet_paragraph (doc initial_state) "Did X. Led Y and Z" 0 (Pt 2))
                (doc initial_state))) /\
  Forall (fun r => run_font_name r = Some "Calibri" /\
                   run_font_size r = Some (Pt 10))
         (para_runs (bullet_paragraph (doc initial_state)
                       "Did X. Led Y and Z" 0 (Pt 2))).
Proof.
  assert (text_to_docx
            (join_lines ["[BULLET] Did X. Led Y and Z"; "[SKILLS] Go"]) =
          Ok (push (skills_paragraph "Go")
                (push (bullet_paragraph (doc initial_state)
                         "Did X. Led Y and Z" 0 (Pt 2))
                      (doc initial_state)))) as H by reflexivity.
  split; [exact H|].
  exact (proj2 (bullets_stay_as_emitted _ _ H 0%nat _ eq_refl eq_refl)).
Defined.

(** X10. The page setup does not depend on the text: whatever document
    [text_to_docx] returns has half-inch margins on all four sides,
    Calibri at 10 points as the font of the Normal style, and the
    compact bullet style. *)
Theorem page_setup_is_fixed (text : string) (d : Document) :
  text_to_docx text = Ok d ->
  top_margin d = Inches 50 /\ bottom_margin d = Inches 50 /\
  left_margin d = Inches 50 /\ right_margin d = Inches 50 /\
  normal_font_name d = Some "Calibri" /\
  normal_font_size d = Some (Pt 10) /\
  list_bullet d = mkBulletStyle (Some (Pt 2)) (Some (Pt 0)) (Some 100%Z).
Proof.
  intros H. destruct (text_to_docx_render _ _ H) as (st & Hr & ->).
  destruct (reachable_layout st (render_reachable _ _ Hr))
    as (_ & _ & _ & _ & _ & Hpage).
  repeat split.
  - exact (f_equal top_margin Hpage).
  - exact (f_equal bottom_margin Hpage).
  - exact (f_equal left_margin Hpage).
  - exact (f_equal right_margin Hpage).
  - exact (f_equal normal_font_name Hpage).
  - exact (f_equal normal_font_size Hpage).
  - exact (f_equal list_bullet Hpage).
Qed.

Lemma page_setup_is_fixed_witness :
  text_to_docx "[NAME] Ada" =
    Ok (push (styled_paragraph "Ada" (Some (Pt 16)) true false (Some CENTER)
                (Pt 2) (Pt 0)) (doc initial_state)) /\
  top_margin (push (styled_paragraph "Ada" (Some (Pt 16)) true false
                      (Some CENTER) (Pt 2) (Pt 0)) (doc initial_state))
    = Inches 50.
Proof.
  assert (text_to_docx "[NAME] Ada" =
          Ok (push (styled_paragraph "Ada" (Some (Pt 16)) true false
                      (Some CENTER) (Pt 2) (Pt 0)) (doc initial_state))) as H
    by reflexivity.
  split; [exact H|].
  exact (proj1 (page_setup_is_fixed _ _ H)).
Defined.

End Layout.

(** ** [add_bullet_point] at every level *)

Section BulletLevels.




End BulletLevels.

(** ** The name of the tailored file *)

Section IdentifierProperties.

Variable w : ascii -> bool.

Lemma all_chars_app P s t :
  all_chars P (s +:+ t) = all_chars P s && all_chars P t.
Proof.
  induction s as [|c s IH]; [reflexivity|].
  rewrite str_app_cons. cbn [all_chars]. now rewrite IH, andb_assoc.
Qed.

Lemma all_chars_weaken (P Q : ascii -> bool) s :
  (forall c, P c = true -> Q c = true) ->
  all_chars P s = true -> all_chars Q s = true.
Proof.
  intros HPQ. induction s as [|c s IH]; [reflexivity|]. cbn [all_chars].
  intros H. apply andb_true_iff in H as [Hc Hs].
  now rewrite (HPQ c Hc), IH.
Qed.

Lemma remove_unsafe_kept text : all_chars (kept w) (remove_unsafe w text) = true.
Proof.
  induction text as [|c text IH]; [reflexivity|]. cbn [remove_unsafe].
  destruct (kept w c) eqn:E; [|exact IH]. cbn [all_chars]. now rewrite E, IH.
Qed.

Lemma lstrip_all_chars P s : all_chars P s = true -> all_chars P (lstrip s) = true.
Proof.
  induction s as [|c s IH]; [reflexivity|]. cbn [lstrip all_chars].
  intros H. apply andb_true_iff in H as [Hc Hs].
  destruct (isspace c); [now apply IH|]. cbn [all_chars]. now rewrite Hc, Hs.
Qed.

Lemma rstrip_all_chars P s : all_chars P s = true -> all_chars P (rstrip s) = true.
Proof.
  induction s as [|c s IH]; [reflexivity|]. rewrite rstrip_cons. cbn [all_chars].
  intros H. apply andb_true_iff in H as [Hc Hs].
  destruct (is_empty (rstrip s) && isspace c); [reflexivity|].
  cbn [all_chars]. now rewrite Hc, IH.
Qed.

Lemma strip_all_chars P s : all_chars P s = true -> all_chars P (strip s) = true.
Proof. intros H. now apply rstrip_all_chars, lstrip_all_chars. Qed.

Lemma underscore_safe : name_safe w "_"%char = true.
Proof. reflexivity. Qed.

Lemma replace_spaces_safe s :
  all_chars (kept w) s = true ->
  all_chars (name_safe w) (replace_spaces s) = true.
Proof.
  induction s as [|c s IH]; [reflexivity|]. cbn [all_chars replace_spaces].
  intros H. apply andb_true_iff in H as [Hc Hs]. rewrite (IH Hs), andb_true_r.
  destruct (Ascii.eqb c " "%char) eqn:E; [apply underscore_safe|].
  unfold name_safe. rewrite E. unfold kept in Hc.
  destruct (isword w c); [reflexivity|].
  destruct (Ascii.eqb c "-"%char); [reflexivity|].
  destruct (isspace c); [reflexivity|discriminate Hc].
Qed.

Lemma sanitize_safe text : all_chars (name_safe w) (sanitize w text) = true.
Proof. apply replace_spaces_safe, strip_all_chars, remove_unsafe_kept. Qed.

Lemma name_safe_not_separator c :
  name_safe w c = true ->
  c <> "/"%char /\ c <> "\"%char /\ c <> "."%char /\ c <> " "%char /\
  c <> ":"%char.
Proof.
  intros H. repeat split; intros ->; vm_compute in H; discriminate.
Qed.

(** X12. Whatever the user name, job title and company are, each part
    of the file name that [sanitize] produces holds only word
    characters, hyphens and white space other than the space: never a
    slash, a backslash, a dot, a colon or a space.  White space inside a
    value is not removed, only spaces become underscores: a tab stays a
    tab. *)
Theorem sanitize_gives_safe_names (text : string) :
  all_chars (name_safe w) (sanitize w text) = true /\
  all_chars (fun c => negb (Ascii.eqb c "/"%char) &&
                      negb (Ascii.eqb c "\"%char) &&
                      negb (Ascii.eqb c "."%char) &&
                      negb (Ascii.eqb c " "%char))
            (sanitize w text) = true /\
  sanitize w ("../a b" +:+ TAB +:+ "c ") = "a_b" +:+ TAB +:+ "c".
Proof.
  split; [apply sanitize_safe|]. split; [|reflexivity].
  apply (all_chars_weaken (name_safe w)); [|apply sanitize_safe].
  intros c Hc. destruct (name_safe_not_separator c Hc) as (H1 & H2 & H3 & H4 & _).
  apply Ascii.eqb_neq in H1, H2, H3, H4. now rewrite H1, H2, H3, H4.
Qed.

Lemma str_app_nil_l s : EmptyString +:+ s = s.
Proof. reflexivity. Qed.

Lemma remove_unsafe_fixed s :
  all_chars (kept w) s = true -> remove_unsafe w s = s.
Proof.
  induction s as [|c s IH]; [reflexivity|]. cbn [all_chars remove_unsafe].
  intros H. apply andb_true_iff in H as [Hc Hs]. now rewrite Hc, (IH Hs).
Qed.

Lemma name_safe_kept c : name_safe w c = true -> kept w c = true.
Proof.
  unfold name_safe, kept. destruct (isword w c); [reflexivity|].
  destruct (Ascii.eqb c "-"%char); [intros _; apply orb_true_r|].
  destruct (isspace c); [reflexivity|discriminate].
Qed.

Lemma name_safe_not_space c :
  name_safe w c = true -> Ascii.eqb c " "%char = false.
Proof.
  intros H. apply Ascii.eqb_neq. now destruct (name_safe_not_separator c H) as (_ & _ & _ & ? & _).
Qed.

Lemma replace_spaces_fixed s :
  all_chars (name_safe w) s = true -> replace_spaces s = s.
Proof.
  induction s as [|c s IH]; [reflexivity|]. cbn [all_chars replace_spaces].
  intros H. apply andb_true_iff in H as [Hc Hs].
  now rewrite (name_safe_not_space c Hc), (IH Hs).
Qed.

Lemma trimmed_strip s : trimmed s = true -> strip s = s.
Proof.
  destruct s as [|a s]; [reflexivity|]. unfold trimmed.
  intros H. apply andb_true_iff in H as [Ha Hl]. apply negb_true_iff in Ha.
  unfold strip. rewrite (lstrip_fixed a s Ha).
  destruct (last_char (String a s)) as [c|] eqn:E.
  - apply negb_true_iff in Hl. now apply (rstrip_fixed _ c).
  - destruct (last_char_some (String a s)) as [c Hc]; [discriminate|congruence].
Qed.

Lemma strip_trimmed s : trimmed (strip s) = true.
Proof.
  destruct (strip s) as [|a r] eqn:E; [reflexivity|]. unfold trimmed.
  rewrite (strip_head s a r E). cbn [negb andb].
  destruct (last_char (String a r)) as [c|] eqn:El; [|reflexivity].
  rewrite <- E in El. unfold strip in El.
  now rewrite (rstrip_last_visible _ c El).
Qed.

Lemma last_char_replace_spaces s :
  last_char (replace_spaces s) =
  option_map (fun c => if Ascii.eqb c " "%char then "_"%char else c)
             (last_char s).
Proof.
  induction s as [|a s IH]; [reflexivity|].
  destruct s as [|b s]; [reflexivity|].
  rewrite (last_char_cons a (String b s)) by discriminate.
  rewrite <- IH. cbn [replace_spaces].
  now rewrite last_char_cons by discriminate.
Qed.

Lemma invisible_space_or_not c :
  isspace c = false ->
  isspace (if Ascii.eqb c " "%char then "_"%char else c) = false.
Proof. intros H. now destruct (Ascii.eqb c " "%char). Qed.

Lemma replace_spaces_trimmed s :
  trimmed s = true -> trimmed (replace_spaces s) = true.
Proof.
  destruct s as [|a s]; [reflexivity|]. intros H.
  assert (Hl := last_char_replace_spaces (String a s)).
  unfold trimmed in H. apply andb_true_iff in H as [Ha Hc].
  apply negb_true_iff in Ha.
  cbn [replace_spaces] in Hl |- *. unfold trimmed. rewrite Hl.
  rewrite (invisible_space_or_not a Ha). cbn [negb andb].
  destruct (last_char (String a s)) as [c|]; [|reflexivity].
  cbn [option_map]. apply negb_true_iff in Hc.
  now rewrite (invisible_space_or_not c Hc).
Qed.

Lemma sanitize_trimmed text : trimmed (sanitize w text) = true.
Proof. apply replace_spaces_trimmed, strip_trimmed. Qed.

(** [sanitize] leaves alone a trimmed string of safe characters. *)
Lemma sanitize_fixed s :
  all_chars (name_safe w) s = true -> trimmed s = true -> sanitize w s = s.
Proof.
  intros Hs Ht. unfold sanitize.
  rewrite remove_unsafe_fixed
    by (apply (all_chars_weaken (name_safe w)); [apply name_safe_kept|exact Hs]).
  rewrite (trimmed_strip s Ht). now apply replace_spaces_fixed.
Qed.

Lemma sanitize_idempotent text : sanitize w (sanitize w text) = sanitize w text.
Proof. apply sanitize_fixed; [apply sanitize_safe|apply sanitize_trimmed]. Qed.

Lemma trimmed_joined a b :
  trimmed a = true -> trimmed b = true -> trimmed (a +:+ "_" +:+ b) = true.
Proof.
  intros Ha Hb.
  assert (Hlast : match last_char (a +:+ "_" +:+ b) with
                  | Some c => negb (isspace c) | None => true end = true).
  { rewrite last_char_app by (destruct b; discriminate).
    destruct b as [|c b]; [reflexivity|].
    rewrite str_app_cons, str_app_nil_l.
    rewrite last_char_cons by discriminate.
    unfold trimmed in Hb. now apply andb_true_iff in Hb as [_ Hb]. }
  destruct a as [|c a].
  - rewrite str_app_nil_l in Hlast |- *. rewrite str_app_cons in Hlast |- *.
    unfold trimmed. now rewrite Hlast.
  - rewrite str_app_cons in Hlast |- *. unfold trimmed. rewrite Hlast.
    unfold trimmed in Ha. apply andb_true_iff in Ha as [Ha _]. now rewrite Ha.
Qed.

Lemma safe_joined a b :
  all_chars (name_safe w) a = true -> all_chars (name_safe w) b = true ->
  all_chars (name_safe w) (a +:+ "_" +:+ b) = true.
Proof.
  intros Ha Hb. rewrite !all_chars_app, Ha, Hb. reflexivity.
Qed.

Lemma sanitize_joined a b :
  sanitize w (sanitize w a +:+ "_" +:+ sanitize w b) =
  sanitize w a +:+ "_" +:+ sanitize w b.
Proof.
  apply sanitize_fixed.
  - apply safe_joined; apply sanitize_safe.
  - apply trimmed_joined; apply sanitize_trimmed.
Qed.

(** X13. Sanitising is idempotent, so the file name depends on the
    user name, job title and company only through their sanitised
    forms: at one clock reading a triple and its sanitised triple give
    the same name. *)
Theorem identifier_of_sanitized_values (name job_title company timestamp : string) :
  sanitize w (sanitize w name) = sanitize w name /\
  generate_unique_identifier w (sanitize w name) (sanitize w job_title)
    (sanitize w company) timestamp =
  generate_unique_identifier w name job_title company timestamp.
Proof.
  split; [apply sanitize_idempotent|].
  unfold generate_unique_identifier. now rewrite !sanitize_idempotent.
Qed.

(** X14. The file name does not keep the boundaries of its fields: at
    one clock reading, a user name made of two values joined by an
    underscore, followed by a job title, gives the same name as the
    first value followed by a job title made of the second value and
    the first job title joined by an underscore. *)
Theorem identifier_fields_run_together (a b c company timestamp : string) :
  generate_unique_identifier w (sanitize w a +:+ "_" +:+ sanitize w b) c
    company timestamp =
  generate_unique_identifier w a (sanitize w b +:+ "_" +:+ sanitize w c)
    company timestamp.
Proof.
  unfold generate_unique_identifier. rewrite !sanitize_joined.
  now rewrite !str_app_assoc.
Qed.

End IdentifierProperties.

(** ** The tracking file *)

Section TrackingFile.

Import Tracking.

Lemma csv_exn_unique (e : csv_exn) : e = ValueError.
Proof. now destruct e. Qed.

Lemma full_row_written row :
  full_row row = true -> dict_to_list (reader_row fieldnames row) = Wrote row.
Proof.
  destruct row as [|a [|b [|c [|d [|e [|f row]]]]]]; try discriminate.
  reflexivity.
Qed.

Lemma full_row_not_empty row : full_row row = true -> row <> [].
Proof. now destruct row. Qed.

Lemma copy_rows_under_header rows out :
  forallb full_row rows = true ->
  copy_rows fieldnames rows out = Wrote (out ++ rows).
Proof.
  revert out. induction rows as [|row rows IH]; intros out H.
  - now rewrite app_nil_r.
  - cbn [forallb] in H. apply andb_true_iff in H as [Hr Hrs].
    destruct row as [|a row]; [discriminate|].
    cbn [copy_rows]. unfold writerow at 1.
    rewrite (full_row_written _ Hr). cbn [and_then].
    rewrite (IH _ Hrs). now rewrite <- app_assoc.
Qed.

Lemma writerow_entry entry out :
  wrong_fields entry = false ->
  writerow entry out = Wrote (out ++ [entry_row entry]).
Proof. intros H. unfold writerow, dict_to_list. now rewrite H. Qed.

Lemma writerow_wrong entry out :
  wrong_fields entry = true -> writerow entry out = Raised ValueError.
Proof. intros H. unfold writerow, dict_to_list. now rewrite H. Qed.

Lemma update_under_header entry rows :
  wrong_fields entry = false -> forallb full_row rows = true ->
  update_tracking_file entry (fieldnames :: rows) =
  Wrote (rows ++ [entry_row entry]).
Proof.
  intros He Hr. unfold update_tracking_file. cbn [and_then].
  rewrite (copy_rows_under_header rows [] Hr). cbn [and_then app].
  now apply writerow_entry.
Qed.

Lemma update_wrong_fields entry existing :
  wrong_fields entry = true ->
  update_tracking_file entry existing = Raised ValueError.
Proof.
  intros He. unfold update_tracking_file.
  destruct existing as [|first rows].
  - cbn. now apply writerow_wrong.
  - cbn [and_then]. destruct (copy_rows first rows []) as [out|e]; cbn [and_then].
    + now apply writerow_wrong.
    + now rewrite (csv_exn_unique e).
Qed.

(** X15. When the tracking file begins with the header row and every
    row after it has five cells, an update with an entry whose keys are
    among the five field names writes those rows and the entry's row,
    and no header: the header row is read as the field names and never
    written again. *)
Theorem header_row_is_dropped (entry : pydict) (rows : list (list string)) :
  wrong_fields entry = false ->
  forallb full_row rows = true ->
  update_tracking_file entry (fieldnames :: rows) =
  Wrote (rows ++ [entry_row entry]).
Proof. apply update_under_header. Qed.

Lemma header_row_is_dropped_witness :
  update_tracking_file
    {| str_items := [("company", PStr "Acme"); ("job_title", PNone)];
       none_item := None |}
    [fieldnames; ["Engineer"; "Initech"; "Lead"; "Resume_x.docx"; "2024"]] =
  Wrote [["Engineer"; "Initech"; "Lead"; "Resume_x.docx"; "2024"];
         [EmptyString; "Acme"; EmptyString; EmptyString; EmptyString]].
Proof.
  apply (header_row_is_dropped
           {| str_items := [("company", PStr "Acme"); ("job_title", PNone)];
              none_item := None |}
           [["Engineer"; "Initech"; "Lead"; "Resume_x.docx"; "2024"]]);
    reflexivity.
Defined.

Lemma writerow_shape rowdict out out' :
  writerow rowdict out = Wrote out' ->
  wrong_fields rowdict = false /\ out' = out ++ [entry_row rowdict].
Proof.
  unfold writerow, dict_to_list. destruct (wrong_fields rowdict); [discriminate|].
  cbn [and_then]. now intros [= <-].
Qed.

Lemma entry_row_length rowdict : length (entry_row rowdict) = 5%nat.
Proof. reflexivity. Qed.

Lemma copy_rows_shape first rows out out' :
  copy_rows first rows out = Wrote out' ->
  Forall (fun r => length r = 5%nat) out ->
  Forall (fun r => length r = 5%nat) out' /\
  (length out' <= length out + length rows)%nat.
Proof.
  revert out. induction rows as [|row rows IH]; intros out H Ho.
  - cbn in H. injection H as <-. split; [exact Ho|cbn; lia].
  - destruct row as [|a row].
    + cbn [copy_rows] in H. destruct (IH out H Ho) as [H1 H2].
      split; [exact H1|cbn [length]; lia].
    + cbn [copy_rows] in H.
      destruct (writerow (reader_row first (a :: row)) out) as [mid|e] eqn:E;
        [|discriminate].
      cbn [and_then] in H. apply writerow_shape in E as [_ ->].
      destruct (IH _ H) as [H1 H2].
      { apply Forall_app. split; [exact Ho|]. constructor; [reflexivity|constructor]. }
      split; [exact H1|]. rewrite length_app in H2. cbn [length] in H2 |- *. lia.
Qed.

(** X16. An update that succeeds was given an entry whose keys are all
    among the five field names; the rows it uploads have five cells
    each, and the last of them is the entry's row.  On a missing or
    empty file it uploads two rows, the header and the entry; on any
    other file it uploads no more rows than the file had, since the
    first row is read as field names and not written back. *)
Theorem successful_update_shape (entry : pydict)
    (existing out : list (list string)) :
  update_tracking_file entry existing = Wrote out ->
  wrong_fields entry = false /\
  Forall (fun r => length r = 5%nat) out /\
  last out = Some (entry_row entry) /\
  (existing = [] -> out = [fieldnames; entry_row entry]) /\
  (existing <> [] -> (length out <= length existing)%nat).
Proof.
  unfold update_tracking_file. destruct existing as [|first rows].
  - cbn [and_then writeheader]. intros H.
    change (writerow {| str_items := dict_zip fieldnames fieldnames [];
                        none_item := None |} [])
      with (Wrote (A:=list (list string)) [fieldnames]) in H.
    cbn [and_then] in H. apply writerow_shape in H as [He ->].
    split; [exact He|]. split; [repeat constructor|].
    split; [reflexivity|]. split; [reflexivity|congruence].
  - cbn [and_then]. intros H.
    destruct (copy_rows first rows []) as [mid|e] eqn:E; [|discriminate].
    cbn [and_then] in H. apply writerow_shape in H as [He ->].
    destruct (copy_rows_shape _ _ _ _ E) as [H1 H2]; [constructor|].
    split; [exact He|]. split.
    { apply Forall_app. split; [exact H1|]. constructor; [reflexivity|constructor]. }
    split; [apply last_snoc|]. split; [discriminate|].
    intros _. rewrite length_app. cbn [length] in H2 |- *. lia.
Qed.

Lemma successful_update_shape_witness :
  wrong_fields {| str_items := [("role", PStr "Lead")]; none_item := None |}
    = false /\
  Forall (fun r => length r = 5%nat)
    [[EmptyString; EmptyString; "Lead"; EmptyString; EmptyString]] /\
  last [[EmptyString; EmptyString; "Lead"; EmptyString; EmptyString]] =
    Some (entry_row {| str_items := [("role", PStr "Lead")];
                       none_item := None |}) /\
  ([["a"; "b"]; []] = [] ->
   [[EmptyString; EmptyString; "Lead"; EmptyString; EmptyString]] =
   [fieldnames;
    entry_row {| str_items := [("role", PStr "Lead")]; none_item := None |}]) /\
  ([["a"; "b"]; []] <> [] ->
   (length [[EmptyString; EmptyString; "Lead"; EmptyString; EmptyString]] <=
    length [["a"; "b"]; ([] : list string)])%nat).
Proof.
  apply (successful_update_shape
           {| str_items := [("role", PStr "Lead")]; none_item := None |}
           [["a"; "b"]; []]).
  reflexivity.
Defined.

(** X17. An entry with a key that is not one of the five field names is
    never recorded: whatever the tracking file holds, the update raises
    [ValueError], before anything is uploaded. *)
Theorem foreign_key_is_refused (entry : pydict) (existing : list (list string)) :
  wrong_fields entry = true ->
  update_tracking_file entry existing = Raised ValueError.
Proof. apply update_wrong_fields. Qed.

Lemma foreign_key_is_refused_witness :
  update_tracking_file
    {| str_items := [("job_title", PStr "Engineer"); ("user_name", PStr "Ann")];
       none_item := None |}
    [] = Raised ValueError.
Proof.
  apply (foreign_key_is_refused
           {| str_items := [("job_title", PStr "Engineer");
                            ("user_name", PStr "Ann")];
              none_item := None |} []).
  reflexivity.
Defined.

(** X18. The entry that [process_resume] of [function_app.py] builds
    has keys outside the five field names, so its update of the tracking
    file raises [ValueError] for every value of its twelve fields and
    every content of the file. *)
Theorem function_app_entry_is_refused
    (user_name original_filename tailored_filename job_title company_name
     role timestamp resume_url changes_summary integration_percentage
     highlighted_skills gap_analysis : pyval)
    (existing : list (list string)) :
  update_tracking_file
    (function_app_tracking_entry user_name original_filename
       tailored_filename job_title company_name role timestamp resume_url
       changes_summary integration_percentage highlighted_skills gap_analysis)
    existing = Raised ValueError.
Proof. apply update_wrong_fields. reflexivity. Qed.

End TrackingFile.

(** ** The tracking file over successive calls of [process_resume] *)

Section Ledger.

Import Tracking.

Variable w : ascii -> bool.

Lemma identifier_not_fieldname name job company timestamp :
  is_fieldname (generate_unique_identifier w name job company timestamp) = false.
Proof. reflexivity. Qed.

Lemma tracking_entry_fields t : wrong_fields (tracking_entry w t) = false.
Proof. reflexivity. Qed.

Lemma tracking_entry_row t :
  entry_row (tracking_entry w t) =
  [job_title t; company_name t; cell (role t); tailored_filename w t;
   cell (date_modified t)].
Proof. reflexivity. Qed.

Lemma set_item_key k v items : In k (map fst (set_item k v items)).
Proof.
  induction items as [|[k' v'] items IH]; [now left|]. cbn [set_item].
  destruct (String.eqb k k'); [now left|]. right. exact IH.
Qed.

Lemma set_item_keeps k k' v items :
  In k (map fst items) -> In k (map fst (set_item k' v items)).
Proof.
  induction items as [|[k0 v0] items IH]; [intros []|]. cbn [set_item map fst In].
  intros [->|H].
  - destruct (String.eqb k' k) eqn:E; [|now left].
    apply String.eqb_eq in E as ->. now left.
  - destruct (String.eqb k' k0); right; [exact H | now apply IH].
Qed.

Lemma wrong_fields_key k d :
  In k (map fst (str_items d)) -> is_fieldname k = false -> wrong_fields d = true.
Proof.
  intros Hk Hf. unfold wrong_fields. destruct (none_item d); [reflexivity|].
  apply existsb_exists. apply in_map_iff in Hk as ([k' v] & <- & Hin).
  exists (k', v). split; [exact Hin|]. cbn [fst] in Hf |- *. now rewrite Hf.
Qed.

(** A row whose fourth cell is not a field name, read as field names,
    makes the row after it unwritable. *)
Lemma fourth_cell_refused a b c d e a' b' c' d' e' :
  is_fieldname d = false ->
  wrong_fields (reader_row [a; b; c; d; e] [a'; b'; c'; d'; e']) = true.
Proof.
  intros Hd. apply (wrong_fields_key d); [|exact Hd].
  unfold reader_row. cbn [length Nat.ltb Nat.leb dict_zip str_items].
  apply set_item_keeps, set_item_key.
Qed.

Lemma third_update_raises t1 t2 entry :
  update_tracking_file entry
    [entry_row (tracking_entry w t1); entry_row (tracking_entry w t2)] =
  Raised ValueError.
Proof.
  rewrite !tracking_entry_row. unfold update_tracking_file.
  cbn [and_then copy_rows]. unfold writerow at 1, dict_to_list at 1.
  rewrite fourth_cell_refused by apply identifier_not_fieldname.
  reflexivity.
Qed.

Lemma track_first t :
  track w [] t = [fieldnames; entry_row (tracking_entry w t)].
Proof. reflexivity. Qed.

Lemma track_second t1 t2 :
  track w [fieldnames; entry_row (tracking_entry w t1)] t2 =
  [entry_row (tracking_entry w t1); entry_row (tracking_entry w t2)].
Proof.
  unfold track.
  rewrite (update_under_header (tracking_entry w t2)
             [entry_row (tracking_entry w t1)]); reflexivity.
Qed.

Lemma track_frozen t1 t2 more :
  fold_left (track w) more
    [entry_row (tracking_entry w t1); entry_row (tracking_entry w t2)] =
  [entry_row (tracking_entry w t1); entry_row (tracking_entry w t2)].
Proof.
  induction more as [|t more IH]; [reflexivity|]. cbn [fold_left].
  unfold track at 2. now rewrite third_update_raises.
Qed.

(** X19. Starting from a missing tracking file, the first call of
    [process_resume] leaves the header and its row; the second leaves
    the two rows without the header; every later call changes nothing,
    its update failing on the file name of the first row, which is read
    as a field name.  The file never holds more than the first two
    entries. *)
Theorem tracking_keeps_two_entries (t1 t2 : tailoring) (more : list tailoring) :
  fold_left (track w) [t1] [] =
    [fieldnames; entry_row (tracking_entry w t1)] /\
  fold_left (track w) (t1 :: t2 :: more) [] =
    [entry_row (tracking_entry w t1); entry_row (tracking_entry w t2)] /\
  forall t, update_tracking_file (tracking_entry w t)
              (fold_left (track w) (t1 :: t2 :: more) []) = Raised ValueError.
Proof.
  assert (H : fold_left (track w) (t1 :: t2 :: more) [] =
              [entry_row (tracking_entry w t1); entry_row (tracking_entry w t2)]).
  { cbn [fold_left]. rewrite track_first, track_second. apply track_frozen. }
  split; [reflexivity|]. split; [exact H|].
  intros t. rewrite H. apply third_update_raises.
Qed.

End Ledger.
